(** * MediPredict inference service: validators, predictor and batch endpoint

    A shallow embedding of [ml/src/api/validators.py], [ml/src/api/predictor.py]
    and the batch route of [ml/src/api/app.py], followed by the properties of
    the inference engine that the specification states about them.

    Conventions of the embedding.
    - A Python [str] is a [string]; its characters are the code points
      U+0000..U+00FF, on which [str.lower], [str.isspace] and the regular
      expression class [\s] are the tables given in [Py].
    - A Python [float] is a binary64 [float]; an [int] is a [Z].
    - A JSON request body is a [request]: the [symptoms] field holds a scalar
      or an array of scalars, every other field a scalar.
    - Code that may raise returns a [result]; [try ... except Exception: pass]
      is the combinator [try_pass].
    - [np.argsort] is a parameter, the class [Numpy]: numpy does not fix the
      order that its default sort leaves equal entries in, so the statements
      hold for every sort that meets the contract of [np.argsort]; the
      examples are evaluated with one such sort, [insertion_numpy].
    - The classifier, the scaler and the label encoders are the fields of the
      artifact bundle [DiseasePredictor]: functions and tables supplied by the
      caller, as the pickled objects are in the service.
    - Logging is not modelled, except for the lists that the log lines print
      (matched, unmatched and unrecognized symptoms); the [timestamp] of a
      response is left out.

    The modules [Py] and [Np] hold the Python and numpy operations the
    service calls; [Validators], [Predictor] and [App] follow the three source
    files; [Samples] holds the requests and the bundle the examples run on;
    [Notions] the vocabulary of the statements.  The properties come last. *)

From Stdlib Require Import ZArith QArith Qround Floats Ascii String List Lia Bool.
From Stdlib Require Import DecimalString Permutation Sorted.
From stdpp Require Import gmap strings list.

Close Scope Q_scope.
Set Warnings "-inexact-float".
Local Open Scope string_scope.
Local Open Scope Z_scope.

(* ================================================================== *)
(** * Python built-ins used by the service *)
(* ================================================================== *)

Module Py.

(** ** Exceptions and results *)

Inductive exn : Type :=
| ValueError (msg : string)
| TypeError (msg : string).

Inductive result (A : Type) : Type :=
| Ok (a : A)
| Raise (e : exn).
Arguments Ok {A} a.
Arguments Raise {A} e.

Definition bind {A B} (r : result A) (k : A -> result B) : result B :=
  match r with
  | Ok a => k a
  | Raise e => Raise e
  end.

(** [try: body / except Exception: pass] *)
Definition try_pass (body : result unit) : result unit :=
  match body with
  | Ok u => Ok u
  | Raise _ => Ok tt
  end.

(** [try: x = body / except Exception: x = dflt] *)
Definition try_default {A} (body : result A) (dflt : A) : A :=
  match body with
  | Ok a => a
  | Raise _ => dflt
  end.

(** ** Values carried by a JSON request *)

Inductive scalar : Type :=
| VNone
| VBool (b : bool)
| VInt (z : Z)
| VFloat (f : float)
| VStr (s : string).

Inductive value : Type :=
| Scalar (v : scalar)
| VList (vs : list scalar).

Coercion Scalar : scalar >-> value.

(** ** Characters *)

Definition code (c : ascii) : N := N_of_ascii c.

(** [str.isspace] and the class [\s] of [re] on U+0000..U+00FF. *)
Definition isspace (c : ascii) : bool :=
  let n := code c in
  (((9 <=? n) && (n <=? 13)) || ((28 <=? n) && (n <=? 32))
   || (n =? 133) || (n =? 160))%N.

(** [str.lower] on one character of U+0000..U+00FF. *)
Definition lower_char (c : ascii) : ascii :=
  let n := code c in
  if (((65 <=? n) && (n <=? 90))
      || ((192 <=? n) && (n <=? 222) && negb (n =? 215)))%N
  then ascii_of_N (n + 32) else c.

(** ** Strings *)

Fixpoint lower (s : string) : string :=
  match s with
  | EmptyString => EmptyString
  | String c s' => String (lower_char c) (lower s')
  end.

Fixpoint lstrip (s : string) : string :=
  match s with
  | EmptyString => EmptyString
  | String c s' => if isspace c then lstrip s' else s
  end.

Fixpoint rstrip (s : string) : string :=
  match s with
  | EmptyString => EmptyString
  | String c s' =>
      match rstrip s' with
      | EmptyString => if isspace c then EmptyString else String c EmptyString
      | r => String c r
      end
  end.

(** [s.strip()] *)
Definition strip (s : string) : string := rstrip (lstrip s).

(** [s.endswith(suffix)] *)
Definition endswith (s suffix : string) : bool :=
  let n := String.length s in
  let k := String.length suffix in
  (k <=? n)%nat && String.eqb (substring (n - k) k s) suffix.

(** [s[:-k]] for a string of at least [k] characters *)
Definition drop_last (k : nat) (s : string) : string :=
  substring 0 (String.length s - k) s.

(** [re.sub(r"[\s_]+", " ", s)]: every maximal run of white space and
    underscores becomes one space.  [in_run] tells that the character
    before the current one belonged to a run. *)
Definition is_sep (c : ascii) : bool :=
  isspace c || (code c =? 95)%N.

Fixpoint sub_seps_from (in_run : bool) (s : string) : string :=
  match s with
  | EmptyString => EmptyString
  | String c s' =>
      if is_sep c
      then (if in_run then sub_seps_from true s'
            else String " " (sub_seps_from true s'))
      else String c (sub_seps_from false s')
  end.

Definition sub_seps (s : string) : string := sub_seps_from false s.

(** [re.sub(r"[^a-z0-9 ]+", "", s)]: only the characters of the class
    [a-z0-9 ] are kept. *)
Definition is_kept (c : ascii) : bool :=
  let n := code c in
  (((97 <=? n) && (n <=? 122)) || ((48 <=? n) && (n <=? 57)) || (n =? 32))%N.

Fixpoint sub_nonalnum (s : string) : string :=
  match s with
  | EmptyString => EmptyString
  | String c s' =>
      if is_kept c then String c (sub_nonalnum s') else sub_nonalnum s'
  end.

(** ** Numbers *)

(** [float(z)]: the binary64 nearest to the integer. *)
Definition float_of_Z (z : Z) : float :=
  SF2Prim (binary_normalize prec emax z 0 false).

(** The exact value of a finite binary64. *)
Definition Q_of_finite (s : bool) (m : positive) (e : Z) : Q :=
  ((if s then -1 else 1) * inject_Z (Zpos m) * Qpower 2 e)%Q.

(** Round to the nearest integer, ties to even. *)
Definition round_half_even (q : Q) : Z :=
  let f := Qfloor q in
  let d := (q - inject_Z f)%Q in
  match Qcompare d (1 # 2) with
  | Lt => f
  | Gt => f + 1
  | Eq => if Z.even f then f else f + 1
  end.

(** [round(x, ndigits)] for [ndigits >= 0]: the exact value is rounded to
    [ndigits] decimals (ties to even) and the decimal is converted back to
    the nearest binary64. *)
Definition round (x : float) (ndigits : nat) : float :=
  match Prim2SF x with
  | S754_finite s m e =>
      let p := Z.pow 10 (Z.of_nat ndigits) in
      let r := round_half_even (Q_of_finite false m e * inject_Z p)%Q in
      match r with
      | Zpos r' =>
          SF2Prim (SFdiv prec emax (S754_finite s r' 0)
                                   (S754_finite false (Z.to_pos p) 0))
      | _ => SF2Prim (S754_zero s)
      end
  | _ => x
  end.

(** ** [str(x)] for a float: the shortest decimal that reads back as [x]

    [repr] prints the shortest digit string whose nearest binary64 is [x]
    (the closest to [x] among the shortest), in positional notation when
    the decimal point position lies in (-4, 16], else with an exponent. *)

(** The rounding interval of [m * 2^e]: half-way to either neighbour. *)
Definition interval_low (m : positive) (e : Z) : Q :=
  let x := Q_of_finite false m e in
  if (Pos.eqb m 4503599627370496 && (-1074 <? e))%bool
  then (x - Qpower 2 (e - 2))%Q else (x - Qpower 2 (e - 1))%Q.

Definition interval_high (m : positive) (e : Z) : Q :=
  (Q_of_finite false m e + Qpower 2 (e - 1))%Q.

Definition in_interval (m : positive) (e : Z) (c : Q) : bool :=
  let lo := interval_low m e in
  let hi := interval_high m e in
  let closed := Z.even (Zpos m) in
  match Qcompare lo c, Qcompare c hi with
  | Lt, Lt => true
  | Eq, (Lt | Eq) => closed
  | Lt, Eq => closed
  | _, _ => false
  end.

(** The position [k] of the decimal point: [10^(k-1) <= x < 10^k]. *)
Fixpoint decpt_down (fuel : nat) (x : Q) (j : Z) : Z :=
  match fuel with
  | O => - j
  | S fuel' =>
      match Qcompare (x * Qpower 10 (j + 1)) 1 with
      | Lt => decpt_down fuel' x (j + 1)
      | _ => - j
      end
  end.

Definition decpt_of (x : Q) : Z :=
  match Qfloor x with
  | Zpos p => Z.of_nat (String.length (NilZero.string_of_int (Z.to_int (Zpos p))))
  | _ => decpt_down 400 x 0
  end.

(** The candidate with [n] digits, if one lies in the interval. *)
Definition candidate (m : positive) (e : Z) (k : Z) (n : Z) : option Z :=
  let x := Q_of_finite false m e in
  let scale := Qpower 10 (k - n) in
  let d := Qfloor (x / scale) in
  let c1 := (inject_Z d * scale)%Q in
  let c2 := (inject_Z (d + 1) * scale)%Q in
  match in_interval m e c1, in_interval m e c2 with
  | true, false => Some d
  | false, true => Some (d + 1)
  | false, false => None
  | true, true =>
      match Qcompare (x - c1) (c2 - x) with
      | Lt => Some d
      | Gt => Some (d + 1)
      | Eq => if Z.even d then Some d else Some (d + 1)
      end
  end.

Fixpoint shortest_from (fuel : nat) (m : positive) (e : Z) (k : Z) (n : Z)
  : Z * Z :=
  match fuel with
  | O => (Zpos m, n)
  | S fuel' =>
      match candidate m e k n with
      | Some d => (d, n)
      | None => shortest_from fuel' m e k (n + 1)
      end
  end.

Fixpoint strip_zeros (fuel : nat) (d : Z) : Z :=
  match fuel with
  | O => d
  | S fuel' => if (d mod 10 =? 0) && negb (d =? 0) then strip_zeros fuel' (d / 10) else d
  end.

Fixpoint zeros (n : nat) : string :=
  match n with
  | O => EmptyString
  | S n' => String "0" (zeros n')
  end.

Definition str_of_pos_Z (z : Z) : string :=
  NilZero.string_of_int (Z.to_int z).

(** The digits [ds] and the point position [p] are laid out as [repr]
    does: [0.ds * 10^p]. *)
Definition format_short (ds : string) (p : Z) : string :=
  let l := Z.of_nat (String.length ds) in
  if (p <=? -4) || (16 <? p) then
    let ex := p - 1 in
    let mant :=
      match ds with
      | String c EmptyString => ds
      | String c rest => String c (String "." rest)
      | EmptyString => ds
      end in
    let exs := str_of_pos_Z (Z.abs ex) in
    let exs := if (String.length exs <? 2)%nat then String "0" exs else exs in
    mant ++ "e" ++ (if ex <? 0 then "-" else "+") ++ exs
  else if p <=? 0 then "0." ++ zeros (Z.to_nat (- p)) ++ ds
  else if l <=? p then ds ++ zeros (Z.to_nat (p - l)) ++ ".0"
  else substring 0 (Z.to_nat p) ds ++ "."
       ++ substring (Z.to_nat p) (Z.to_nat (l - p)) ds.

Definition repr_finite (m : positive) (e : Z) : string :=
  let k := decpt_of (Q_of_finite false m e) in
  let '(d, n) := shortest_from 17 m e k 1 in
  let p := if d =? Z.pow 10 n then k + 1 else k in
  format_short (str_of_pos_Z (strip_zeros 400 d)) p.

Definition str_of_float (x : float) : string :=
  match Prim2SF x with
  | S754_nan => "nan"
  | S754_infinity s => if s then "-inf" else "inf"
  | S754_zero s => if s then "-0.0" else "0.0"
  | S754_finite s m e => (if s then "-" else "") ++ repr_finite m e
  end.

(** [str(z)] for an integer. *)
Definition str_of_Z (z : Z) : string :=
  NilZero.string_of_int (Z.to_int z).

Definition str_of_nat (n : nat) : string := str_of_Z (Z.of_nat n).

(** [int(x)] for a float holding an integer value: truncation. *)
Definition int_of_float (x : float) : Z :=
  match Prim2SF x with
  | S754_finite s m e =>
      let a := if 0 <=? e then Z.shiftl (Zpos m) e else Z.shiftr (Zpos m) (- e) in
      if s then - a else a
  | _ => 0
  end.

(** ** Scalars *)

(** [str(v)] *)
Definition str (v : scalar) : string :=
  match v with
  | VNone => "None"
  | VBool true => "True"
  | VBool false => "False"
  | VInt z => str_of_Z z
  | VFloat f => str_of_float f
  | VStr s => s
  end.

(** The truth value of a scalar: [None], [False], [0], [0.0], [-0.0] and
    the empty string are false; a NaN is true. *)
Definition truthy (v : scalar) : bool :=
  match v with
  | VNone => false
  | VBool b => b
  | VInt z => negb (z =? 0)
  | VFloat f => negb (f =? 0)%float
  | VStr s => negb (String.eqb s "")
  end.

Definition truthy_value (v : value) : bool :=
  match v with
  | Scalar x => truthy x
  | VList vs => match vs with [] => false | _ => true end
  end.

(** [isinstance(v, (int, float))]; [bool] is a subclass of [int]. *)
Definition is_number (v : scalar) : bool :=
  match v with
  | VBool _ | VInt _ | VFloat _ => true
  | _ => false
  end.

(** [isinstance(v, str)] *)
Definition is_str (v : scalar) : bool :=
  match v with VStr _ => true | _ => false end.

(** [isinstance(v, (int, float, str))] *)
Definition is_number_or_str (v : scalar) : bool := is_number v || is_str v.

(** [v < k] and [v > k] for a number [v] and an integer literal [k]
    (the callers test [is_number v] first). *)
Definition lt_int (v : scalar) (k : Z) : bool :=
  match v with
  | VBool b => Z.b2z b <? k
  | VInt z => z <? k
  | VFloat f => (f <? float_of_Z k)%float
  | _ => false
  end.

Definition gt_int (v : scalar) (k : Z) : bool :=
  match v with
  | VBool b => k <? Z.b2z b
  | VInt z => k <? z
  | VFloat f => (float_of_Z k <? f)%float
  | _ => false
  end.

(** [v == k] for an integer literal [k] *)
Definition eq_int (v : scalar) (k : Z) : bool :=
  match v with
  | VBool b => Z.b2z b =? k
  | VInt z => z =? k
  | VFloat f => (f =? float_of_Z k)%float
  | _ => false
  end.

(** ** Requests: [data: Dict]

    A request is a JSON object whose values are scalars (null, a boolean,
    a number or a string), but for [symptoms], which may also hold a list
    of scalars.  An object in which another key holds an array or an
    object is not represented: the statements about requests are about
    objects of scalar values. *)

Record request : Type := {
  symptoms_field : option value;       (* data['symptoms'], when present *)
  fields : gmap string scalar          (* every other key of the body *)
}.

(** ['k' in data] for a key other than [symptoms] *)
Definition has_field (data : request) (k : string) : bool :=
  match fields data !! k with Some _ => true | None => false end.

(** [data.get(k)] *)
Definition get (data : request) (k : string) : scalar :=
  match fields data !! k with Some v => v | None => VNone end.

(** [data.get(k, dflt)] *)
Definition get_or (data : request) (k : string) (dflt : scalar) : scalar :=
  match fields data !! k with Some v => v | None => dflt end.

(** [not data]: the empty dict is false. *)
Definition is_empty (data : request) : bool :=
  match symptoms_field data, map_to_list (fields data) with
  | None, [] => true
  | _, _ => false
  end.

(** [data.get('symptoms', [])] *)
Definition get_symptoms (data : request) : value :=
  match symptoms_field data with Some v => v | None => VList [] end.

(** ** Operations of the explanation text *)

(** [type(v).__name__] *)
Definition typename (v : scalar) : string :=
  match v with
  | VNone => "NoneType"
  | VBool _ => "bool"
  | VInt _ => "int"
  | VFloat _ => "float"
  | VStr _ => "str"
  end.

(** [v > k] for an integer literal [k], with no type test before it: [None]
    and strings raise. *)
Definition gt_checked (v : scalar) (k : Z) : result bool :=
  match v with
  | VNone | VStr _ =>
      Raise (TypeError ("'>' not supported between instances of '"
                        ++ typename v ++ "' and 'int'"))
  | _ => Ok (gt_int v k)
  end.

(** [format(x, '.<prec>f')]: the exact value rounded to [prec] decimals (ties
    to even), all integer digits written out. *)
Definition format_fixed (x : float) (prec : nat) : string :=
  let frac (ds : string) :=
    match prec with
    | O => ""
    | _ => "." ++ ds
    end in
  match Prim2SF x with
  | S754_nan => "nan"
  | S754_infinity s => if s then "-inf" else "inf"
  | S754_zero s => (if s then "-" else "") ++ "0" ++ frac (zeros prec)
  | S754_finite s m e =>
      let r := round_half_even
                 (Q_of_finite false m e * inject_Z (Z.pow 10 (Z.of_nat prec)))%Q in
      let ds := str_of_pos_Z r in
      let ds := zeros (S prec - String.length ds) ++ ds in
      let k := (String.length ds - prec)%nat in
      (if s then "-" else "") ++ substring 0 k ds ++ frac (substring k prec ds)
  end.

End Py.

Notation "'do' x <- r ; k" := (Py.bind r (fun x => k))
(at level 10, x name, r at level 100, k at level 200).
Notation "'exec' r ; k" := (Py.bind r (fun _ => k))
(at level 10, r at level 100, k at level 200).

(* ================================================================== *)
(** * The numpy operations used by the predictor *)
(* ================================================================== *)

Module Np.
Import Py.

(** A one-row array: either float64 entries, or the array [np.array(vs)]
    made of the scalars of a request. *)
Inductive ndarray : Type :=
| NdFloat (xs : list float)
| NdOfList (vs : list scalar).

(** [np.zeros(n, dtype=float)] *)
Definition zeros (n : nat) : list float := repeat 0%float n.

(** [a.sum()] on float64 entries.  numpy adds long arrays in blocks; on
    the arrays of the predictor (entries 0.0 and 1.0, or seven vitals) the
    result is that of adding from left to right. *)
Definition sum (xs : list float) : float :=
  fold_left PrimFloat.add xs 0%float.

(** The float64 view of the entries; an array holding [None] or a string
    has none, and the numeric ufuncs raise on it.  Integer entries are
    read as floats. *)
Definition to_float (v : scalar) : option float :=
  match v with
  | VBool b => Some (if b then 1%float else 0%float)
  | VInt z => Some (float_of_Z z)
  | VFloat f => Some f
  | _ => None
  end.

Fixpoint all_floats (vs : list scalar) : option (list float) :=
  match vs with
  | [] => Some []
  | v :: vs' =>
      match to_float v, all_floats vs' with
      | Some x, Some xs => Some (x :: xs)
      | _, _ => None
      end
  end.

Definition as_floats (a : ndarray) : result (list float) :=
  match a with
  | NdFloat xs => Ok xs
  | NdOfList vs =>
      match all_floats vs with
      | Some xs => Ok xs
      | None => Raise (TypeError "ufunc not supported for the input types")
      end
  end.

(** [np.nansum(a)]: NaN entries count as zero. *)
Definition nansum (a : ndarray) : result float :=
  do xs <- as_floats a;
  Ok (sum (map (fun x => if is_nan x then 0%float else x) xs)).

(** [np.all(np.isfinite(a))] *)
Definition all_isfinite (a : ndarray) : result bool :=
  do xs <- as_floats a;
  Ok (forallb is_finite xs).

(** [np.max(p)]: a NaN entry wins; an empty array raises. *)
Definition fmax (x y : float) : float :=
  if is_nan x then x else if is_nan y then y
  else if (x <? y)%float then y else x.

Definition max (p : list float) : result float :=
  match p with
  | [] => Raise (ValueError "zero-size array to reduction operation maximum which has no identity")
  | x :: xs => Ok (fold_left fmax xs x)
  end.

(** The order [np.argsort] sorts float64 by: NaN after every number. *)
Definition less (a b : float) : bool :=
  (a <? b)%float || (is_nan b && negb (is_nan a)).

(** ** np.argsort

    [np.argsort(v)] runs numpy's default sort, which is not stable: numpy
    documents that the result holds the indices of [v] in an order that is
    ascending in [v], and leaves open in which order equal entries come
    out; the order differs between numpy builds (introsort, or a
    vectorised sort) and array lengths.  The contract is written down here
    and the sort itself is a parameter of the model, the class [Numpy]. *)

(** [f a b] holds of every two entries of [l], [a] standing before [b]. *)
Fixpoint pairwise (f : nat -> nat -> bool) (l : list nat) : bool :=
  match l with
  | [] => true
  | a :: rest => forallb (f a) rest && pairwise f rest
  end.

(** [order] holds every index below [n], once. *)
Definition covers (n : nat) (order : list nat) : bool :=
  (List.length order =? n)%nat
  && forallb (fun i => existsb (Nat.eqb i) order) (seq 0 n).

Definition ascending (p : list float) (order : list nat) : bool :=
  pairwise (fun a b => (nth a p nan <=? nth b p nan)%float) order.

(** What [np.argsort(p)] returns, whatever the sorting algorithm: the
    indices of [p], in an order that is ascending in [p]. *)
Definition is_argsort (p : list float) (order : list nat) : bool :=
  covers (List.length p) order && ascending p order.

(** The numpy that the service runs with: its [argsort], of which nothing
    is assumed but the contract (numpy also places NaN last; the order is
    only needed on arrays without NaN). *)
Class Numpy : Type := {
  argsort : list float -> list nat;
  argsort_covers : forall v, covers (List.length v) (argsort v) = true;
  argsort_ascending :
    forall v, Forall (fun x => is_nan x = false) v -> ascending v (argsort v) = true
}.

(** One sort that meets the contract, used to evaluate the examples: the
    stable insertion sort, in which the indices are inserted from left to
    right, each moving left past the indices whose key is greater than its
    own.  [insert_index v vi rsorted] takes the indices placed so far from
    the right-most one to the left-most one. *)
Fixpoint insert_index (v : list float) (vi : nat) (rsorted : list nat) : list nat :=
  match rsorted with
  | [] => [vi]
  | pk :: rest =>
      if less (nth vi v nan) (nth pk v nan)
      then pk :: insert_index v vi rest
      else vi :: rsorted
  end.

Definition insertion_argsort (v : list float) : list nat :=
  rev (fold_left (fun rsorted vi => insert_index v vi rsorted)
                 (seq 0 (List.length v)) []).

End Np.

(* ================================================================== *)
(** * validators.py *)
(* ================================================================== *)

Module Validators.
Import Py.

Definition SUPPORTED_SYMPTOMS : list string :=
  [ "chest pain"; "shortness of breath"; "fatigue"; "dizziness";
    "headache"; "fever"; "cough"; "runny nose"; "sore throat";
    "nausea"; "vomiting"; "diarrhea"; "loss of appetite"; "abdominal pain";
    "joint pain"; "muscle pain"; "body aches"; "body pain"; "rash"; "chills";
    "congestion";
    "dry mouth"; "weakness"; "sweating"; "tremor"; "anxiety"; "insomnia";
    "back pain"; "neck pain"; "shoulder pain"; "arm pain"; "leg pain";
    "numbness"; "tingling"; "itching"; "bruising"; "swelling" ].

Definition supported (s : string) : bool :=
  existsb (String.eqb s) SUPPORTED_SYMPTOMS.

Definition normalize_symptom (symptom_str : scalar) : string :=
  let s := lower (strip (str symptom_str)) in
  let s := sub_seps s in
  let s := sub_nonalnum s in
  strip s.

Definition required_fields : list string :=
  [ "age"; "gender"; "weight";
    "blood_pressure_systolic"; "blood_pressure_diastolic";
    "glucose"; "cholesterol" ].

Fixpoint check_required (data : request) (fs : list string) : result unit :=
  match fs with
  | [] => Ok tt
  | field :: fs' =>
      if negb (has_field data field)
      then Raise (ValueError ("Missing required field: " ++ field))
      else check_required data fs'
  end.

(** [not isinstance(v, (int, float)) or v < lo or v > hi] *)
Definition out_of_range (v : scalar) (lo hi : Z) : bool :=
  negb (is_number v) || lt_int v lo || gt_int v hi.

(** [isinstance(symptoms, list) and len(symptoms) > 0
     and isinstance(symptoms[0], (str,))] *)
Definition symptoms_only_of (symptoms : value) : bool :=
  match symptoms with
  | VList (VStr _ :: _) => true
  | _ => false
  end.

Definition unrecognized_of (symptoms : list scalar) : list scalar :=
  List.filter (fun s =>
            is_str s
            && (let norm := normalize_symptom s in
                negb (String.eqb norm "") && negb (supported norm)))
         symptoms.

(** The checks made on the [symptoms] field.  The list returned is the
    one named in the warning that is logged when it is not empty. *)
Definition check_symptoms (symptoms : value) : result (list scalar) :=
  if truthy_value symptoms then
    match symptoms with
    | Scalar _ => Raise (ValueError "Symptoms must be a list")
    | VList l =>
        if (50 <? List.length l)%nat
        then Raise (ValueError "Maximum 50 symptoms allowed")
        else if negb (forallb is_number_or_str l)
        then Raise (ValueError "Each symptom must be a string or 0/1")
        else Ok (unrecognized_of l)
    end
  else Ok [].

Definition validate_prediction_input (data : request) : result (list scalar) :=
  let symptoms := get_symptoms data in
  let symptoms_only := symptoms_only_of symptoms in
  exec (if negb symptoms_only then check_required data required_fields
        else Ok tt);
  exec (if negb symptoms_only then
          let age := get data "age" in
          if out_of_range age 0 150
          then Raise (ValueError "Age must be a number between 0 and 150")
          else Ok tt
        else Ok tt);
  exec (if negb symptoms_only then
          let gender := get data "gender" in
          if negb (eq_int gender 0 || eq_int gender 1)
          then Raise (ValueError "Gender must be 0 (Female) or 1 (Male)")
          else Ok tt
        else Ok tt);
  exec (if negb symptoms_only then
          let weight := get data "weight" in
          if out_of_range weight 20 300
          then Raise (ValueError "Weight must be between 20 and 300 kg")
          else Ok tt
        else Ok tt);
  exec (if negb symptoms_only then
          let sys_bp := get data "blood_pressure_systolic" in
          let dia_bp := get data "blood_pressure_diastolic" in
          if out_of_range sys_bp 50 250
          then Raise (ValueError "Systolic BP must be between 50 and 250")
          else if out_of_range dia_bp 30 150
          then Raise (ValueError "Diastolic BP must be between 30 and 150")
          else Ok tt
        else Ok tt);
  exec (if negb symptoms_only then
          let glucose := get data "glucose" in
          if out_of_range glucose 40 400
          then Raise (ValueError "Glucose must be between 40 and 400 mg/dL")
          else Ok tt
        else Ok tt);
  exec (if negb symptoms_only then
          let cholesterol := get data "cholesterol" in
          if out_of_range cholesterol 50 500
          then Raise (ValueError "Cholesterol must be between 50 and 500 mg/dL")
          else Ok tt
        else Ok tt);
  let symptoms := get_symptoms data in
  check_symptoms symptoms.

(** The loop [for i, pred in enumerate(predictions)], from index [i] on. *)
Fixpoint validate_each (i : nat) (predictions : list request) : result unit :=
  match predictions with
  | [] => Ok tt
  | pred :: rest =>
      match validate_prediction_input pred with
      | Raise (ValueError e) =>
          Raise (ValueError ("Prediction " ++ str_of_nat i ++ ": " ++ e))
      | Raise e => Raise e
      | Ok _ => validate_each (S i) rest
      end
  end.

(** [predictions] is [None] when the argument is not a list. *)
Definition validate_batch_input (predictions : option (list request)) : result unit :=
  match predictions with
  | None => Raise (ValueError "Predictions must be a list")
  | Some l =>
      if (List.length l =? 0)%nat
      then Raise (ValueError "Predictions list cannot be empty")
      else if (100 <? List.length l)%nat
      then Raise (ValueError "Maximum 100 predictions per batch")
      else validate_each 0 l
  end.

End Validators.

(* ================================================================== *)
(** * predictor.py *)
(* ================================================================== *)

Module Predictor.
Import Py Np.

(** ** The artifact bundle *)

(** The classifier: [predict(features)[0]], and [predict_proba(features)[0]]
    when the model has the method. *)
Record Classifier : Type := {
  predict_class : ndarray -> result Z;
  predict_proba : option (ndarray -> result (list float));
  type_name : string
}.

Record Scaler : Type := {
  transform : ndarray -> result ndarray
}.

Record LabelEncoder : Type := {
  classes_ : list string
}.

Record DiseasePredictor : Type := {
  model : Classifier;
  scaler : option Scaler;
  label_encoders : gmap string LabelEncoder;
  symptom_vocabulary : list string
}.

Definition feature_names : list string :=
  [ "age"; "gender"; "weight";
    "blood_pressure_systolic"; "blood_pressure_diastolic";
    "glucose"; "cholesterol" ].

(** ** Symptom normalisation and variants *)

Definition _norm (s : scalar) : string :=
  let s := strip (lower (str s)) in
  let s := sub_seps s in
  let s := sub_nonalnum s in
  s.

(** The generator [_variants(base)], as the list of what it yields. *)
Definition _variants (base : string) : list string :=
  [base]
  ++ (if endswith base "ing" then [drop_last 3 base] else [])
  ++ (if endswith base "ed" then [drop_last 2 base] else [])
  ++ (if endswith base "s" then [drop_last 1 base] else []).

(** ** The vocabulary index *)

(** [for v in _variants(base): if v not in vocab_index: vocab_index[v] = idx] *)
Definition add_variants (idx : nat) (vs : list string)
    (vocab_index : gmap string nat) : gmap string nat :=
  fold_left (fun (ix : gmap string nat) v =>
               match ix !! v with
               | Some _ => ix
               | None => <[v := idx]> ix
               end) vs vocab_index.

(** [for idx, symptom in enumerate(vocabulary)], from index [idx] on. *)
Fixpoint build_from (idx : nat) (vocabulary : list string)
    (vocab_index : gmap string nat) : gmap string nat :=
  match vocabulary with
  | [] => vocab_index
  | symptom :: rest =>
      let base := _norm (VStr symptom) in
      build_from (S idx) rest (add_variants idx (_variants base) vocab_index)
  end.

Definition build_vocab_index (vocabulary : list string) : gmap string nat :=
  build_from 0 vocabulary ∅.

(** ** The matching loop *)

(** [for v in _variants(key): if v in vocab_index: hit = v; break] *)
Fixpoint find_hit (vocab_index : gmap string nat) (vs : list string) : option string :=
  match vs with
  | [] => None
  | v :: vs' =>
      match vocab_index !! v with
      | Some _ => Some v
      | None => find_hit vocab_index vs'
      end
  end.

(** The position a symptom is matched to, if any. *)
Definition lookup_symptom (vocab_index : gmap string nat) (s : scalar) : option nat :=
  match find_hit vocab_index (_variants (_norm s)) with
  | Some hit => vocab_index !! hit
  | None => None
  end.

Record match_state : Type := {
  feature_vec : list float;
  matched : list scalar;
  unmatched : list scalar
}.

(** One iteration of [for s in data.get('symptoms', [])]. *)
Definition match_step (vocab_index : gmap string nat)
    (st : match_state) (s : scalar) : match_state :=
  if negb (truthy s) then st
  else
    match lookup_symptom vocab_index s with
    | Some i =>
        {| feature_vec := <[i := 1%float]> (feature_vec st);
           matched := matched st ++ [s];
           unmatched := unmatched st |}
    | None =>
        {| feature_vec := feature_vec st;
           matched := matched st;
           unmatched := unmatched st ++ [s] |}
    end.

Definition match_symptoms (vocabulary : list string) (symptoms : list scalar)
  : match_state :=
  fold_left (match_step (build_vocab_index vocabulary)) symptoms
    {| feature_vec := zeros (List.length vocabulary);
       matched := [];
       unmatched := [] |}.

(** ** Feature construction *)

(** The vitals vector [np.array([data.get('age', 0), ...])], in the order
    of [feature_names].  numpy builds the array of any seven scalars
    without raising (an array of numbers, of strings or of objects); it is
    on a vital that holds a JSON array, which a [request] cannot, that
    [np.array] itself may raise. *)
Definition vitals_vector (data : request) : ndarray :=
  NdOfList
    [ get_or data "age" (VInt 0);
      get_or data "gender" (VInt 0);
      get_or data "weight" (VInt 0);
      get_or data "blood_pressure_systolic" (VInt 0);
      get_or data "blood_pressure_diastolic" (VInt 0);
      get_or data "glucose" (VInt 0);
      get_or data "cholesterol" (VInt 0) ].

(** The first part of [predict]: the feature vector and
    [used_symptoms_path], before any scaling. *)
Definition select_features (self : DiseasePredictor) (data : request)
  : ndarray * bool :=
  match symptom_vocabulary self, symptoms_field data with
  | _ :: _, Some (VList symptoms) =>
      let st := match_symptoms (symptom_vocabulary self) symptoms in
      if (0 <? sum (feature_vec st))%float
      then (NdFloat (feature_vec st), true)
      else (vitals_vector data, false)
  | _, _ => (vitals_vector data, false)
  end.

(** [if self.scaler and not used_symptoms_path:] with its [try]. *)
Definition scale_features (self : DiseasePredictor)
    (features : ndarray) (used_symptoms_path : bool) : ndarray :=
  match scaler self with
  | Some sc =>
      if negb used_symptoms_path
      then try_default (transform sc features) features
      else features
  | None => features
  end.

(** The body of the [try] that looks for a usable signal. *)
Definition signal_check (features : ndarray) (used_symptoms_path : bool)
  : result unit :=
  if negb used_symptoms_path then
    do total <- nansum features;
    if (total =? 0)%float
    then Raise (ValueError "No valid symptoms matched vocabulary and vitals are missing. Please add symptoms or vitals.")
    else
      do fin <- all_isfinite features;
      if negb fin
      then Raise (ValueError "No valid symptoms matched vocabulary and vitals are missing. Please add symptoms or vitals.")
      else Ok tt
  else Ok tt.

(** The vector given to the classifier. *)
Definition features_of (self : DiseasePredictor) (data : request) : ndarray :=
  let '(features, used_symptoms_path) := select_features self data in
  scale_features self features used_symptoms_path.

(** ** Risk level *)

Definition _calculate_risk_level (confidence : float) : string :=
  if (0.8 <=? confidence)%float then "High"
  else if (0.6 <=? confidence)%float then "Medium"
  else "Low".

(** ** Labels and the ranked alternatives *)

(** The populated encoder: ['disease'], else ['target']. *)
Definition encoder (self : DiseasePredictor) : option LabelEncoder :=
  match label_encoders self !! "disease" with
  | Some e => Some e
  | None => label_encoders self !! "target"
  end.

(** [encoder.inverse_transform([code])[0]] *)
Definition inverse_transform (e : LabelEncoder) (code : Z) : result string :=
  if (0 <=? code) && (code <? Z.of_nat (List.length (classes_ e)))
  then Ok (nth (Z.to_nat code) (classes_ e) "")
  else Raise (ValueError "y contains previously unseen labels")
.

Definition predicted_label (self : DiseasePredictor) (prediction : Z) : option string :=
  match encoder self with
  | Some e =>
      try_default (do l <- inverse_transform e prediction; Ok (Some l)) None
  | None => None
  end.

Definition class_labels (self : DiseasePredictor) (n : nat) : list string :=
  match encoder self with
  | Some e => classes_ e
  | None => map str_of_nat (seq 0 n)
  end.

Definition top_entry (labels : list string) (probabilities : list float)
    (idx : nat) : string * float :=
  let label :=
    if (idx <? List.length labels)%nat then nth idx labels "" else str_of_nat idx in
  let prob := nth idx probabilities nan in
  (label, round prob 4).

(** The loop over [top_indices] for a given result of [np.argsort]. *)
Definition top_k_from (order : list nat) (labels : list string)
    (probabilities : list float) : list (string * float) :=
  let k := Nat.min 5 (List.length probabilities) in
  let top_indices := firstn k (rev order) in
  map (top_entry labels probabilities) top_indices.

(** The definitions from here on call [np.argsort], through [top_k]. *)
Section WithNumpy.
Context {numpy : Numpy}.

Definition top_indices_of (probabilities : list float) : list nat :=
  firstn (Nat.min 5 (List.length probabilities)) (rev (argsort probabilities)).

Definition build_top_k (self : DiseasePredictor) (probabilities : list float)
  : list (string * float) :=
  top_k_from (argsort probabilities)
    (class_labels self (List.length probabilities)) probabilities.

(** ** predict *)

Record Prediction : Type := {
  predicted_disease : string;
  disease_code : Z;
  confidence : float;
  confidence_percent : float;
  risk_level : string;
  used_symptoms_path : bool;
  matched_symptoms : Z;
  model_type : string;
  top_k : list (string * float)
}.

(** [predict] from the call of the classifier on: the response built for
    the feature vector [features].  The [timestamp] entry of the result is
    the wall clock and is left out. *)
Definition respond (self : DiseasePredictor) (features : ndarray)
    (used : bool) : result Prediction :=
  do prediction <- predict_class (model self) features;
  let probabilities :=
    match predict_proba (model self) with
    | Some proba => try_default (do p <- proba features; Ok (Some p)) None
    | None => None
    end in
  do conf <- match probabilities with
             | Some p => Np.max p
             | None => Ok 0.85%float
             end;
  let risk := _calculate_risk_level conf in
  let label := predicted_label self prediction in
  let top :=
    match probabilities with
    | Some p => build_top_k self p
    | None => []
    end in
  let matched_count :=
    match features with
    | NdFloat xs => if used then int_of_float (sum xs) else 0
    | NdOfList _ => 0
    end in
  Ok {| predicted_disease :=
          match label with Some l => l | None => str_of_Z prediction end;
        disease_code := prediction;
        confidence := round conf 4;
        confidence_percent := round (conf * 100.0)%float 2;
        risk_level := risk;
        used_symptoms_path := used;
        matched_symptoms := matched_count;
        model_type := type_name (model self);
        top_k := top |}.

Definition predict (self : DiseasePredictor) (data : request) : result Prediction :=
  let '(features, used) := select_features self data in
  let features := scale_features self features used in
  exec try_pass (signal_check features used);
  respond self features used.

(** ** get_model_info and get_feature_importance

    [importances] is [self.model.feature_importances_.tolist()] when the
    model has the attribute, and [None] when it has not. *)

Record ModelInfo : Type := {
  info_model_type : string;
  feature_count : nat;
  features : list string;
  disease_classes : list string;
  has_probability : bool;
  has_feature_importance : bool
}.

Definition get_model_info (self : DiseasePredictor)
    (importances : option (list float)) : ModelInfo :=
  let disease_classes :=
    match encoder self with
    | Some e => classes_ e
    | None => []
    end in
  {| info_model_type := type_name (model self);
     feature_count := List.length feature_names;
     features := feature_names;
     disease_classes := disease_classes;
     has_probability :=
       match predict_proba (model self) with Some _ => true | None => false end;
     has_feature_importance :=
       match importances with Some _ => true | None => false end |}.

Record FeatureImportance : Type := {
  importances_ : list float;
  importance_features : list string;
  importance_type : string;
  feature_importance_pairs : option (list (string * float))
}.

Definition get_feature_importance (importances : option (list float))
  : FeatureImportance :=
  match importances with
  | Some imps =>
      {| importances_ := imps;
         importance_features := feature_names;
         importance_type := "tree_based";
         feature_importance_pairs := Some (combine feature_names imps) |}
  | None =>
      {| importances_ := [];
         importance_features := [];
         importance_type := "unknown";
         feature_importance_pairs := None |}
  end.

(** ** explain_prediction *)

(** The index of [explain_prediction]: the normalised entry alone is a
    key, and a later entry overwrites an earlier one. *)
Fixpoint explain_index_from (idx : nat) (vocabulary : list string)
    (vocab_index : gmap string nat) : gmap string nat :=
  match vocabulary with
  | [] => vocab_index
  | symptom :: rest =>
      let base := _norm (VStr symptom) in
      explain_index_from (S idx) rest (<[base := idx]> vocab_index)
  end.

Definition explain_index (vocabulary : list string) : gmap string nat :=
  explain_index_from 0 vocabulary ∅.

(** One iteration of the loop over the symptoms in [explain_prediction]. *)
Definition explain_step (vocab_index : gmap string nat)
    (feature_vec : list float) (s : scalar) : list float :=
  match vocab_index !! _norm s with
  | Some i => <[i := 1%float]> feature_vec
  | None => feature_vec
  end.

(** The vector [feature_vector] that [explain_prediction] prepares for the
    explainers. *)
Definition explain_vector (self : DiseasePredictor) (data : request) : ndarray :=
  match symptom_vocabulary self, symptoms_field data with
  | _ :: _, Some (VList symptoms) =>
      NdFloat (fold_left (explain_step (explain_index (symptom_vocabulary self)))
                         symptoms (zeros (List.length (symptom_vocabulary self))))
  | _, _ =>
      let feature_vector := vitals_vector data in
      match scaler self with
      | Some sc => try_default (transform sc feature_vector) feature_vector
      | None => feature_vector
      end
  end.

Definition _generate_explanation (data : request) (prediction : Prediction)
  : result string :=
  let disease := predicted_disease prediction in
  let confidence := confidence prediction in
  let risk_level := risk_level prediction in
  let explanation :=
    "Based on the provided health metrics, the model predicts " ++ disease
    ++ " with " ++ format_fixed (confidence * 100)%float 1 ++ "% confidence. " in
  let explanation := explanation ++ "Risk level: " ++ risk_level ++ ". " in
  do high_glucose <- gt_checked (get_or data "glucose" (VInt 0)) 125;
  let explanation :=
    if high_glucose then explanation ++ "High glucose levels detected. "
    else explanation in
  do high_cholesterol <- gt_checked (get_or data "cholesterol" (VInt 0)) 200;
  let explanation :=
    if high_cholesterol then explanation ++ "High cholesterol levels detected. "
    else explanation in
  do high_pressure <- gt_checked (get_or data "blood_pressure_systolic" (VInt 0)) 140;
  let explanation :=
    if high_pressure then explanation ++ "High blood pressure detected. "
    else explanation in
  Ok explanation.

(** The result of [explain_prediction] before the optional SHAP and LIME
    attachments: these are computed in [try] blocks that discard every
    exception, and only add entries to the result ([shap_available],
    [lime_available] and the values of the explainers), which are left out. *)
Record Explanation : Type := {
  explained_prediction : Prediction;
  explanation_text : string;
  feature_importance : FeatureImportance
}.

Definition explain_prediction (self : DiseasePredictor)
    (importances : option (list float)) (data : request) : result Explanation :=
  do prediction <- predict self data;
  let importance_info := get_feature_importance importances in
  do text <- _generate_explanation data prediction;
  Ok {| explained_prediction := prediction;
        explanation_text := text;
        feature_importance := importance_info |}.

End WithNumpy.

End Predictor.

(* ================================================================== *)
(** * app.py: the prediction routes *)
(* ================================================================== *)

Module App.
Import Py Np Predictor.

(** What a route answers: the status code and the JSON body. *)
Inductive response (A : Type) : Type :=
| Http200 (body : A)
| Http400 (error : string)          (* type: validation_error *)
| Http500                           (* type: server_error *)
| Http503.                          (* Model not loaded *)
Arguments Http200 {A} body.
Arguments Http400 {A} error.
Arguments Http500 {A}.
Arguments Http503 {A}.

(** The decorator [handle_errors]. *)
Definition handle_errors {A} (f : result (response A)) : response A :=
  match f with
  | Ok r => r
  | Raise (ValueError e) => Http400 e
  | Raise _ => Http500
  end.

Section WithNumpy.
Context {numpy : Numpy}.

(** [POST /predict]; [data] is [None] when [request.get_json()] returns
    something falsy, for which [not data] holds (null, or an empty body
    value), and [Some] of the object otherwise.  A body that is no JSON, or
    a non-empty array or a number, is not represented. *)
Definition predict (predictor : option DiseasePredictor)
    (data : option request) : response Prediction :=
  handle_errors
    match predictor with
    | None => Ok Http503
    | Some predictor =>
        match data with
        | None => Raise (ValueError "Request body must be JSON")
        | Some data =>
            if is_empty data
            then Raise (ValueError "Request body must be JSON")
            else
              exec Validators.validate_prediction_input data;
              do result <- Predictor.predict predictor data;
              Ok (Http200 result)
        end
    end.

(** The value of [data['predictions']]. *)
Inductive predictions_json : Type :=
| NotAnArray
| Array (l : list request).

Record batch_result : Type := {
  count : nat;
  predictions : list Prediction
}.

(** [for pred_data in predictions_data: validate_prediction_input(pred_data)] *)
Fixpoint validate_all (predictions_data : list request) : result unit :=
  match predictions_data with
  | [] => Ok tt
  | pred_data :: rest =>
      exec Validators.validate_prediction_input pred_data;
      validate_all rest
  end.

(** [for pred_data in predictions_data: results.append(predictor.predict(pred_data))] *)
Fixpoint predict_all (predictor : DiseasePredictor)
    (predictions_data : list request) (results : list Prediction)
  : result (list Prediction) :=
  match predictions_data with
  | [] => Ok results
  | pred_data :: rest =>
      do result <- Predictor.predict predictor pred_data;
      predict_all predictor rest (results ++ [result])
  end.

(** [POST /predict-batch]; [data] is [None] when the body is empty or has
    no [predictions] key. *)
Definition predict_batch (predictor : option DiseasePredictor)
    (data : option predictions_json) : response batch_result :=
  handle_errors
    match predictor with
    | None => Ok Http503
    | Some predictor =>
        match data with
        | None => Raise (ValueError "Request must contain 'predictions' array")
        | Some NotAnArray => Raise (ValueError "'predictions' must be an array")
        | Some (Array predictions_data) =>
            if (100 <? List.length predictions_data)%nat
            then Raise (ValueError "Maximum 100 predictions per batch")
            else
              exec validate_all predictions_data;
              do results <- predict_all predictor predictions_data [];
              Ok (Http200 {| count := List.length results;
                             predictions := results |})
        end
    end.

(** [POST /validate]: the body of the answer, [valid: True], carries no
    information and is [tt]. *)
Definition validate_input (data : option request) : response unit :=
  handle_errors
    match data with
    | None => Raise (ValueError "Request body must be JSON")
    | Some data =>
        if is_empty data
        then Raise (ValueError "Request body must be JSON")
        else
          exec Validators.validate_prediction_input data;
          Ok (Http200 tt)
    end.

(** [POST /explain] *)
Definition explain_prediction (predictor : option DiseasePredictor)
    (importances : option (list float)) (data : option request)
  : response Explanation :=
  handle_errors
    match predictor with
    | None => Ok Http503
    | Some predictor =>
        match data with
        | None => Raise (ValueError "Request body must be JSON")
        | Some data =>
            if is_empty data
            then Raise (ValueError "Request body must be JSON")
            else
              exec Validators.validate_prediction_input data;
              do explanation <- Predictor.explain_prediction predictor importances data;
              Ok (Http200 explanation)
        end
    end.

End WithNumpy.

End App.

(* ================================================================== *)
(** * Sample requests and a sample artifact bundle *)
(* ================================================================== *)

Module Samples.
Import Py Np Predictor.

Definition mk_request (symptoms : option value) (l : list (string * scalar))
  : request :=
  {| symptoms_field := symptoms; fields := list_to_map l |}.

(** The request of the specification's vitals scenario. *)
Definition vitals_fields : list (string * scalar) :=
  [ ("age", VInt 45); ("gender", VInt 1); ("weight", VInt 75);
    ("blood_pressure_systolic", VInt 130);
    ("blood_pressure_diastolic", VInt 85);
    ("glucose", VInt 110); ("cholesterol", VInt 200) ].

Definition vitals_request : request := mk_request None vitals_fields.

Definition unknown_symptom_request : request :=
  mk_request (Some (VList [VStr "qwerty_nonexistent"])) [].

Definition out_of_range_request : request :=
  mk_request (Some (VList [VStr "qwerty_nonexistent"]))
    [ ("age", VInt 9999); ("glucose", VInt (-5)) ].

Definition falsy_symptoms_request : request :=
  mk_request (Some (VList [VStr ""; VInt 0; VFloat 0; VNone; VBool false])) [].

Definition flag_seven_request : request :=
  mk_request (Some (VList [VStr "fever"; VInt 7])) [].

Definition missing_vitals_request : request := mk_request None [].

Definition symptom_request : request :=
  mk_request (Some (VList [VStr "Chest Pain!"; VStr "coughing"])) vitals_fields.

Definition vocabulary : list string :=
  [ "chest pain"; "fever"; "cough"; "headache"; "nausea"; "fatigue";
    "dizziness" ].

Definition row_length (a : ndarray) : nat :=
  match a with
  | NdFloat xs => List.length xs
  | NdOfList vs => List.length vs
  end.

(** A classifier fitted on seven features that answers the same class
    distribution for every row. *)
Definition constant_model : Classifier :=
  {| predict_class := fun a =>
       if (row_length a =? 7)%nat then Ok 0
       else Raise (ValueError "X has a wrong number of features");
     predict_proba := Some (fun a =>
       if (row_length a =? 7)%nat then Ok [0.7; 0.2; 0.1]%float
       else Raise (ValueError "X has a wrong number of features"));
     type_name := "RandomForestClassifier" |}.

Definition bundle : DiseasePredictor :=
  {| model := constant_model;
     scaler := None;
     label_encoders := ∅;
     symptom_vocabulary := vocabulary |}.

(** A scaler fitted on another number of columns: [transform] raises. *)
Definition mismatched_scaler : Scaler :=
  {| transform := fun _ => Raise (ValueError "X has a wrong number of features") |}.

(** A scaler that halves every numeric entry. *)
Definition halving_scaler : Scaler :=
  {| transform := fun a =>
       do xs <- as_floats a;
       Ok (NdFloat (map (fun x => (x / 2)%float) xs)) |}.

Definition scaled_bundle : DiseasePredictor :=
  {| model := constant_model;
     scaler := Some halving_scaler;
     label_encoders := ∅;
     symptom_vocabulary := vocabulary |}.

Definition two_symptoms_request : request :=
  mk_request (Some (VList [VStr "fever"; VStr "cough"])) vitals_fields.

(** A classifier with no [predict_proba]. *)
Definition plain_model : Classifier :=
  {| predict_class := fun a =>
       if (row_length a =? 7)%nat then Ok 2
       else Raise (ValueError "X has a wrong number of features");
     predict_proba := None;
     type_name := "LinearSVC" |}.

Definition plain_bundle : DiseasePredictor :=
  {| model := plain_model;
     scaler := None;
     label_encoders := ∅;
     symptom_vocabulary := vocabulary |}.

Definition disease_encoder : LabelEncoder :=
  {| classes_ := ["Common Cold"; "Flu"; "Migraine"] |}.

Definition labelled_bundle : DiseasePredictor :=
  {| model := constant_model;
     scaler := None;
     label_encoders := {[ "disease" := disease_encoder ]};
     symptom_vocabulary := vocabulary |}.

(** Every ranged vital is a NaN, as the body
    [{"age": NaN, "gender": 1, "weight": NaN, ...}] is read by Python's
    JSON parser. *)
Definition nan_vitals_request : request :=
  mk_request None
    [ ("age", VFloat nan); ("gender", VInt 1); ("weight", VFloat nan);
      ("blood_pressure_systolic", VFloat nan);
      ("blood_pressure_diastolic", VFloat nan);
      ("glucose", VFloat nan); ("cholesterol", VFloat nan) ].

(** Age, gender and a cholesterol out of range; the other vitals are
    absent. *)
Definition age_gender_request : request :=
  mk_request None [ ("cholesterol", VInt 9999); ("gender", VInt 1); ("age", VInt 45) ].

(** A bundle whose vocabulary has three entries although its classifier
    was fitted on seven features. *)
Definition short_vocabulary_bundle : DiseasePredictor :=
  {| model := constant_model;
     scaler := None;
     label_encoders := ∅;
     symptom_vocabulary := ["fever"; "cough"; "headache"] |}.

(** A symptoms-only request whose glucose is the string ["high"]. *)
Definition text_glucose_request : request :=
  mk_request (Some (VList [VStr "fever"])) [ ("glucose", VStr "high") ].

(** The vitals request with glucose 180 and systolic pressure 150. *)
Definition high_vitals_request : request :=
  mk_request None
    [ ("age", VInt 45); ("gender", VInt 1); ("weight", VInt 75);
      ("blood_pressure_systolic", VInt 150);
      ("blood_pressure_diastolic", VInt 85);
      ("glucose", VInt 180); ("cholesterol", VInt 200) ].

(** A scaler present whose transform raises on the seven vitals. *)
Definition mismatched_bundle : DiseasePredictor :=
  {| model := constant_model;
     scaler := Some mismatched_scaler;
     label_encoders := ∅;
     symptom_vocabulary := [] |}.

(** A classifier that reads its input: class 1 when the first feature, the
    age on the vitals path, exceeds 150, and class 0 otherwise. *)
Definition age_model : Classifier :=
  {| predict_class := fun a =>
       do xs <- as_floats a;
       match xs with
       | age :: _ => Ok (if (150 <? age)%float then 1 else 0)
       | [] => Raise (ValueError "X has a wrong number of features")
       end;
     predict_proba := None;
     type_name := "DecisionTreeClassifier" |}.

Definition age_bundle : DiseasePredictor :=
  {| model := age_model;
     scaler := None;
     label_encoders := ∅;
     symptom_vocabulary := vocabulary |}.

End Samples.

(* ================================================================== *)
(** * Notions used in the statements *)
(* ================================================================== *)

Module Notions.
Import Py Np Predictor.

Definition in_unit_interval (c : float) : Prop :=
  (0 <=? c)%float = true /\ (c <=? 1)%float = true.

(** [key] is one of the variants of the vocabulary entry [symptom]. *)
Definition owns (key symptom : string) : bool :=
  existsb (String.eqb key) (_variants (_norm (VStr symptom))).

(** The first position of the vocabulary whose entry owns [key]. *)
Fixpoint first_owner (key : string) (vocabulary : list string) : option nat :=
  match vocabulary with
  | [] => None
  | symptom :: rest =>
      if owns key symptom then Some 0%nat
      else option_map S (first_owner key rest)
  end.

(** Every character of [s] satisfies [p]. *)
Fixpoint all_chars (p : ascii -> bool) (s : string) : bool :=
  match s with
  | EmptyString => true
  | String c s' => p c && all_chars p s'
  end.

(** [a] stands before [b] in the descending order that the reversed
    insertion sort leaves. *)
Definition ranks_before (v : list float) (a b : nat) : Prop :=
  (nth b v nan <=? nth a v nan)%float = true
  /\ ((b < a)%nat \/ (nth b v nan <? nth a v nan)%float = true).

(** [order] leaves equal entries of [p] in the order of their indices. *)
Definition keeps_ties (p : list float) (order : list nat) : bool :=
  pairwise (fun a b => negb (nth a p nan =? nth b p nan)%float || (a <? b)%nat) order.

(** The indices as the insertion sort leaves them, read from the right. *)
Definition descending_run (v : list float) : list nat :=
  fold_left (fun rsorted vi => insert_index v vi rsorted) (seq 0 (List.length v)) [].

(** The label paired with class [idx]. *)
Definition label_of (self : DiseasePredictor) (idx : nat) : string :=
  match encoder self with
  | Some e =>
      if (idx <? List.length (classes_ e))%nat then nth idx (classes_ e) ""
      else str_of_nat idx
  | None => str_of_nat idx
  end.

(** Ties in the ranking stand in ascending order of the class index. *)
Definition ties_ascending (p : list float) (idxs : list nat) : Prop :=
  forall i j a b, (i < j)%nat -> idxs !! i = Some a -> idxs !! j = Some b ->
    (nth a p nan =? nth b p nan)%float = true -> (a < b)%nat.

(** A float that is a positive number or plus infinity. *)
Definition positive_float (a : float) : Prop :=
  match Prim2SF a with
  | S754_finite false _ _ | S754_infinity false => True
  | _ => False
  end.

Definition positive_spec (x : spec_float) : Prop :=
  match x with
  | S754_finite false _ _ | S754_infinity false => True
  | _ => False
  end.

(** The entries of a one-hot vector. *)
Definition one_hot (xs : list float) : Prop :=
  Forall (fun x => x = 0%float \/ x = 1%float) xs.

(** The symptom one-hot vector of a request, when [predict] builds one. *)
Definition one_hot_vector (self : DiseasePredictor) (data : request)
  : option (list float) :=
  match symptom_vocabulary self, symptoms_field data with
  | _ :: _, Some (VList symptoms) =>
      Some (feature_vec (match_symptoms (symptom_vocabulary self) symptoms))
  | _, _ => None
  end.

(** The vitals vector after the scaler, when the bundle has one. *)
Definition scaled_vitals (self : DiseasePredictor) (data : request) : ndarray :=
  match scaler self with
  | Some sc =>
      match transform sc (vitals_vector data) with
      | Ok scaled => scaled
      | Raise _ => vitals_vector data
      end
  | None => vitals_vector data
  end.

Definition has_nonzero (xs : list float) : Prop :=
  Exists (fun x => x <> 0%float) xs.

(** Some truthy entry of [symptoms] is looked up at position [i]. *)
Definition hits_position (vocab_index : gmap string nat)
    (symptoms : list scalar) (i : nat) : bool :=
  existsb (fun s =>
             truthy s
             && match lookup_symptom vocab_index s with
                | Some j => (j =? i)%nat
                | None => false
                end) symptoms.

(** The symptom is truthy and found, or truthy and not found. *)
Definition is_hit (vocab_index : gmap string nat) (s : scalar) : bool :=
  truthy s && match lookup_symptom vocab_index s with Some _ => true | None => false end.

Definition is_miss (vocab_index : gmap string nat) (s : scalar) : bool :=
  truthy s && match lookup_symptom vocab_index s with Some _ => false | None => true end.

(** The [symptoms] field is absent or holds something that is no list. *)
Definition not_a_list (v : option value) : bool :=
  match v with
  | Some (VList _) => false
  | _ => true
  end.

(** The six range checks of [validate_prediction_input]: field, lowest and
    highest value admitted. *)
Definition vitals_ranges : list (string * Z * Z) :=
  [ ("age", 0, 150); ("weight", 20, 300);
    ("blood_pressure_systolic", 50, 250); ("blood_pressure_diastolic", 30, 150);
    ("glucose", 40, 400); ("cholesterol", 50, 500) ].

(** The seven fields are present, the six ranged ones pass their check and
    gender equals 0 or 1. *)
Definition vitals_ok (data : request) : bool :=
  forallb (has_field data) Validators.required_fields
  && forallb (fun r => match r with
                       | (f, lo, hi) => negb (Validators.out_of_range (get data f) lo hi)
                       end) vitals_ranges
  && (eq_int (get data "gender") 0 || eq_int (get data "gender") 1).

(** The value lies in the closed interval, read as Python compares it. *)
Definition within (v : scalar) (lo hi : Z) : Prop :=
  match v with
  | VInt z => lo <= z <= hi
  | VBool b => lo <= Z.b2z b <= hi
  | VFloat x =>
      is_nan x = true
      \/ ((float_of_Z lo <=? x)%float = true /\ (x <=? float_of_Z hi)%float = true)
  | _ => False
  end.

(** Some symptom of the request, falsy or not, has the normal form that
    the index of [explain_prediction] maps to position [i]. *)
Definition explain_marks (vocabulary : list string) (symptoms : list scalar)
    (i : nat) : bool :=
  existsb (fun s => match explain_index vocabulary !! _norm s with
                    | Some j => (j =? i)%nat
                    | None => false
                    end) symptoms.

(** The two opening sentences of an explanation. *)
Definition headline (r : Prediction) : string :=
  "Based on the provided health metrics, the model predicts "
  ++ predicted_disease r ++ " with "
  ++ format_fixed (confidence r * 100)%float 1 ++ "% confidence. "
  ++ "Risk level: " ++ risk_level r ++ ". ".

(** The sentences on glucose, cholesterol and systolic pressure, for
    values that are numbers. *)
Definition insights (data : request) : string :=
  (if gt_int (get_or data "glucose" (VInt 0)) 125
   then "High glucose levels detected. " else "")
  ++ (if gt_int (get_or data "cholesterol" (VInt 0)) 200
      then "High cholesterol levels detected. " else "")
  ++ (if gt_int (get_or data "blood_pressure_systolic" (VInt 0)) 140
      then "High blood pressure detected. " else "").

(** Canonical text: lowercase letters, digits and single spaces, with no
    space at either end. *)
Definition is_space (c : ascii) : bool := (code c =? 32)%N.

Definition starts_with_space (s : string) : bool :=
  match s with
  | String c _ => is_space c
  | EmptyString => false
  end.

Fixpoint ends_with_space (s : string) : bool :=
  match s with
  | EmptyString => false
  | String c EmptyString => is_space c
  | String _ s' => ends_with_space s'
  end.

Fixpoint no_double_space (s : string) : bool :=
  match s with
  | EmptyString => true
  | String a s' =>
      negb (is_space a && starts_with_space s') && no_double_space s'
  end.

Definition canonical (s : string) : bool :=
  all_chars is_kept s && negb (starts_with_space s)
  && negb (ends_with_space s) && no_double_space s.

End Notions.

(* ================================================================== *)
(** * Properties *)
(* ================================================================== *)

Import Notions.

(** ** The order of binary64 numbers *)

Section FloatOrder.

Lemma SFcompare_opp x y : SFcompare y x = option_map CompOpp (SFcompare x y).
Proof.
  destruct x as [[]|[]| |[] m1 e1], y as [[]|[]| |[] m2 e2];
    simpl; try reflexivity;
    rewrite (Z.compare_antisym e1 e2); destruct (e1 ?= e2)%Z;
    simpl; try reflexivity;
    rewrite Pos.compare_cont_antisym; simpl;
    try rewrite CompOpp_involutive; reflexivity.
Qed.

Lemma SFleb_trans x y z :
  SFleb x y = true -> SFleb y z = true -> SFleb x z = true.
Proof.
  unfold SFleb.
  destruct x as [[]|[]| |[] m1 e1], y as [[]|[]| |[] m2 e2],
           z as [[]|[]| |[] m3 e3];
    simpl; try congruence; try reflexivity;
    destruct (Z.compare_spec e1 e2), (Z.compare_spec e2 e3),
             (Z.compare_spec e1 e3);
    try lia; try congruence; subst; simpl;
    change (PosDef.Pos.compare_cont Eq m1 m2) with (Pos.compare m1 m2);
    change (PosDef.Pos.compare_cont Eq m2 m3) with (Pos.compare m2 m3);
    change (PosDef.Pos.compare_cont Eq m1 m3) with (Pos.compare m1 m3);
    destruct (Pos.compare_spec m1 m2), (Pos.compare_spec m2 m3),
             (Pos.compare_spec m1 m3);
    simpl; try lia; try congruence.
Qed.

Lemma is_nan_spec x : is_nan x = true <-> Prim2SF x = S754_nan.
Proof.
  unfold is_nan. rewrite FloatAxioms.eqb_spec. unfold SFeqb.
  destruct (Prim2SF x) as [[]|[]| |[] m e]; simpl;
    try rewrite Z.compare_refl; try rewrite Pos.compare_cont_refl;
    simpl; split; congruence.
Qed.

Lemma compare_some x y :
  is_nan x = false -> is_nan y = false ->
  exists c, SFcompare (Prim2SF x) (Prim2SF y) = Some c.
Proof.
  intros Hx Hy.
  assert (Prim2SF x <> S754_nan) by (rewrite <- is_nan_spec; congruence).
  assert (Prim2SF y <> S754_nan) by (rewrite <- is_nan_spec; congruence).
  destruct (Prim2SF x) as [[]|[]| |[] m e], (Prim2SF y) as [[]|[]| |[] m' e'];
    simpl; try congruence; eauto.
Qed.

Lemma leb_not_nan x y :
  (x <=? y)%float = true -> is_nan x = false /\ is_nan y = false.
Proof.
  rewrite FloatAxioms.leb_spec. unfold SFleb. intros H.
  split; apply not_true_is_false; rewrite is_nan_spec; intros E;
    rewrite E in H; simpl in H; try discriminate;
    destruct (Prim2SF x); discriminate.
Qed.

Lemma ltb_leb x y : (x <? y)%float = true -> (x <=? y)%float = true.
Proof.
  rewrite FloatAxioms.ltb_spec, FloatAxioms.leb_spec. unfold SFltb, SFleb.
  destruct (SFcompare _ _) as [[]|]; congruence.
Qed.

Lemma ltb_false_leb x y :
  is_nan x = false -> is_nan y = false ->
  (x <? y)%float = false -> (y <=? x)%float = true.
Proof.
  intros Hx Hy. rewrite FloatAxioms.ltb_spec, FloatAxioms.leb_spec. unfold SFltb, SFleb.
  rewrite (SFcompare_opp (Prim2SF x) (Prim2SF y)).
  destruct (compare_some x y Hx Hy) as [c ->]. destruct c; simpl; congruence.
Qed.

Lemma leb_false_ltb x y :
  is_nan x = false -> is_nan y = false ->
  (x <=? y)%float = false <-> (y <? x)%float = true.
Proof.
  intros Hx Hy. rewrite FloatAxioms.ltb_spec, FloatAxioms.leb_spec. unfold SFltb, SFleb.
  rewrite (SFcompare_opp (Prim2SF x) (Prim2SF y)).
  destruct (compare_some x y Hx Hy) as [c ->].
  destruct c; simpl; split; congruence.
Qed.

Lemma ltb_not_eqb_l x y : (x <? y)%float = true -> (x =? y)%float = false.
Proof.
  rewrite FloatAxioms.ltb_spec, FloatAxioms.eqb_spec. unfold SFltb, SFeqb.
  destruct (SFcompare _ _) as [[]|]; simpl; congruence.
Qed.

Lemma leb_trans x y z :
  (x <=? y)%float = true -> (y <=? z)%float = true -> (x <=? z)%float = true.
Proof. rewrite !FloatAxioms.leb_spec. apply SFleb_trans. Qed.

End FloatOrder.

(** ** Risk tiers *)

Section Sortedness.
Import Py Np.

Lemma pairwise_sorted (f : nat -> nat -> bool) (l : list nat) :
  pairwise f l = true <-> StronglySorted (fun a b => f a b = true) l.
Proof.
  induction l as [|a l IH]; simpl.
  - split; [constructor | reflexivity].
  - rewrite andb_true_iff, IH, forallb_forall. split.
    + intros [Ha Hs]. constructor; [exact Hs|].
      rewrite Forall_forall. intros b Hb. apply Ha. apply list_elem_of_In. exact Hb.
    + intros H. apply StronglySorted_inv in H as [Hs Ha]. split; [|exact Hs].
      rewrite Forall_forall in Ha. intros b Hb. apply Ha. apply list_elem_of_In. exact Hb.
Qed.

Lemma StronglySorted_weaken {A} (R S : A -> A -> Prop) (l : list A) :
  (forall a b, R a b -> S a b) -> StronglySorted R l -> StronglySorted S l.
Proof.
  intros HRS H. induction H as [|a l Hs IH Ha]; constructor; [exact IH|].
  rewrite Forall_forall in *. intros b Hb. apply HRS, Ha, Hb.
Qed.

Lemma StronglySorted_app_inv {A} (R : A -> A -> Prop) (l1 l2 : list A) :
  StronglySorted R (l1 ++ l2) ->
  StronglySorted R l1 /\ StronglySorted R l2
  /\ (forall a c, In a l1 -> In c l2 -> R a c).
Proof.
  induction l1 as [|x l1 IH]; simpl; intros H.
  - split; [constructor | split; [exact H | intros a c []]].
  - apply StronglySorted_inv in H as [Hs Hall].
    destruct (IH Hs) as [H1 [H2 H3]]. split; [|split; [exact H2|]].
    + constructor; [exact H1|].
      rewrite Forall_forall in *. intros y Hy. apply Hall.
      apply list_elem_of_In. apply in_or_app. left. apply list_elem_of_In. exact Hy.
    + intros a c [<-|Ha] Hc.
      * rewrite Forall_forall in Hall. apply Hall.
        apply list_elem_of_In. apply in_or_app. right. exact Hc.
      * apply H3; assumption.
Qed.

Lemma StronglySorted_snoc {A} (R : A -> A -> Prop) (l : list A) (x : A) :
  StronglySorted R l -> (forall a, In a l -> R a x) -> StronglySorted R (l ++ [x]).
Proof.
  intros H. induction H as [|a l Hs IH Ha]; intros Hx; simpl.
  - repeat constructor.
  - constructor; [apply IH; intros b Hb; apply Hx; right; exact Hb|].
    rewrite Forall_forall in *. intros b Hb. apply list_elem_of_In in Hb.
    apply in_app_or in Hb as [Hb|[<-|[]]].
    + apply Ha. apply list_elem_of_In. exact Hb.
    + apply Hx. left. reflexivity.
Qed.

Lemma StronglySorted_rev {A} (R : A -> A -> Prop) (l : list A) :
  StronglySorted R l -> StronglySorted (fun a b => R b a) (rev l).
Proof.
  intros H. induction H as [|a l Hs IH Ha]; simpl; [constructor|].
  apply StronglySorted_snoc; [exact IH|].
  intros b Hb. apply in_rev in Hb. rewrite Forall_forall in Ha.
  apply Ha. apply list_elem_of_In. exact Hb.
Qed.

Lemma StronglySorted_lookup {A} (R : A -> A -> Prop) (l : list A) i j a b :
  StronglySorted R l -> (i < j)%nat ->
  l !! i = Some a -> l !! j = Some b -> R a b.
Proof.
  intros Hs. revert i j. induction Hs as [|x l Hs IH Hall]; intros i j Hij Hi Hj.
  - discriminate.
  - destruct j as [|j]; [lia|]. simpl in Hj. destruct i as [|i].
    + injection Hi as <-. rewrite Forall_forall in Hall. apply Hall.
      apply list_elem_of_lookup. eauto.
    + simpl in Hi. apply (IH i j); [lia | exact Hi | exact Hj].
Qed.

Lemma covers_Permutation n order :
  covers n order = true -> Permutation order (seq 0 n).
Proof.
  unfold covers. rewrite andb_true_iff, Nat.eqb_eq, forallb_forall.
  intros [Hlen Hall]. symmetry. apply NoDup_Permutation_bis.
  - apply seq_NoDup.
  - rewrite length_seq. lia.
  - intros i Hi. apply Hall in Hi. apply existsb_exists in Hi as [x [Hx E]].
    apply Nat.eqb_eq in E. subst x. exact Hx.
Qed.

Lemma Permutation_covers n order :
  Permutation order (seq 0 n) -> covers n order = true.
Proof.
  intros H. unfold covers. rewrite andb_true_iff, Nat.eqb_eq, forallb_forall. split.
  - rewrite (Permutation_length H). apply length_seq.
  - intros i Hi. apply existsb_exists. exists i. split; [|apply Nat.eqb_refl].
    apply (Permutation_in _ (Permutation_sym H)). exact Hi.
Qed.

End Sortedness.

Section Ranking.
Import Py Np Predictor.

Variable v : list float.
Hypothesis v_numbers : Forall (fun x => is_nan x = false) v.

Lemma nth_number i : (i < List.length v)%nat -> is_nan (nth i v nan) = false.
Proof.
  intros Hi. rewrite Forall_forall in v_numbers.
  apply v_numbers. apply list_elem_of_In. apply nth_In. exact Hi.
Qed.

Lemma less_number a b : is_nan b = false -> less a b = (a <? b)%float.
Proof. intros H. unfold less. rewrite H. simpl. apply orb_false_r. Qed.

Lemma insert_index_perm vi rs : Permutation (insert_index v vi rs) (vi :: rs).
Proof.
  induction rs as [|pk rest IH]; simpl; [reflexivity|].
  destruct (less _ _); [|reflexivity].
  rewrite IH. apply perm_swap.
Qed.

Lemma insert_index_sorted vi rs :
  (vi < List.length v)%nat ->
  Forall (fun x => (x < vi)%nat) rs ->
  StronglySorted (ranks_before v) rs ->
  StronglySorted (ranks_before v) (insert_index v vi rs).
Proof.
  intros Hvi Hlt Hs. induction Hs as [|pk rest Hs IH Hall]; simpl.
  - repeat constructor.
  - apply Forall_cons_iff in Hlt as [Hpk Hrest].
    assert (Npk : is_nan (nth pk v nan) = false) by (apply nth_number; lia).
    assert (Nvi : is_nan (nth vi v nan) = false) by (apply nth_number; lia).
    rewrite (less_number _ _ Npk).
    destruct (nth vi v nan <? nth pk v nan)%float eqn:E.
    + constructor; [apply IH; exact Hrest|].
      rewrite (Forall_forall (ranks_before v pk)). intros x Hx.
      apply list_elem_of_In in Hx.
      apply (Permutation_in _ (insert_index_perm vi rest)) in Hx as [<-|Hx].
      * split; [apply ltb_leb; exact E | right; exact E].
      * rewrite Forall_forall in Hall. apply Hall. apply list_elem_of_In. exact Hx.
    + pose proof (ltb_false_leb _ _ Nvi Npk E) as Hle.
      constructor; [constructor; assumption|].
      constructor.
      * split; [exact Hle | left; exact Hpk].
      * rewrite Forall_forall in *. intros x Hx. split.
        -- apply (leb_trans _ (nth pk v nan)); [apply (Hall x Hx) | exact Hle].
        -- left. apply Hrest. exact Hx.
Qed.

Lemma descending_prefix_perm k :
  Permutation (fold_left (fun rsorted vi => insert_index v vi rsorted) (seq 0 k) [])
              (seq 0 k).
Proof.
  induction k as [|k IH]; [constructor|].
  rewrite seq_S, fold_left_app. cbn [fold_left Nat.add].
  rewrite insert_index_perm, IH. rewrite Permutation_app_comm. reflexivity.
Qed.

Lemma descending_prefix k :
  (k <= List.length v)%nat ->
  StronglySorted (ranks_before v)
    (fold_left (fun rsorted vi => insert_index v vi rsorted) (seq 0 k) []).
Proof.
  induction k as [|k IH]; intros Hk.
  - constructor.
  - specialize (IH ltac:(lia)).
    rewrite seq_S, fold_left_app. cbn [fold_left Nat.add].
    apply insert_index_sorted; [lia| |exact IH].
    rewrite Forall_forall. intros x Hx. apply list_elem_of_In in Hx.
    apply (Permutation_in _ (descending_prefix_perm k)) in Hx. apply in_seq in Hx. lia.
Qed.

Lemma descending_run_spec :
  Permutation (descending_run v) (seq 0 (List.length v))
  /\ StronglySorted (ranks_before v) (descending_run v).
Proof.
  split; [apply descending_prefix_perm|].
  apply (descending_prefix (List.length v)). lia.
Qed.

(** The insertion sort returns every index once, whatever the array. *)
Lemma insertion_argsort_covers : covers (List.length v) (insertion_argsort v) = true.
Proof.
  change (insertion_argsort v) with (rev (descending_run v)).
  apply Permutation_covers. rewrite <- (descending_prefix_perm (List.length v)).
  symmetry. apply Permutation_rev.
Qed.

(** The insertion sort is an argsort, and it keeps ties in index order. *)
Lemma insertion_sort_is_argsort :
  is_argsort v (insertion_argsort v) = true
  /\ keeps_ties v (insertion_argsort v) = true.
Proof.
  destruct descending_run_spec as [Hp Hs].
  change (insertion_argsort v) with (rev (descending_run v)).
  apply StronglySorted_rev in Hs.
  unfold is_argsort, ascending, keeps_ties. rewrite andb_true_iff. repeat split.
  - apply Permutation_covers. rewrite <- Hp. symmetry. apply Permutation_rev.
  - apply pairwise_sorted.
    apply (StronglySorted_weaken _ _ _ (fun a b H => proj1 H) Hs).
  - apply pairwise_sorted. refine (StronglySorted_weaken _ _ _ _ Hs).
    intros a b [_ [Hlt|Hlt]].
    + apply Nat.ltb_lt in Hlt. rewrite Hlt. apply orb_true_r.
    + rewrite (ltb_not_eqb_l _ _ Hlt). reflexivity.
Qed.

Lemma insertion_argsort_ascending : ascending v (insertion_argsort v) = true.
Proof.
  pose proof (proj1 insertion_sort_is_argsort) as H.
  unfold is_argsort in H. apply andb_prop in H. exact (proj2 H).
Qed.

End Ranking.

(** The insertion sort meets the contract of [np.argsort]; it is the sort
    that the examples and witnesses are evaluated with.  The distributions
    of the examples hold no two equal probabilities, so that their ranking
    is the same for every sort that meets the contract. *)
#[global] Instance insertion_numpy : Np.Numpy :=
  {| Np.argsort := Np.insertion_argsort;
     Np.argsort_covers := insertion_argsort_covers;
     Np.argsort_ascending := insertion_argsort_ascending |}.


Section RiskLevel.
Import Predictor Np.

Context {numpy : Numpy}.

Lemma risk_high c :
  _calculate_risk_level c = "High" <-> (0.8 <=? c)%float = true.
Proof.
  unfold _calculate_risk_level.
  destruct (0.8 <=? c)%float; [tauto|].
  destruct (0.6 <=? c)%float; split; discriminate.
Qed.

Lemma risk_medium c :
  is_nan c = false ->
  _calculate_risk_level c = "Medium"
  <-> (0.6 <=? c)%float = true /\ (c <? 0.8)%float = true.
Proof.
  intros Hc. unfold _calculate_risk_level.
  assert (Hn : is_nan 0.8%float = false) by reflexivity.
  pose proof (leb_false_ltb 0.8%float c Hn Hc) as E.
  destruct (0.8 <=? c)%float.
  - split; [discriminate|]. intros [_ H]. apply E in H. discriminate.
  - destruct (0.6 <=? c)%float; split; try discriminate; try tauto.
    intros [H _]. discriminate.
Qed.

Lemma risk_low c :
  is_nan c = false ->
  _calculate_risk_level c = "Low" <-> (c <? 0.6)%float = true.
Proof.
  intros Hc. unfold _calculate_risk_level.
  assert (Hn8 : is_nan 0.8%float = false) by reflexivity.
  assert (Hn6 : is_nan 0.6%float = false) by reflexivity.
  pose proof (leb_false_ltb 0.6%float c Hn6 Hc) as E6.
  destruct (0.8 <=? c)%float eqn:H8.
  - split; [discriminate|]. intros H.
    assert (H6 : (0.6 <=? c)%float = true)
      by (apply (leb_trans _ 0.8%float); [reflexivity | exact H8]).
    apply ltb_leb in H.
    pose proof (leb_trans _ _ _ H8 H) as Habs.
    vm_compute in Habs. discriminate.
  - destruct (0.6 <=? c)%float.
    + split; [discriminate|]. intros H. apply E6 in H. discriminate.
    + split; [intros _; apply E6; reflexivity | reflexivity].
Qed.

(** C6. For a confidence in [0,1] the tier is "High" iff c >= 0.8,
    "Medium" iff 0.6 <= c < 0.8 and "Low" iff c < 0.6; the three bands are
    exhaustive and exclusive, and the four boundary values fall as the
    specification lists them. *)
Theorem risk_level_bands (c : float) :
  in_unit_interval c ->
  (_calculate_risk_level c = "High" <-> (0.8 <=? c)%float = true)
  /\ (_calculate_risk_level c = "Medium"
      <-> (0.6 <=? c)%float = true /\ (c <? 0.8)%float = true)
  /\ (_calculate_risk_level c = "Low" <-> (c <? 0.6)%float = true)
  /\ (_calculate_risk_level c = "High" \/ _calculate_risk_level c = "Medium"
      \/ _calculate_risk_level c = "Low")
  /\ _calculate_risk_level 0.8 = "High"
  /\ _calculate_risk_level 0.79999 = "Medium"
  /\ _calculate_risk_level 0.6 = "Medium"
  /\ _calculate_risk_level 0.59999 = "Low".
Proof.
  intros [H0 _]. apply leb_not_nan in H0 as [_ Hc].
  split; [apply risk_high|].
  split; [apply risk_medium; exact Hc|].
  split; [apply risk_low; exact Hc|].
  split.
  - unfold _calculate_risk_level.
    destruct (0.8 <=? c)%float; [auto|]. destruct (0.6 <=? c)%float; auto.
  - repeat split; vm_compute; reflexivity.
Qed.

Lemma risk_level_bands_witness :
  in_unit_interval 0.7 /\ _calculate_risk_level 0.7 = "Medium".
Proof.
  assert (H : in_unit_interval 0.7) by (split; vm_compute; reflexivity).
  split; [exact H|].
  apply (proj2 (proj1 (proj2 (risk_level_bands 0.7 H)))).
  split; vm_compute; reflexivity.
Defined.

End RiskLevel.

(** ** The matching loop *)

Section Matching.
Import Py Np Predictor.

Context {numpy : Numpy}.

Lemma sum_zeros n : sum (zeros n) = 0%float.
Proof.
  unfold sum, zeros.
  assert (H : forall k, fold_left PrimFloat.add (repeat 0%float k) 0%float = 0%float).
  { induction k as [|k IH]; [reflexivity|]. simpl. exact IH. }
  apply H.
Qed.

Lemma match_step_falsy ix st s : truthy s = false -> match_step ix st s = st.
Proof. intros H. unfold match_step. rewrite H. reflexivity. Qed.

Lemma fold_match_filter ix l st :
  fold_left (match_step ix) l st
  = fold_left (match_step ix) (List.filter truthy l) st.
Proof.
  revert st. induction l as [|s l IH]; intros st; [reflexivity|].
  simpl. destruct (truthy s) eqn:E.
  - simpl. apply IH.
  - rewrite (match_step_falsy _ _ _ E). apply IH.
Qed.

Lemma fold_match_all_falsy ix l st :
  Forall (fun s => truthy s = false) l -> fold_left (match_step ix) l st = st.
Proof.
  intros H. induction H as [|s l Hs _ IH]; [reflexivity|].
  simpl. rewrite (match_step_falsy _ _ _ Hs). exact IH.
Qed.

(** Every logged symptom is a truthy entry of the request. *)
Lemma fold_match_logged ix l st s :
  In s (matched (fold_left (match_step ix) l st)
        ++ unmatched (fold_left (match_step ix) l st)) ->
  In s (matched st ++ unmatched st) \/ (In s l /\ truthy s = true).
Proof.
  revert st. induction l as [|x l IH]; intros st H; [left; exact H|].
  simpl in H. apply IH in H as [H|[H1 H2]].
  - unfold match_step in H. destruct (truthy x) eqn:E; simpl in H; [|auto].
    destruct (lookup_symptom ix x); simpl in H;
      rewrite !in_app_iff in *; simpl in H;
      intuition (subst; auto using in_eq).
  - right. split; [right; exact H1 | exact H2].
Qed.

(** C10. Falsy entries of the symptom list are skipped by the matching
    loop: the loop gives the same vector and the same matched and unmatched
    lists as on the list without them, no falsy entry is logged as matched
    or unmatched, and a list of falsy entries only leaves the vector at
    zero, so that the vitals vector is used. *)
Theorem falsy_symptoms_skipped (self : DiseasePredictor) (data : request)
    (l : list scalar) :
  symptoms_field data = Some (VList l) ->
  let st := match_symptoms (symptom_vocabulary self) l in
  st = match_symptoms (symptom_vocabulary self) (List.filter truthy l)
  /\ (forall s, truthy s = false -> ~ In s (matched st) /\ ~ In s (unmatched st))
  /\ (Forall (fun s => truthy s = false) l ->
      feature_vec st = zeros (List.length (symptom_vocabulary self))
      /\ matched st = [] /\ unmatched st = []
      /\ select_features self data = (vitals_vector data, false)).
Proof.
  intros Hd st. split; [apply fold_match_filter|]. split.
  - intros s Hs.
    assert (~ In s (matched st ++ unmatched st)) as Hn.
    { intros Hin. apply fold_match_logged in Hin as [Hin|[_ Ht]].
      - simpl in Hin. exact Hin.
      - congruence. }
    rewrite in_app_iff in Hn. tauto.
  - intros Hall.
    assert (E : st = {| feature_vec := zeros (List.length (symptom_vocabulary self));
                        matched := []; unmatched := [] |})
      by (apply fold_match_all_falsy; exact Hall).
    rewrite E. simpl. repeat split.
    unfold select_features. rewrite Hd.
    destruct (symptom_vocabulary self) as [|v0 V] eqn:EV; [reflexivity|].
    fold st. rewrite E. simpl feature_vec.
    rewrite sum_zeros. reflexivity.
Qed.

End Matching.

Section MatchingWitness.
Import Py Np Predictor Samples.

Lemma falsy_symptoms_skipped_witness :
  select_features bundle falsy_symptoms_request
  = (vitals_vector falsy_symptoms_request, false).
Proof.
  apply (falsy_symptoms_skipped bundle falsy_symptoms_request
           [VStr ""; VInt 0; VFloat 0; VNone; VBool false]).
  - reflexivity.
  - repeat constructor.
Defined.

End MatchingWitness.

(** ** The vocabulary index *)

Section VocabularyIndex.
Import Py Np Predictor.

Context {numpy : Numpy}.

Arguments owns : simpl never.
Arguments _norm : simpl never.
Arguments _variants : simpl never.

Lemma add_variants_lookup idx vs (ix : gmap string nat) key :
  add_variants idx vs ix !! key
  = match ix !! key with
    | Some j => Some j
    | None => if existsb (String.eqb key) vs then Some idx else None
    end.
Proof.
  unfold add_variants. revert ix.
  induction vs as [|v vs IH]; intros ix; simpl.
  - destruct (ix !! key); reflexivity.
  - rewrite IH. destruct (ix !! v) eqn:Ev.
    + destruct (ix !! key) eqn:Ek; [reflexivity|].
      destruct (String.eqb_spec key v) as [->|]; [congruence | reflexivity].
    + destruct (String.eqb_spec key v) as [->|Hne].
      * rewrite lookup_insert_eq, Ev. reflexivity.
      * rewrite lookup_insert_ne by congruence. reflexivity.
Qed.

Lemma build_from_lookup idx vocabulary (ix : gmap string nat) key :
  build_from idx vocabulary ix !! key
  = match ix !! key with
    | Some j => Some j
    | None => option_map (Nat.add idx) (first_owner key vocabulary)
    end.
Proof.
  revert idx ix.
  induction vocabulary as [|s V IH]; intros idx ix; cbn [build_from first_owner].
  - destruct (ix !! key); reflexivity.
  - rewrite IH, add_variants_lookup.
    change (existsb (String.eqb key) (_variants (_norm (VStr s))))
      with (owns key s).
    destruct (ix !! key); [reflexivity|].
    destruct (owns key s); simpl; [f_equal; lia|].
    destruct (first_owner key V); simpl; [f_equal; lia | reflexivity].
Qed.

Lemma build_vocab_index_lookup vocabulary key :
  build_vocab_index vocabulary !! key = first_owner key vocabulary.
Proof.
  unfold build_vocab_index. rewrite build_from_lookup, lookup_empty.
  destruct (first_owner key vocabulary); reflexivity.
Qed.

Lemma first_owner_spec key vocabulary j :
  first_owner key vocabulary = Some j ->
  (exists t, vocabulary !! j = Some t /\ owns key t = true)
  /\ (forall j' t', (j' < j)%nat -> vocabulary !! j' = Some t' -> owns key t' = false).
Proof.
  revert j. induction vocabulary as [|s V IH]; intros j; simpl; [discriminate|].
  destruct (owns key s) eqn:E.
  - intros [= <-]. split; [exists s; auto | intros; lia].
  - destruct (first_owner key V) as [p|]; simpl; [|discriminate].
    intros [= <-]. destruct (IH p eq_refl) as [[t [Ht Ho]] Hmin].
    split; [exists t; auto|].
    intros [|j'] t' Hlt Hl; simpl in Hl.
    + congruence.
    + apply (Hmin j'); [lia | exact Hl].
Qed.

Lemma first_owner_le key vocabulary i t :
  vocabulary !! i = Some t -> owns key t = true ->
  exists j, first_owner key vocabulary = Some j /\ (j <= i)%nat.
Proof.
  revert i. induction vocabulary as [|s V IH]; intros i; simpl; [discriminate|].
  destruct i as [|i]; simpl.
  - intros [= ->] ->. exists 0%nat. split; [reflexivity | lia].
  - intros Hl Ho. destruct (owns key s); [exists 0%nat; split; [reflexivity | lia]|].
    destruct (IH i Hl Ho) as [j [-> Hj]]. exists (S j). split; [reflexivity | lia].
Qed.

Lemma owns_self s : owns (_norm (VStr s)) s = true.
Proof. unfold owns, _variants. cbn [app existsb]. rewrite String.eqb_refl. reflexivity. Qed.

Lemma owns_In key t :
  owns key t = true <-> In key (_variants (_norm (VStr t))).
Proof.
  unfold owns. rewrite existsb_exists. split.
  - intros [x [Hin He]]. apply String.eqb_eq in He. subst. exact Hin.
  - intros Hin. exists key. split; [exact Hin | apply String.eqb_refl].
Qed.

Lemma lookup_symptom_entry (V : list string) (i : nat) (s : string) :
  V !! i = Some s ->
  exists j, lookup_symptom (build_vocab_index V) (VStr s) = Some j
            /\ first_owner (_norm (VStr s)) V = Some j /\ (j <= i)%nat.
Proof.
  intros Hi.
  destruct (first_owner_le (_norm (VStr s)) V i s Hi (owns_self s)) as [j [Hj Hle]].
  exists j. split; [|split; [exact Hj | exact Hle]].
  unfold lookup_symptom, _variants. cbn [app find_hit].
  rewrite build_vocab_index_lookup, Hj.
  rewrite build_vocab_index_lookup. exact Hj.
Qed.

(** In the matching loop a non-empty vocabulary entry sets the position it
    is looked up at, and is logged as matched. *)
Lemma match_vocabulary_entry (V : list string) (i : nat) (s : string) :
  V !! i = Some s -> s <> "" ->
  exists j, (j <= i)%nat
    /\ match_symptoms V [VStr s]
       = {| feature_vec := <[j := 1%float]> (zeros (List.length V));
            matched := [VStr s];
            unmatched := [] |}.
Proof.
  intros Hi Hs. destruct (lookup_symptom_entry V i s Hi) as [j [Hl [_ Hle]]].
  exists j. split; [exact Hle|].
  unfold match_symptoms. cbn [fold_left]. unfold match_step. cbn [truthy].
  destruct (String.eqb_spec s "") as [->|_]; [congruence|]. cbn [negb].
  rewrite Hl. reflexivity.
Qed.

(** C2 (amended). Looking up the entry [V[i]] in the index built from [V]
    returns the first position [j <= i] whose entry has the normalised
    [V[i]] among its variants; it is [i] itself when no earlier entry
    does. *)
Theorem lookup_vocabulary_entry (V : list string) (i : nat) (s : string) :
  V !! i = Some s ->
  exists j,
    lookup_symptom (build_vocab_index V) (VStr s) = Some j
    /\ (j <= i)%nat
    /\ (exists t, V !! j = Some t /\ In (_norm (VStr s)) (_variants (_norm (VStr t))))
    /\ (forall j' t', (j' < j)%nat -> V !! j' = Some t' ->
                      ~ In (_norm (VStr s)) (_variants (_norm (VStr t'))))
    /\ ((forall j' t', (j' < i)%nat -> V !! j' = Some t' ->
                       ~ In (_norm (VStr s)) (_variants (_norm (VStr t'))))
        -> j = i).
Proof.
  intros Hi.
  destruct (lookup_symptom_entry V i s Hi) as [j [Hfound [Hj Hle]]].
  destruct (first_owner_spec _ _ _ Hj) as [[t [Ht Ho]] Hmin].
  exists j. split.
  - exact Hfound.
  - split; [exact Hle|]. split; [exists t; split; [exact Ht | apply owns_In; exact Ho]|].
    split.
    + intros j' t' Hlt Hl Hin. apply owns_In in Hin.
      rewrite (Hmin j' t' Hlt Hl) in Hin. discriminate.
    + intros Hnone. destruct (Nat.eq_dec j i) as [->|Hne]; [reflexivity|].
      exfalso. apply (Hnone j t); [lia | exact Ht | apply owns_In; exact Ho].
Qed.

Lemma lookup_vocabulary_entry_witness :
  exists j, lookup_symptom (build_vocab_index ["fevers"; "fever"]) (VStr "fever") = Some j
            /\ (j <= 1)%nat.
Proof.
  destruct (lookup_vocabulary_entry ["fevers"; "fever"] 1 "fever" eq_refl)
    as [j [H1 [H2 _]]].
  exists j. split; [exact H1 | exact H2].
Defined.

(** C2, as stated, fails: the second entry of ["fevers"; "fever"] is found
    at position 0, the key "fever" being a variant of "fevers". *)
Lemma lookup_vocabulary_entry_counterexample :
  ~ (forall (V : list string) (i : nat) (s : string),
        V !! i = Some s ->
        lookup_symptom (build_vocab_index V) (VStr s) = Some i).
Proof.
  intros H. specialize (H ["fevers"; "fever"] 1%nat "fever" eq_refl).
  vm_compute in H. discriminate.
Qed.

End VocabularyIndex.

(** ** The signal check and the shape of [predict] *)

Section Predict.
Import Py Np Predictor.

Context {numpy : Numpy}.

Lemma try_pass_ok body : exists u, try_pass body = Ok u.
Proof. destruct body as [u|e]; simpl; eauto. Qed.

(** Whatever the signal check raises is discarded: [predict] is the
    response built for the selected and scaled vector. *)
Lemma predict_respond self data :
  predict self data
  = respond self (features_of self data) (snd (select_features self data)).
Proof.
  unfold predict, features_of.
  destruct (select_features self data) as [features used]. simpl.
  destruct (try_pass_ok (signal_check (scale_features self features used) used))
    as [u ->].
  reflexivity.
Qed.

(** The [top_k] entry of a response is the ranking of the distribution
    that [predict_proba] returned. *)
Lemma respond_top_k self features used proba p r :
  predict_proba (model self) = Some proba ->
  proba features = Ok p ->
  respond self features used = Ok r ->
  top_k r = build_top_k self p.
Proof.
  intros Hp Hf. unfold respond. rewrite Hp, Hf. cbn [try_default bind].
  destruct (predict_class (model self) features) as [c|e]; cbn [bind]; [|discriminate].
  destruct (Np.max p) as [m|e]; cbn [bind]; [|discriminate].
  intros [= <-]. reflexivity.
Qed.

(** The class of a response is what the classifier returned on the
    feature vector, and a classifier that raises makes the call raise. *)
Lemma respond_calls_classifier self features used :
  (forall r, respond self features used = Ok r ->
     predict_class (model self) features = Ok (disease_code r)
     /\ used_symptoms_path r = used)
  /\ (forall e, predict_class (model self) features = Raise e ->
        respond self features used = Raise e).
Proof.
  unfold respond.
  destruct (predict_class (model self) features) as [c|e0]; cbn [bind].
  - split; [|discriminate]. intros r.
    destruct (match predict_proba (model self) with
              | Some proba => try_default (do p <- proba features; Ok (Some p)) None
              | None => None
              end) as [p|]; cbn [bind].
    + destruct (Np.max p) as [conf|e]; cbn [bind]; [|discriminate].
      intros [= <-]. split; reflexivity.
    + intros [= <-]. split; reflexivity.
  - split; [discriminate|]. intros e [= ->]. reflexivity.
Qed.

Lemma fold_match_no_hit ix l st :
  Forall (fun s => truthy s = false \/ lookup_symptom ix s = None) l ->
  feature_vec (fold_left (match_step ix) l st) = feature_vec st.
Proof.
  intros H. revert st. induction H as [|s l Hs _ IH]; intros st; [reflexivity|].
  simpl. rewrite IH. unfold match_step.
  destruct (truthy s); simpl; [|reflexivity].
  destruct Hs as [Hs|Hs]; [discriminate|]. rewrite Hs. reflexivity.
Qed.

Lemma select_features_no_hit self data l :
  symptoms_field data = Some (VList l) ->
  Forall (fun s => truthy s = false
                   \/ lookup_symptom (build_vocab_index (symptom_vocabulary self)) s = None) l ->
  select_features self data = (vitals_vector data, false).
Proof.
  intros Hd Hl. unfold select_features. rewrite Hd.
  destruct (symptom_vocabulary self) as [|v0 V] eqn:EV; [reflexivity|].
  unfold match_symptoms. rewrite fold_match_no_hit by exact Hl.
  simpl feature_vec. rewrite sum_zeros. reflexivity.
Qed.

End Predict.

(** ** Validation *)

Section Validation.
Import Py Np Predictor Validators Samples.

Context {numpy : Numpy}.

Lemma validate_symptoms_only data s0 rest :
  symptoms_field data = Some (VList (VStr s0 :: rest)) ->
  validate_prediction_input data = check_symptoms (VList (VStr s0 :: rest)).
Proof.
  intros H. unfold validate_prediction_input, get_symptoms. rewrite H. reflexivity.
Qed.

(** Validation either stops at a vitals check or is the check of the
    symptom list. *)
Lemma validate_cases data :
  (exists e, validate_prediction_input data = Raise e)
  \/ validate_prediction_input data = check_symptoms (get_symptoms data).
Proof.
  unfold validate_prediction_input.
  destruct (symptoms_only_of (get_symptoms data)); cbn [negb];
    [right; reflexivity|].
  destruct (check_required data required_fields); cbn [bind]; [|left; eauto].
  repeat match goal with
         | |- context [if ?c then Raise ?e else _] =>
             destruct c; cbn [bind]; [left; eauto|]
         end.
  right; reflexivity.
Qed.

(** A list of more than fifty entries is rejected. *)
Lemma too_many_symptoms_rejected data l :
  symptoms_field data = Some (VList l) -> (50 < List.length l)%nat ->
  exists e, validate_prediction_input data = Raise e.
Proof.
  intros Hd Hl. destruct (validate_cases data) as [H|H]; [exact H|].
  rewrite H. unfold get_symptoms. rewrite Hd. unfold check_symptoms.
  destruct l as [|x l']; [simpl in Hl; lia|]. cbn [truthy_value].
  apply Nat.ltb_lt in Hl. rewrite Hl. eauto.
Qed.

(** An entry that is neither a number nor a string is rejected. *)
Lemma ill_typed_symptom_rejected data l :
  symptoms_field data = Some (VList l) ->
  forallb is_number_or_str l = false ->
  exists e, validate_prediction_input data = Raise e.
Proof.
  intros Hd Hl. destruct (validate_cases data) as [H|H]; [exact H|].
  rewrite H. unfold get_symptoms. rewrite Hd. unfold check_symptoms.
  destruct l as [|x l']; [discriminate|]. cbn [truthy_value].
  destruct (50 <? _)%nat; [eauto|]. rewrite Hl. eauto.
Qed.

(** Strings outside the reference set are only reported. *)
Lemma unrecognized_symptoms_accepted data s0 rest :
  symptoms_field data = Some (VList (VStr s0 :: rest)) ->
  (List.length (VStr s0 :: rest) <= 50)%nat ->
  forallb is_number_or_str rest = true ->
  validate_prediction_input data = Ok (unrecognized_of (VStr s0 :: rest)).
Proof.
  intros Hd Hl Hr. rewrite (validate_symptoms_only _ _ _ Hd).
  unfold check_symptoms. cbn [truthy_value].
  apply Nat.ltb_ge in Hl. rewrite Hl. cbn [forallb is_number_or_str is_number is_str orb].
  rewrite Hr. reflexivity.
Qed.

(** C9. When [symptoms] is a non-empty list whose first element is a
    string, validation is the check of the symptom list alone: none of the
    vitals checks is made and the vitals fields do not influence the
    outcome.  When no symptom then matches the vocabulary, the classifier
    is called on the seven vitals as the request holds them, unvalidated
    (0 for an absent one, after the scaler when the bundle has one and its
    transform succeeds): the class of the prediction is what the
    classifier returns on that vector, and the call fails when the
    classifier fails on it. *)
Theorem symptoms_only_skips_vitals_checks (self : DiseasePredictor)
    (data : request) (s0 : string) (rest : list scalar) :
  symptoms_field data = Some (VList (VStr s0 :: rest)) ->
  validate_prediction_input data = check_symptoms (VList (VStr s0 :: rest))
  /\ (forall flds,
        validate_prediction_input
          {| symptoms_field := symptoms_field data; fields := flds |}
        = validate_prediction_input data)
  /\ (Forall (fun s => truthy s = false
                      \/ lookup_symptom (build_vocab_index (symptom_vocabulary self)) s = None)
             (VStr s0 :: rest) ->
      let vitals :=
        NdOfList [ get_or data "age" (VInt 0); get_or data "gender" (VInt 0);
                   get_or data "weight" (VInt 0);
                   get_or data "blood_pressure_systolic" (VInt 0);
                   get_or data "blood_pressure_diastolic" (VInt 0);
                   get_or data "glucose" (VInt 0);
                   get_or data "cholesterol" (VInt 0) ] in
      let input :=
        match scaler self with
        | Some sc =>
            match transform sc vitals with
            | Ok scaled => scaled
            | Raise _ => vitals
            end
        | None => vitals
        end in
      features_of self data = input
      /\ (forall r, predict self data = Ok r ->
            predict_class (model self) input = Ok (disease_code r)
            /\ used_symptoms_path r = false)
      /\ (forall e, predict_class (model self) input = Raise e ->
            predict self data = Raise e)).
Proof.
  intros Hd. split; [apply validate_symptoms_only; exact Hd|]. split.
  - intros flds. rewrite (validate_symptoms_only data s0 rest Hd).
    apply validate_symptoms_only. exact Hd.
  - intros Hn vitals input.
    pose proof (select_features_no_hit self data _ Hd Hn) as E.
    assert (F : features_of self data = input).
    { unfold features_of. rewrite E. unfold scale_features, input, vitals, try_default.
      destruct (scaler self); reflexivity. }
    split; [exact F|]. rewrite predict_respond, F, E. cbn [snd].
    exact (respond_calls_classifier self input false).
Qed.

End Validation.

Section ValidationWitness.
Import Py Np Predictor Validators Samples.

Lemma symptoms_only_skips_vitals_checks_witness :
  validate_prediction_input out_of_range_request = Ok [VStr "qwerty_nonexistent"]
  /\ features_of age_bundle out_of_range_request
     = NdOfList [VInt 9999; VInt 0; VInt 0; VInt 0; VInt 0; VInt (-5); VInt 0]
  /\ exists r, predict age_bundle out_of_range_request = Ok r
               /\ disease_code r = 1
               /\ predict_class age_model
                    (NdOfList [VInt 9999; VInt 0; VInt 0; VInt 0; VInt 0; VInt (-5); VInt 0])
                  = Ok (disease_code r).
Proof.
  destruct (symptoms_only_skips_vitals_checks age_bundle out_of_range_request
              "qwerty_nonexistent" [] eq_refl) as [H1 [_ H2]].
  split; [rewrite H1; vm_compute; reflexivity|].
  assert (Hn : Forall (fun s => truthy s = false
                 \/ lookup_symptom (build_vocab_index (symptom_vocabulary age_bundle)) s
                    = None) [VStr "qwerty_nonexistent"])
    by (constructor; [right; vm_compute; reflexivity | constructor]).
  destruct (H2 Hn) as [F [Hok _]].
  split; [exact F|].
  pose (r := {| predicted_disease := "1"; disease_code := 1;
                confidence := 0.85; confidence_percent := 85;
                risk_level := "High"; used_symptoms_path := false;
                matched_symptoms := 0; model_type := "DecisionTreeClassifier";
                top_k := [] |}).
  assert (E : predict age_bundle out_of_range_request = Ok r)
    by (vm_compute; reflexivity).
  exists r. split; [exact E|]. split; [reflexivity|].
  exact (proj1 (Hok r E)).
Defined.

End ValidationWitness.

Section ValidationFlags.
Import Py Np Predictor Validators Samples.

(** C7. The request whose symptom list holds the number 7 next to a
    string passes validation, although 7 is neither a string nor a 0/1
    flag: the check admits every int, float or str. *)
Theorem non_flag_number_passes_validation :
  validate_prediction_input flag_seven_request = Ok []
  /\ is_number_or_str (VInt 7) = true
  /\ (eq_int (VInt 7) 0 || eq_int (VInt 7) 1) = false.
Proof. repeat split; vm_compute; reflexivity. Qed.

End ValidationFlags.


(** ** Normalisation *)

Section Normalisation.
Import Py Predictor Validators Np.

Context {numpy : Numpy}.

Lemma sub_nonalnum_charset s : all_chars is_kept (sub_nonalnum s) = true.
Proof.
  induction s as [|c s IH]; [reflexivity|]. simpl.
  destruct (is_kept c) eqn:E; [simpl; rewrite E; exact IH | exact IH].
Qed.

Lemma lstrip_charset p s : all_chars p s = true -> all_chars p (lstrip s) = true.
Proof.
  induction s as [|c s IH]; [reflexivity|]. simpl. intros H.
  destruct (isspace c); [|exact H].
  apply andb_prop in H as [_ H]. apply IH. exact H.
Qed.

Lemma rstrip_charset p s : all_chars p s = true -> all_chars p (rstrip s) = true.
Proof.
  induction s as [|c s IH]; [reflexivity|]. simpl. intros H.
  apply andb_prop in H as [Hc H]. specialize (IH H).
  destruct (rstrip s) as [|c' r].
  - destruct (isspace c); [reflexivity|]. simpl. rewrite Hc. reflexivity.
  - cbn [all_chars]. rewrite Hc. exact IH.
Qed.

(** What does hold of both normalisers: the result is made of lowercase
    letters, digits and spaces only. *)
Lemma normalisation_charset v :
  all_chars is_kept (_norm v) = true
  /\ all_chars is_kept (normalize_symptom v) = true.
Proof.
  split.
  - unfold _norm. apply sub_nonalnum_charset.
  - unfold normalize_symptom, strip.
    apply rstrip_charset, lstrip_charset, sub_nonalnum_charset.
Qed.

(** C3. Normalising twice is not normalising once.  On the input
    [a ! b] both normalisers leave two spaces where the punctuation stood
    between spaces, and a second pass collapses them; [_norm] also keeps
    the space that a trailing underscore turns into, which
    [normalize_symptom] strips. *)
Theorem normalisation_not_idempotent :
  _norm (VStr "a ! b") = "a  b"
  /\ _norm (VStr (_norm (VStr "a ! b"))) = "a b"
  /\ normalize_symptom (VStr "a ! b") = "a  b"
  /\ normalize_symptom (VStr (normalize_symptom (VStr "a ! b"))) = "a b"
  /\ _norm (VStr "a_") = "a "
  /\ _norm (VStr (_norm (VStr "a_"))) = "a"
  /\ normalize_symptom (VStr "a_") = "a".
Proof. repeat split; vm_compute; reflexivity. Qed.

End Normalisation.

(** ** The batch route *)

Section Batch.
Import Py Np Predictor Validators Samples App.

Context {numpy : Numpy}.

(** The response of the batch route to the first invalid entry is the
    message of [validate_prediction_input] alone, wherever the entry
    stands. *)
Lemma validate_all_first_error l i d e :
  l !! i = Some d ->
  (forall j d', (j < i)%nat -> l !! j = Some d' ->
                exists w, validate_prediction_input d' = Ok w) ->
  validate_prediction_input d = Raise e ->
  validate_all l = Raise e.
Proof.
  revert i. induction l as [|x l IH]; intros i Hi Hbefore He; [discriminate|].
  destruct i as [|i]; simpl in Hi.
  - injection Hi as ->. simpl. rewrite He. reflexivity.
  - simpl. destruct (Hbefore 0%nat x ltac:(lia) eq_refl) as [w ->]. simpl.
    apply (IH i Hi); [|exact He].
    intros j d' Hj Hl. apply (Hbefore (S j) d'); [lia | exact Hl].
Qed.

Lemma validate_all_ok l :
  Forall (fun d => exists w, validate_prediction_input d = Ok w) l ->
  validate_all l = Ok tt.
Proof.
  intros H. induction H as [|d l [w Hw] _ IH]; [reflexivity|].
  simpl. rewrite Hw. simpl. exact IH.
Qed.

Lemma predict_all_ok predictor l rs acc :
  Forall2 (fun d r => Predictor.predict predictor d = Ok r) l rs ->
  predict_all predictor l acc = Ok (acc ++ rs)%list.
Proof.
  intros H. revert acc. induction H as [|d r l rs Hd _ IH]; intros acc; simpl.
  - rewrite app_nil_r. reflexivity.
  - rewrite Hd. simpl. rewrite IH, <- app_assoc. reflexivity.
Qed.

(** A batch of valid entries is answered by the results in the order of
    the entries, with their number. *)
Lemma predict_batch_in_order predictor l rs :
  (List.length l <= 100)%nat ->
  Forall (fun d => exists w, validate_prediction_input d = Ok w) l ->
  Forall2 (fun d r => Predictor.predict predictor d = Ok r) l rs ->
  predict_batch (Some predictor) (Some (Array l))
  = Http200 {| count := List.length l; predictions := rs |}.
Proof.
  intros Hlen Hv Hp. unfold predict_batch.
  apply Nat.ltb_ge in Hlen. rewrite Hlen.
  rewrite (validate_all_ok l Hv). simpl.
  rewrite (predict_all_ok predictor l rs [] Hp). simpl.
  rewrite (Forall2_length _ _ _ Hp). reflexivity.
Qed.

(** C8. A batch whose second entry lacks the vitals is rejected with the
    message of the entry's validation, which names no index, whereas
    [validate_batch_input], which the route does not call, names the
    index 1. *)
Theorem batch_error_names_no_index :
  predict_batch (Some bundle) (Some (Array [vitals_request; missing_vitals_request]))
  = Http400 "Missing required field: age"
  /\ predict_batch (Some bundle) (Some (Array [missing_vitals_request; vitals_request]))
     = Http400 "Missing required field: age"
  /\ validate_batch_input (Some [vitals_request; missing_vitals_request])
     = Raise (ValueError "Prediction 1: Missing required field: age").
Proof. repeat split; vm_compute; reflexivity. Qed.

End Batch.

(** ** No usable signal *)

Section NoUsableSignal.
Import Py Np Predictor Validators Samples App.

(** C1. For the request with one unknown symptom and no vitals the signal
    check raises its ValueError on the all-zero vitals vector, the
    surrounding [try] discards it, and the call returns a prediction
    computed from that vector. *)
Theorem no_usable_signal_is_discarded :
  validate_prediction_input unknown_symptom_request = Ok [VStr "qwerty_nonexistent"]
  /\ select_features bundle unknown_symptom_request
     = (NdOfList [VInt 0; VInt 0; VInt 0; VInt 0; VInt 0; VInt 0; VInt 0], false)
  /\ signal_check (features_of bundle unknown_symptom_request) false
     = Raise (ValueError "No valid symptoms matched vocabulary and vitals are missing. Please add symptoms or vitals.")
  /\ Predictor.predict bundle unknown_symptom_request
     = Ok {| predicted_disease := "0";
             disease_code := 0;
             confidence := 0.7;
             confidence_percent := 70;
             risk_level := "Medium";
             used_symptoms_path := false;
             matched_symptoms := 0;
             model_type := "RandomForestClassifier";
             top_k := [("0", 0.7%float); ("1", 0.2%float); ("2", 0.1%float)] |}
  /\ (exists body, App.predict (Some bundle) (Some unknown_symptom_request)
                   = Http200 body).
Proof.
  repeat split; try (vm_compute; reflexivity).
  eexists. vm_compute. reflexivity.
Qed.

End NoUsableSignal.

(** ** Ranked alternatives *)

Section TopK.
Import Py Np Predictor Samples.

Context {numpy : Numpy}.

Lemma top_entry_label self (p : list float) idx :
  (idx < List.length p)%nat ->
  top_entry (class_labels self (List.length p)) p idx
  = (label_of self idx, round (nth idx p nan) 4).
Proof.
  intros Hidx. unfold top_entry, class_labels, label_of.
  destruct (encoder self) as [e|]; [reflexivity|].
  rewrite length_map, length_seq.
  apply Nat.ltb_lt in Hidx as Hb. rewrite Hb. f_equal.
  rewrite (nth_indep _ "" (str_of_nat 0)) by (rewrite length_map, length_seq; exact Hidx).
  rewrite map_nth, seq_nth by exact Hidx. reflexivity.
Qed.

(** The ranking of [predict] is the loop over the reversed argsort. *)
Lemma build_top_k_from self p :
  build_top_k self p = top_k_from (argsort p) (class_labels self (List.length p)) p.
Proof. reflexivity. Qed.

(** C5 (amended). Whatever order [np.argsort] leaves the class indices in
    (any permutation of them that is ascending in probability), top_k is
    the ranking that [predict] builds from it and has min(5, n) entries,
    one per distinct class, ranked by descending probability and holding
    the most probable classes; each pairs the label of its class (from the
    populated encoder, else the class index as a string) with the
    probability rounded to 4 decimals.  The order of classes of equal
    probability is not fixed: the entries stand in the reverse of the
    order that argsort leaves their classes in, and numpy's sort leaves
    equal entries in an order of its own. *)
Theorem top_k_ranking (self : DiseasePredictor) (probabilities : list float)
    (order : list nat) :
  is_argsort probabilities order = true ->
  let n := List.length probabilities in
  let idxs := firstn (Nat.min 5 n) (rev order) in
  let top := top_k_from order (class_labels self n) probabilities in
  (order = argsort probabilities -> build_top_k self probabilities = top)
  /\ List.length top = Nat.min 5 n
  /\ top = map (fun idx => (label_of self idx, round (nth idx probabilities nan) 4)) idxs
  /\ List.NoDup idxs
  /\ (forall a, In a idxs -> (a < n)%nat)
  /\ (forall i j a b, (i < j)%nat -> idxs !! i = Some a -> idxs !! j = Some b ->
        (nth b probabilities nan <=? nth a probabilities nan)%float = true)
  /\ (forall a c, In a idxs -> (c < n)%nat -> ~ In c idxs ->
        (nth c probabilities nan <=? nth a probabilities nan)%float = true)
  /\ (forall i j a b, (i < j)%nat -> idxs !! i = Some a -> idxs !! j = Some b ->
        exists pa pb, order !! pa = Some a /\ order !! pb = Some b /\ (pb < pa)%nat).
Proof.
  intros Harg n idxs top.
  unfold is_argsort in Harg. apply andb_prop in Harg as [Hcov Hasc].
  apply covers_Permutation in Hcov. fold n in Hcov.
  apply pairwise_sorted, StronglySorted_rev in Hasc.
  assert (Hperm : Permutation (rev order) (seq 0 n))
    by (rewrite <- Hcov; symmetry; apply Permutation_rev).
  assert (Hlen : List.length (rev order) = n)
    by (rewrite (Permutation_length Hperm); apply length_seq).
  assert (Hsplit : rev order = (idxs ++ skipn (Nat.min 5 n) (rev order))%list)
    by (symmetry; apply firstn_skipn).
  assert (Hin : forall a, In a idxs -> (a < n)%nat).
  { intros a Ha. assert (In a (rev order))
      by (rewrite Hsplit; apply in_or_app; left; exact Ha).
    apply (Permutation_in _ Hperm) in H. apply in_seq in H. lia. }
  assert (Hmap : top
     = map (fun idx => (label_of self idx, round (nth idx probabilities nan) 4)) idxs).
  { unfold top, top_k_from. fold n. fold idxs.
    apply map_ext_in. intros a Ha. apply top_entry_label. apply Hin. exact Ha. }
  rewrite Hsplit in Hasc.
  apply StronglySorted_app_inv in Hasc as [Hs1 [_ Hs2]].
  split; [intros ->; reflexivity|].
  split; [|split; [exact Hmap|split; [|split; [exact Hin|split; [|split]]]]].
  - rewrite Hmap, length_map. unfold idxs. rewrite length_firstn, Hlen. lia.
  - assert (Hnd : List.NoDup (rev order)).
    { apply (Permutation_NoDup (Permutation_sym Hperm)). apply seq_NoDup. }
    rewrite Hsplit in Hnd. apply NoDup_app_remove_r in Hnd. exact Hnd.
  - intros i j a b Hij Hi Hj.
    apply (StronglySorted_lookup _ _ _ _ _ _ Hs1 Hij Hi Hj).
  - intros a c Ha Hc Hnc. apply Hs2; [exact Ha|].
    assert (In c (rev order))
      by (apply (Permutation_in _ (Permutation_sym Hperm)); apply in_seq; lia).
    rewrite Hsplit in H. apply in_app_or in H as [H|H]; [contradiction | exact H].
  - intros i j a b Hij Hi Hj.
    assert (Hrev : forall k x, idxs !! k = Some x ->
              (k < List.length order)%nat
              /\ order !! (List.length order - S k)%nat = Some x).
    { intros k x Hk. unfold idxs in Hk.
      apply lookup_take_Some in Hk as [Hk _].
      rewrite rev_alt in Hk. change (rev_append order []) with (reverse order) in Hk.
      pose proof (lookup_lt_Some _ _ _ Hk) as Hlt. rewrite length_reverse in Hlt.
      split; [exact Hlt|]. rewrite reverse_lookup in Hk by exact Hlt. exact Hk. }
    destruct (Hrev i a Hi) as [Hli Ha]. destruct (Hrev j b Hj) as [Hlj Hb].
    exists (List.length order - S i)%nat, (List.length order - S j)%nat.
    split; [exact Ha|]. split; [exact Hb|]. lia.
Qed.

End TopK.

Section TopKWitness.
Import Py Np Predictor Samples.

Lemma top_k_ranking_witness :
  is_argsort [0.2; 0.5; 0.3]%float (argsort [0.2; 0.5; 0.3]%float) = true
  /\ build_top_k bundle [0.2; 0.5; 0.3]%float
     = [("1", 0.5%float); ("2", 0.3%float); ("0", 0.2%float)].
Proof.
  assert (H : is_argsort [0.2; 0.5; 0.3]%float (argsort [0.2; 0.5; 0.3]%float) = true)
    by (vm_compute; reflexivity).
  split; [exact H|].
  destruct (top_k_ranking bundle [0.2; 0.5; 0.3]%float
              (argsort [0.2; 0.5; 0.3]%float) H) as [H1 [_ [H3 _]]].
  rewrite (H1 eq_refl), H3. vm_compute. reflexivity.
Defined.

(** C5, as stated, fails on ties.  For two classes of probability 0.5 the
    contract of [np.argsort] admits the order [0, 1], which leaves the two
    equal entries where they stand and ranks class 1 first, class 0
    second, as well as the order [1, 0], which ranks class 0 first: the
    ascending order of class indices is not what the code guarantees. *)
Lemma top_k_ties_counterexample :
  is_argsort [0.5; 0.5]%float [0; 1]%nat = true
  /\ top_k_from [0; 1]%nat (class_labels bundle 2) [0.5; 0.5]%float
     = [("1", 0.5%float); ("0", 0.5%float)]
  /\ ~ ties_ascending [0.5; 0.5]%float (firstn 2 (rev [0; 1]%nat))
  /\ is_argsort [0.5; 0.5]%float [1; 0]%nat = true
  /\ top_k_from [1; 0]%nat (class_labels bundle 2) [0.5; 0.5]%float
     = [("0", 0.5%float); ("1", 0.5%float)].
Proof.
  split; [vm_compute; reflexivity|]. split; [vm_compute; reflexivity|].
  split; [|split; vm_compute; reflexivity].
  intros H. specialize (H 0%nat 1%nat 1%nat 0%nat).
  assert (1 < 0)%nat; [|lia].
  apply H; [lia | reflexivity | reflexivity | vm_compute; reflexivity].
Qed.

End TopKWitness.

(** ** The sum of a one-hot vector *)

Section OneHotSum.
Import Py Np Predictor.

Context {numpy : Numpy}.

Lemma shr_1_m mrs : 0 <= shr_m mrs -> shr_m (shr_1 mrs) = shr_m mrs / 2.
Proof.
  destruct mrs as [m r s]. simpl. intros Hm.
  destruct m as [|p|p]; [reflexivity| |lia].
  destruct p as [p|p|]; simpl shr_m.
  - rewrite Pos2Z.inj_xI.
    apply (Z.div_unique_pos _ _ _ 1); lia.
  - rewrite Pos2Z.inj_xO.
    apply (Z.div_unique_pos _ _ _ 0); lia.
  - reflexivity.
Qed.

Lemma iter_shr_1_m n : forall mrs,
  0 <= shr_m mrs ->
  shr_m (SpecFloat.iter_pos shr_1 n mrs) = shr_m mrs / 2 ^ Zpos n.
Proof.
  induction n as [n IH|n IH|]; intros mrs Hm; cbn [SpecFloat.iter_pos].
  - assert (H1 : 0 <= shr_m (shr_1 mrs)) by (rewrite shr_1_m by lia; apply Z.div_pos; lia).
    assert (H2 : 0 <= shr_m (SpecFloat.iter_pos shr_1 n (shr_1 mrs)))
      by (rewrite IH by lia; apply Z.div_pos; lia).
    rewrite IH, IH, shr_1_m by lia.
    rewrite !Z.div_div by lia. f_equal.
    rewrite Pos2Z.inj_xI.
    replace (2 * Z.pos n + 1) with (1 + Z.pos n + Z.pos n) by lia.
    rewrite !Z.pow_add_r by lia. change (2 ^ 1) with 2. ring.
  - assert (H2 : 0 <= shr_m (SpecFloat.iter_pos shr_1 n mrs))
      by (rewrite IH by lia; apply Z.div_pos; lia).
    rewrite IH, IH by lia.
    rewrite !Z.div_div by lia. f_equal.
    rewrite <- Z.pow_add_r by lia. f_equal. lia.
  - rewrite shr_1_m by lia. reflexivity.
Qed.

Lemma digits2_pos_lower m : 2 ^ (Zpos (digits2_pos m) - 1) <= Zpos m.
Proof.
  induction m as [m IH|m IH|]; cbn [digits2_pos].
  - rewrite Pos2Z.inj_succ.
    replace (Z.succ (Z.pos (digits2_pos m)) - 1) with (Z.succ (Z.pos (digits2_pos m) - 1)) by lia.
    rewrite Z.pow_succ_r by lia. lia.
  - rewrite Pos2Z.inj_succ.
    replace (Z.succ (Z.pos (digits2_pos m)) - 1) with (Z.succ (Z.pos (digits2_pos m) - 1)) by lia.
    rewrite Z.pow_succ_r by lia. lia.
  - simpl. lia.
Qed.

Lemma shr_fexp_positive m e l :
  -1074 <= e ->
  0 < shr_m (fst (shr_fexp prec emax (Zpos m) e l))
  /\ -1074 <= snd (shr_fexp prec emax (Zpos m) e l).
Proof.
  intros He. unfold shr_fexp, shr. cbn [Zdigits2].
  assert (Hrec : shr_m (shr_record_of_loc (Zpos m) l) = Zpos m)
    by (destruct l as [|[]]; reflexivity).
  destruct (fexp prec emax (Z.pos (digits2_pos m) + e) - e) as [|n|n] eqn:En;
    cbn [fst snd]; try (rewrite Hrec; lia).
  assert (Hn : Zpos n <= Zpos (digits2_pos m) - 1)
    by (unfold fexp, SpecFloat.emin, prec, emax in En; lia).
  rewrite iter_shr_1_m by (rewrite Hrec; lia). rewrite Hrec. split; [|lia].
  apply Z.div_str_pos. split; [apply Z.pow_pos_nonneg; lia|].
  apply (Z.le_trans _ (2 ^ (Zpos (digits2_pos m) - 1))).
  - apply Z.pow_le_mono_r; lia.
  - apply digits2_pos_lower.
Qed.

Lemma round_nearest_even_positive m l : 0 < m -> 0 < round_nearest_even m l.
Proof.
  intros Hm. unfold round_nearest_even.
  destruct l as [|[]]; try lia. destruct (Z.even m); lia.
Qed.

Lemma binary_round_aux_positive m e l :
  -1074 <= e -> positive_spec (binary_round_aux prec emax false (Zpos m) e l).
Proof.
  intros He. unfold binary_round_aux.
  destruct (shr_fexp_positive m e l He) as [H1 H2].
  destruct (shr_fexp prec emax (Zpos m) e l) as [mrs' e']. cbn [fst snd] in H1, H2.
  pose proof (round_nearest_even_positive (shr_m mrs') (loc_of_shr_record mrs') H1) as Hr.
  destruct (round_nearest_even (shr_m mrs') (loc_of_shr_record mrs')) as [|q|q];
    try lia.
  destruct (shr_fexp_positive q e' loc_Exact H2) as [H3 _].
  destruct (shr_fexp prec emax (Zpos q) e' loc_Exact) as [mrs'' e'']. cbn [fst] in H3.
  destruct (shr_m mrs'') as [|q'|q']; try lia.
  destruct (e'' <=? emax - prec); exact I.
Qed.

Lemma binary_round_positive m e :
  -1074 <= e -> positive_spec (binary_round prec emax false m e).
Proof.
  intros He. unfold binary_round, shl_align.
  destruct (fexp prec emax (Z.pos (digits2_pos m) + e) - e) eqn:En;
    apply binary_round_aux_positive; try exact He.
  unfold fexp, SpecFloat.emin, prec, emax in *. lia.
Qed.

Lemma valid_exponent s m e :
  SpecFloat.valid_binary prec emax (S754_finite s m e) = true -> -1074 <= e.
Proof.
  unfold SpecFloat.valid_binary, bounded, canonical_mantissa.
  intros H. apply andb_prop in H as [H _]. apply Z.eqb_eq in H.
  unfold fexp, SpecFloat.emin, prec, emax in H. lia.
Qed.

Lemma SFadd_positive x y :
  SpecFloat.valid_binary prec emax x = true ->
  SpecFloat.valid_binary prec emax y = true ->
  positive_spec x -> positive_spec y ->
  positive_spec (SFadd prec emax x y).
Proof.
  intros Vx Vy Px Py.
  destruct x as [sx|[]| |[] mx ex], y as [sy|[]| |[] my ey];
    simpl in Px, Py; try contradiction; try exact I.
  pose proof (valid_exponent _ _ _ Vx). pose proof (valid_exponent _ _ _ Vy).
  unfold SFadd, cond_Zopp, binary_normalize.
  destruct (Z.pos (fst (shl_align mx ex (Z.min ex ey)))
            + Z.pos (fst (shl_align my ey (Z.min ex ey)))) as [|p|p] eqn:E; try lia.
  apply binary_round_positive. lia.
Qed.

Lemma add_positive a b :
  positive_float a -> positive_float b -> positive_float (a + b)%float.
Proof.
  unfold positive_float. intros Ha Hb. rewrite add_spec.
  apply SFadd_positive; try apply Prim2SF_valid; assumption.
Qed.

Lemma add_zero_r a : positive_float a -> (a + 0)%float = a.
Proof.
  unfold positive_float. intros Ha. apply Prim2SF_inj. rewrite add_spec.
  change (Prim2SF 0) with (S754_zero false).
  destruct (Prim2SF a) as [s|[]| |[] m e]; try contradiction; reflexivity.
Qed.

Lemma positive_float_gt a : positive_float a -> (0 <? a)%float = true.
Proof.
  unfold positive_float. rewrite FloatAxioms.ltb_spec.
  change (Prim2SF 0) with (S754_zero false).
  destruct (Prim2SF a) as [s|[]| |[] m e]; try contradiction; reflexivity.
Qed.

Lemma fold_add_positive xs a :
  one_hot xs -> positive_float a -> positive_float (fold_left PrimFloat.add xs a).
Proof.
  intros H. revert a. induction H as [|x xs Hx _ IH]; intros a Ha; [exact Ha|].
  simpl. apply IH. destruct Hx as [->| ->].
  - rewrite add_zero_r by exact Ha. exact Ha.
  - apply add_positive; [exact Ha | exact I].
Qed.

Lemma sum_one_hot xs :
  one_hot xs ->
  (0 <? sum xs)%float = true <-> Exists (fun x => x = 1%float) xs.
Proof.
  unfold sum. intros H. induction H as [|x xs Hx Hxs IH].
  - simpl. split; [discriminate | intros E; inversion E].
  - simpl. destruct Hx as [->| ->].
    + change (0 + 0)%float with 0%float. rewrite IH. split.
      * intros E. right. exact E.
      * intros E. apply Exists_cons in E as [E|E]; [discriminate E | exact E].
    + change (0 + 1)%float with 1%float. split; [intros _; left; reflexivity|].
      intros _. apply positive_float_gt. apply fold_add_positive; [exact Hxs | exact I].
Qed.

End OneHotSum.

(** ** Path selection and scaling *)

Section PathSelection.
Import Py Np Predictor Samples.

Context {numpy : Numpy}.

Lemma zeros_one_hot n : one_hot (zeros n).
Proof.
  unfold one_hot, zeros. induction n; simpl; constructor; auto.
Qed.

Lemma match_step_one_hot ix st s :
  one_hot (feature_vec st) -> one_hot (feature_vec (match_step ix st s)).
Proof.
  intros H. unfold match_step. destruct (truthy s); simpl; [|exact H].
  destruct (lookup_symptom ix s); simpl; [|exact H].
  apply Forall_insert; [exact H | right; reflexivity].
Qed.

Lemma match_symptoms_one_hot V l : one_hot (feature_vec (match_symptoms V l)).
Proof.
  unfold match_symptoms.
  assert (H : forall st, one_hot (feature_vec st) ->
                         one_hot (feature_vec (fold_left (match_step (build_vocab_index V)) l st))).
  { induction l as [|s l IH]; intros st Hst; [exact Hst|].
    simpl. apply IH. apply match_step_one_hot. exact Hst. }
  apply H. simpl. apply zeros_one_hot.
Qed.

Lemma one_hot_nonzero xs :
  one_hot xs -> (has_nonzero xs <-> Exists (fun x => x = 1%float) xs).
Proof.
  intros H. unfold has_nonzero. induction H as [|x xs Hx _ IH].
  - split; intros E; inversion E.
  - rewrite !Exists_cons, IH. destruct Hx as [->| ->].
    + split; intros [E|E].
      * exfalso. apply E. reflexivity.
      * right. exact E.
      * discriminate E.
      * right. exact E.
    + split; intros _; left; [reflexivity | intros E; discriminate E].
Qed.

Lemma scale_vitals self data :
  scale_features self (vitals_vector data) false = scaled_vitals self data.
Proof.
  unfold scale_features, scaled_vitals, try_default.
  destruct (scaler self); reflexivity.
Qed.

(** C4 (amended). The scaler is applied on the vitals path only, and only
    when its transform succeeds.  When the symptom one-hot vector has a
    non-zero entry it is the vector given to the classifier, unscaled;
    otherwise the vector of the seven vitals in their fixed order is built,
    0 standing for a missing field, and the classifier is given it as it
    is when the bundle has no scaler, the result of the transform when the
    bundle has one and the transform succeeds, and again the vector as it
    is when the transform raises: the exception is discarded and scaling
    is skipped.  The class of the prediction is what the classifier
    returns on that vector. *)
Theorem scaler_applied_on_vitals_path_only (self : DiseasePredictor) (data : request) :
  let vitals :=
    NdOfList [ get_or data "age" (VInt 0); get_or data "gender" (VInt 0);
               get_or data "weight" (VInt 0);
               get_or data "blood_pressure_systolic" (VInt 0);
               get_or data "blood_pressure_diastolic" (VInt 0);
               get_or data "glucose" (VInt 0);
               get_or data "cholesterol" (VInt 0) ] in
  (forall vec, one_hot_vector self data = Some vec -> has_nonzero vec ->
     select_features self data = (NdFloat vec, true)
     /\ features_of self data = NdFloat vec)
  /\ (forall vec, one_hot_vector self data = Some vec -> ~ has_nonzero vec ->
     select_features self data = (vitals, false))
  /\ (one_hot_vector self data = None ->
     select_features self data = (vitals, false))
  /\ (select_features self data = (vitals, false) ->
     match scaler self with
     | None => features_of self data = vitals
     | Some sc =>
         match transform sc vitals with
         | Ok scaled => features_of self data = scaled
         | Raise _ => features_of self data = vitals
         end
     end)
  /\ (forall r, Predictor.predict self data = Ok r ->
        predict_class (model self) (features_of self data) = Ok (disease_code r)
        /\ used_symptoms_path r = snd (select_features self data))
  /\ (forall e, predict_class (model self) (features_of self data) = Raise e ->
        Predictor.predict self data = Raise e).
Proof.
  intros vitals. change vitals with (vitals_vector data).
  split; [|split; [|split; [|split]]].
  - intros vec Hvec Hnz. unfold one_hot_vector in Hvec. unfold features_of, select_features.
    destruct (symptom_vocabulary self) as [|v0 V] eqn:EV; [discriminate|].
    destruct (symptoms_field data) as [[x|l]|]; try discriminate.
    injection Hvec as <-.
    apply one_hot_nonzero in Hnz; [|apply match_symptoms_one_hot].
    apply sum_one_hot in Hnz; [|apply match_symptoms_one_hot].
    rewrite Hnz. split; [reflexivity|].
    unfold scale_features. destruct (scaler self); reflexivity.
  - intros vec Hvec Hz. unfold one_hot_vector in Hvec. unfold select_features.
    destruct (symptom_vocabulary self) as [|v0 V] eqn:EV; [discriminate|].
    destruct (symptoms_field data) as [[x|l]|]; try discriminate.
    injection Hvec as <-.
    destruct (0 <? sum (feature_vec (match_symptoms (v0 :: V) l)))%float eqn:E;
      [|reflexivity].
    exfalso. apply Hz. apply one_hot_nonzero; [apply match_symptoms_one_hot|].
    apply sum_one_hot; [apply match_symptoms_one_hot | exact E].
  - intros Hnone. unfold one_hot_vector in Hnone. unfold select_features.
    destruct (symptom_vocabulary self) as [|v0 V]; [reflexivity|].
    destruct (symptoms_field data) as [[x|l]|]; try discriminate; reflexivity.
  - intros E. unfold features_of. rewrite E. unfold scale_features, try_default.
    cbn [negb].
    destruct (scaler self) as [sc|]; [|reflexivity].
    destruct (transform sc (vitals_vector data)); reflexivity.
  - rewrite predict_respond.
    exact (respond_calls_classifier self (features_of self data)
             (snd (select_features self data))).
Qed.

End PathSelection.

Section PathSelectionExamples.
Import Py Np Predictor Samples.

Lemma scaler_applied_on_vitals_path_only_witness :
  features_of scaled_bundle symptom_request = NdFloat [1; 0; 1; 0; 0; 0; 0]%float
  /\ features_of scaled_bundle vitals_request
     = NdFloat [22.5; 0.5; 37.5; 65; 42.5; 55; 100]%float.
Proof.
  destruct (scaler_applied_on_vitals_path_only scaled_bundle symptom_request)
    as [H1 _].
  destruct (scaler_applied_on_vitals_path_only scaled_bundle vitals_request)
    as [_ [_ [H3 [H4 _]]]].
  split.
  - apply (H1 [1; 0; 1; 0; 0; 0; 0]%float).
    + vm_compute. reflexivity.
    + apply Exists_cons_hd. intros E. discriminate E.
  - exact (H4 (H3 eq_refl)).
Defined.

(** C4, as stated, fails for a scaler whose transform raises: the bundle
    has a scaler and the vitals path is taken, yet the classifier is given
    the seven vitals unscaled. *)
Lemma scaler_applied_on_vitals_path_only_counterexample :
  scaler mismatched_bundle = Some mismatched_scaler
  /\ select_features mismatched_bundle vitals_request
     = (NdOfList [VInt 45; VInt 1; VInt 75; VInt 130; VInt 85; VInt 110; VInt 200],
        false)
  /\ transform mismatched_scaler
       (NdOfList [VInt 45; VInt 1; VInt 75; VInt 130; VInt 85; VInt 110; VInt 200])
     = Raise (ValueError "X has a wrong number of features")
  /\ features_of mismatched_bundle vitals_request
     = NdOfList [VInt 45; VInt 1; VInt 75; VInt 130; VInt 85; VInt 110; VInt 200].
Proof. repeat split; vm_compute; reflexivity. Qed.

(** The two scenarios of the specification: the vitals request with no
    vocabulary loaded, and two symptoms of which one is in the vocabulary. *)
Example scenario_vitals_without_vocabulary :
  exists p,
    Predictor.predict {| model := constant_model; scaler := None;
                         label_encoders := ∅; symptom_vocabulary := [] |}
                      vitals_request = Ok p
    /\ used_symptoms_path p = false /\ matched_symptoms p = 0.
Proof. eexists. split; [vm_compute; reflexivity | split; reflexivity]. Qed.

Example scenario_one_symptom_matches :
  match_symptoms ["chest pain"; "fever"] [VStr "Chest Pain!"; VStr "coughing"]
  = {| feature_vec := [1; 0]%float;
       matched := [VStr "Chest Pain!"];
       unmatched := [VStr "coughing"] |}
  /\ select_features {| model := constant_model; scaler := None;
                        label_encoders := ∅;
                        symptom_vocabulary := ["chest pain"; "fever"] |}
       (mk_request (Some (VList [VStr "Chest Pain!"; VStr "coughing"])) [])
     = (NdFloat [1; 0]%float, true).
Proof. split; vm_compute; reflexivity. Qed.

End PathSelectionExamples.

(* ================================================================== *)
(** * Further properties of the service *)
(* ================================================================== *)

(** ** The vocabulary index and the matching loop, in full *)

Section MatchingLoop.
Import Py Np Predictor.

Context {numpy : Numpy}.

Lemma first_owner_none key vocabulary :
  first_owner key vocabulary = None ->
  forall j t, vocabulary !! j = Some t -> owns key t = false.
Proof.
  induction vocabulary as [|s V IH]; cbn [first_owner]; intros H j t Hj.
  - discriminate.
  - destruct (owns key s) eqn:E; [discriminate|].
    destruct (first_owner key V); [discriminate|].
    destruct j as [|j]; simpl in Hj; [congruence | apply (IH eq_refl j t Hj)].
Qed.

(** X1. The index built from a vocabulary maps a key to the first position
    whose entry has the key among its variants, a valid position of the
    vocabulary, and holds no key that no entry has among its variants. *)
Theorem vocab_index_holds_first_owner (V : list string) (key : string) :
  match build_vocab_index V !! key with
  | Some j =>
      (j < List.length V)%nat
      /\ (exists t, V !! j = Some t /\ In key (_variants (_norm (VStr t))))
      /\ (forall j' t', (j' < j)%nat -> V !! j' = Some t' ->
                        ~ In key (_variants (_norm (VStr t'))))
  | None =>
      forall j t, V !! j = Some t -> ~ In key (_variants (_norm (VStr t)))
  end.
Proof.
  rewrite build_vocab_index_lookup.
  destruct (first_owner key V) as [j|] eqn:E.
  - destruct (first_owner_spec _ _ _ E) as [[t [Ht Ho]] Hmin].
    split; [apply (lookup_lt_Some _ _ _ Ht)|]. split.
    + exists t. split; [exact Ht | apply owns_In; exact Ho].
    + intros j' t' Hlt Hl Hin. apply owns_In in Hin.
      rewrite (Hmin j' t' Hlt Hl) in Hin. discriminate.
  - intros j t Hj Hin. apply owns_In in Hin.
    rewrite (first_owner_none _ _ E j t Hj) in Hin. discriminate.
Qed.

Lemma fold_match_vector ix l st i :
  feature_vec (fold_left (match_step ix) l st) !! i
  = match feature_vec st !! i with
    | Some x => Some (if hits_position ix l i then 1%float else x)
    | None => None
    end.
Proof.
  revert st. induction l as [|s l IH]; intros st.
  - cbn [fold_left hits_position existsb]. destruct (feature_vec st !! i); reflexivity.
  - cbn [fold_left]. rewrite IH. unfold hits_position. cbn [existsb].
    fold (hits_position ix l i). unfold match_step.
    destruct (truthy s); cbn [negb andb orb feature_vec]; [|reflexivity].
    destruct (lookup_symptom ix s) as [j|]; cbn [feature_vec orb]; [|reflexivity].
    destruct (Nat.eqb_spec j i) as [->|Hne]; cbn [orb].
    + destruct (feature_vec st !! i) as [x|] eqn:E.
      * rewrite list_lookup_insert_eq by (apply (lookup_lt_Some _ _ _ E)).
        destruct (hits_position ix l i); reflexivity.
      * rewrite list_insert_ge by (apply lookup_ge_None; exact E).
        rewrite E. reflexivity.
    + rewrite list_lookup_insert_ne by exact Hne. reflexivity.
Qed.

Lemma fold_match_length ix l st :
  List.length (feature_vec (fold_left (match_step ix) l st))
  = List.length (feature_vec st).
Proof.
  revert st. induction l as [|s l IH]; intros st; [reflexivity|].
  cbn [fold_left]. rewrite IH. unfold match_step.
  destruct (truthy s); cbn [negb feature_vec]; [|reflexivity].
  destruct (lookup_symptom ix s); cbn [feature_vec]; [|reflexivity].
  apply length_insert.
Qed.

Lemma zeros_lookup n i : (i < n)%nat -> zeros n !! i = Some 0%float.
Proof.
  unfold zeros. revert i. induction n as [|n IH]; intros i Hi; [lia|].
  destruct i as [|i]; simpl; [reflexivity | apply IH; lia].
Qed.

Lemma zeros_length n : List.length (zeros n) = n.
Proof. apply repeat_length. Qed.

(** X2. After the matching loop the feature vector has one entry per
    vocabulary position, 1.0 at the positions that some truthy symptom of
    the request is looked up at and 0.0 at every other position. *)
Theorem one_hot_marks_looked_up_positions (V : list string) (symptoms : list scalar) :
  let st := match_symptoms V symptoms in
  List.length (feature_vec st) = List.length V
  /\ forall i, (i < List.length V)%nat ->
       feature_vec st !! i
       = Some (if hits_position (build_vocab_index V) symptoms i
               then 1%float else 0%float).
Proof.
  unfold match_symptoms. split.
  - rewrite fold_match_length. apply zeros_length.
  - intros i Hi. rewrite fold_match_vector. cbn [feature_vec].
    rewrite (zeros_lookup _ _ Hi). reflexivity.
Qed.

Lemma fold_match_logs ix l st :
  matched (fold_left (match_step ix) l st)
  = (matched st ++ List.filter (is_hit ix) l)%list
  /\ unmatched (fold_left (match_step ix) l st)
     = (unmatched st ++ List.filter (is_miss ix) l)%list.
Proof.
  revert st. induction l as [|s l IH]; intros st.
  - cbn [fold_left List.filter]. rewrite !app_nil_r. split; reflexivity.
  - cbn [fold_left List.filter]. destruct (IH (match_step ix st s)) as [-> ->].
    unfold match_step, is_hit, is_miss.
    destruct (truthy s); cbn [negb andb]; [|split; reflexivity].
    destruct (lookup_symptom ix s); cbn [matched unmatched];
      rewrite <- ?app_assoc; split; reflexivity.
Qed.

(** X3. The loop logs every truthy entry of the request once, in the order
    of the request: as matched when it is found in the index, as unmatched
    when it is not. *)
Theorem matched_and_unmatched_partition (V : list string) (symptoms : list scalar) :
  let st := match_symptoms V symptoms in
  matched st = List.filter (is_hit (build_vocab_index V)) symptoms
  /\ unmatched st = List.filter (is_miss (build_vocab_index V)) symptoms
  /\ Permutation (matched st ++ unmatched st) (List.filter truthy symptoms).
Proof.
  unfold match_symptoms.
  destruct (fold_match_logs (build_vocab_index V) symptoms
              {| feature_vec := zeros (List.length V); matched := []; unmatched := [] |})
    as [-> ->].
  cbn [matched unmatched app]. split; [reflexivity|]. split; [reflexivity|].
  induction symptoms as [|s l IH]; [reflexivity|].
  cbn [List.filter]. unfold is_hit at 1, is_miss at 1.
  destruct (truthy s); cbn [andb]; [|exact IH].
  destruct (lookup_symptom (build_vocab_index V) s).
  - cbn [app]. apply perm_skip. exact IH.
  - rewrite <- Permutation_middle. apply perm_skip. exact IH.
Qed.

Lemma hits_position_same_entries ix l l' i :
  (forall s, In s l <-> In s l') -> hits_position ix l i = hits_position ix l' i.
Proof.
  intros H. unfold hits_position. apply eq_true_iff_eq.
  rewrite !existsb_exists. split; intros [s [Hs Hf]]; exists s;
    (split; [apply H; exact Hs | exact Hf]).
Qed.

Lemma match_vector_same_entries V l l' :
  (forall s, In s l <-> In s l') ->
  feature_vec (match_symptoms V l) = feature_vec (match_symptoms V l').
Proof.
  intros H. apply list_eq. intros i. unfold match_symptoms.
  rewrite !fold_match_vector. cbn [feature_vec].
  rewrite (hits_position_same_entries _ l l' i H). reflexivity.
Qed.

(** X4. The order of the symptoms of a request and their repetition have no
    influence on the prediction: two symptom lists with the same entries
    give the same result. *)
Theorem symptom_order_is_irrelevant (self : DiseasePredictor) (data : request)
    (l l' : list scalar) :
  symptoms_field data = Some (VList l) ->
  (forall s, In s l <-> In s l') ->
  predict self data
  = predict self {| symptoms_field := Some (VList l'); fields := fields data |}.
Proof.
  intros Hd Hsame.
  assert (E : select_features self {| symptoms_field := Some (VList l'); fields := fields data |}
              = select_features self data).
  { unfold select_features. rewrite Hd. cbn [symptoms_field].
    destruct (symptom_vocabulary self) as [|v0 V]; [reflexivity|].
    rewrite (match_vector_same_entries (v0 :: V) l l' Hsame). reflexivity. }
  rewrite !predict_respond. unfold features_of. rewrite E. reflexivity.
Qed.

End MatchingLoop.

Section MatchingLoopWitness.
Import Py Np Predictor Samples.

Lemma symptom_order_is_irrelevant_witness :
  predict bundle two_symptoms_request
  = predict bundle
      {| symptoms_field := Some (VList [VStr "cough"; VStr "fever"; VStr "cough"]);
         fields := fields two_symptoms_request |}.
Proof.
  apply (symptom_order_is_irrelevant bundle two_symptoms_request
           [VStr "fever"; VStr "cough"] [VStr "cough"; VStr "fever"; VStr "cough"]).
  - reflexivity.
  - intros s. simpl. tauto.
Defined.

End MatchingLoopWitness.

(** ** What a prediction reports *)

Section Responses.
Import Py Np Predictor Samples.

Context {numpy : Numpy}.

(** X5. For a request whose fields hold scalars (null, booleans, numbers
    or strings; an array-valued vital is outside [request], and on it
    [np.array] may raise before the classifier is reached), a prediction
    fails in two cases only: the classifier's [predict] raises, with that
    exception, or [predict_proba] returns an empty distribution, with the
    ValueError of [np.max]; in particular no check of such a request makes
    it fail. *)
Theorem predict_fails_only_in_the_classifier (self : DiseasePredictor)
    (data : request) (e : exn) :
  predict self data = Raise e
  <-> predict_class (model self) (features_of self data) = Raise e
      \/ (exists c proba,
            predict_class (model self) (features_of self data) = Ok c
            /\ predict_proba (model self) = Some proba
            /\ proba (features_of self data) = Ok []
            /\ e = ValueError "zero-size array to reduction operation maximum which has no identity").
Proof.
  rewrite predict_respond. unfold respond.
  destruct (predict_class (model self) (features_of self data)) as [c|e0] eqn:Ec;
    cbn [bind].
  - destruct (predict_proba (model self)) as [proba|] eqn:Ep.
    + destruct (proba (features_of self data)) as [p|e1] eqn:Eq;
        cbn [try_default bind].
      * destruct p as [|x xs]; cbn [Np.max bind]; split.
        -- intros [= <-]. right. exists c, proba. repeat split. exact Eq.
        -- intros [H|[c' [proba' [_ [_ [_ ->]]]]]]; [discriminate | reflexivity].
        -- discriminate.
        -- intros [H|[c' [proba' [_ [Hp [Hq _]]]]]]; [discriminate|].
           injection Hp as <-. rewrite Eq in Hq. discriminate.
      * split; [discriminate|].
        intros [H|[c' [proba' [_ [Hp [Hq _]]]]]]; [discriminate|].
        injection Hp as <-. rewrite Eq in Hq. discriminate.
    + cbn [bind]. split; [discriminate|].
      intros [H|[c' [proba' [_ [Hp _]]]]]; discriminate.
  - split; [intros [= ->]; left; reflexivity|].
    intros [[= ->]|[c' [proba' [Hc _]]]]; [reflexivity | discriminate].
Qed.

(** X6. When the classifier has no [predict_proba], or the call raises, a
    successful prediction reports the placeholder confidence 0.85, that is
    85 percent, the risk level "High" and no ranked alternatives, whatever
    the request. *)
Theorem placeholder_confidence_is_high_risk (self : DiseasePredictor)
    (data : request) (r : Prediction) :
  (predict_proba (model self) = None
   \/ exists proba e, predict_proba (model self) = Some proba
                      /\ proba (features_of self data) = Raise e) ->
  predict self data = Ok r ->
  confidence r = 0.85%float /\ confidence_percent r = 85%float
  /\ risk_level r = "High" /\ top_k r = [].
Proof.
  intros Hp. rewrite predict_respond. unfold respond.
  destruct (predict_class (model self) (features_of self data)) as [c|e0];
    cbn [bind]; [|discriminate].
  assert (E : match predict_proba (model self) with
              | Some proba =>
                  try_default (do p <- proba (features_of self data); Ok (Some p)) None
              | None => None
              end = None).
  { destruct Hp as [->|[proba [e [-> ->]]]]; reflexivity. }
  rewrite E. cbn [bind]. intros [= <-]. cbn.
  repeat split; vm_compute; reflexivity.
Qed.

End Responses.

Section ResponsesWitness.
Import Py Np Predictor Samples.

Lemma placeholder_confidence_is_high_risk_witness :
  exists r, predict plain_bundle vitals_request = Ok r
            /\ confidence r = 0.85%float /\ risk_level r = "High".
Proof.
  assert (H : predict plain_bundle vitals_request
              = Ok {| predicted_disease := "2"; disease_code := 2;
                      confidence := 0.85; confidence_percent := 85;
                      risk_level := "High"; used_symptoms_path := false;
                      matched_symptoms := 0; model_type := "LinearSVC";
                      top_k := [] |}) by (vm_compute; reflexivity).
  eexists. split; [exact H|].
  destruct (placeholder_confidence_is_high_risk plain_bundle vitals_request _
              (or_introl eq_refl) H) as [H1 [_ [H3 _]]].
  split; [exact H1 | exact H3].
Defined.

End ResponsesWitness.

Section TopAlternative.
Import Py Np Predictor Samples.

Context {numpy : Numpy}.

Lemma leb_refl x : is_nan x = false -> (x <=? x)%float = true.
Proof.
  intros Hx. rewrite FloatAxioms.leb_spec. unfold SFleb.
  pose proof (SFcompare_opp (Prim2SF x) (Prim2SF x)) as H.
  destruct (compare_some x x Hx Hx) as [c Hc]. rewrite Hc in *.
  destruct c; simpl in H; congruence.
Qed.

Lemma leb_antisym x y :
  (x <=? y)%float = true -> (y <=? x)%float = true -> (x =? y)%float = true.
Proof.
  rewrite !FloatAxioms.leb_spec, FloatAxioms.eqb_spec. unfold SFleb, SFeqb.
  rewrite (SFcompare_opp (Prim2SF x) (Prim2SF y)).
  destruct (SFcompare (Prim2SF x) (Prim2SF y)) as [[]|]; simpl; congruence.
Qed.

Lemma eqb_positive_eq x y :
  (x =? y)%float = true -> (0 <? y)%float = true -> x = y.
Proof.
  rewrite FloatAxioms.eqb_spec, FloatAxioms.ltb_spec.
  change (Prim2SF 0) with (S754_zero false).
  unfold SFeqb, SFltb. intros He Hl. apply Prim2SF_inj.
  destruct (Prim2SF x) as [[]|[]| |[] m1 e1], (Prim2SF y) as [[]|[]| |[] m2 e2];
    simpl in He, Hl; try discriminate; try reflexivity.
  destruct (Z.compare_spec e1 e2); try discriminate. subst.
  change (PosDef.Pos.compare_cont Eq m1 m2) with (Pos.compare m1 m2) in He.
  destruct (Pos.compare_spec m1 m2); try discriminate. subst. reflexivity.
Qed.

Lemma fold_fmax_spec xs acc :
  is_nan acc = false -> Forall (fun x => is_nan x = false) xs ->
  In (fold_left fmax xs acc) (acc :: xs)
  /\ is_nan (fold_left fmax xs acc) = false
  /\ forall x, In x (acc :: xs) -> (x <=? fold_left fmax xs acc)%float = true.
Proof.
  intros Hacc Hxs. revert acc Hacc.
  induction Hxs as [|y xs Hy _ IH]; intros acc Hacc.
  - simpl. split; [left; reflexivity|]. split; [exact Hacc|].
    intros x [<-|[]]. apply leb_refl. exact Hacc.
  - cbn [fold_left].
    assert (F : fmax acc y = if (acc <? y)%float then y else acc)
      by (unfold fmax; rewrite Hacc, Hy; reflexivity).
    rewrite F. destruct (acc <? y)%float eqn:E.
    + destruct (IH y Hy) as [Hin [Hn Hall]]. split; [right; exact Hin|].
      split; [exact Hn|]. intros x [<-|Hx]; [|apply Hall; exact Hx].
      apply (leb_trans _ y); [apply ltb_leb; exact E | apply Hall; left; reflexivity].
    + destruct (IH acc Hacc) as [Hin [Hn Hall]]. split.
      * destruct Hin as [<-|Hin]; [left; reflexivity | right; right; exact Hin].
      * split; [exact Hn|]. intros x [<-|[<-|Hx]].
        -- apply Hall. left. reflexivity.
        -- apply (leb_trans _ acc);
             [apply ltb_false_leb; assumption | apply Hall; left; reflexivity].
        -- apply Hall. right. exact Hx.
Qed.

Lemma max_spec p m :
  Forall (fun x => is_nan x = false) p -> Np.max p = Ok m ->
  In m p /\ forall x, In x p -> (x <=? m)%float = true.
Proof.
  intros Hp. destruct p as [|x xs]; [discriminate|]. cbn [Np.max].
  intros [= <-]. apply Forall_cons_iff in Hp as [Hx Hxs].
  destruct (fold_fmax_spec xs x Hx Hxs) as [H1 [_ H2]]. split; assumption.
Qed.

(** The first index of the ranking has the greatest probability. *)
Lemma ranking_head p :
  Forall (fun x => is_nan x = false) p -> p <> [] ->
  exists a rest, rev (argsort p) = a :: rest /\ (a < List.length p)%nat
    /\ forall i, (i < List.length p)%nat -> (nth i p nan <=? nth a p nan)%float = true.
Proof.
  intros Hp Hne.
  pose proof (argsort_covers p) as Hcov.
  pose proof (argsort_ascending p Hp) as Hasc. unfold ascending in Hasc.
  apply covers_Permutation in Hcov.
  apply pairwise_sorted, StronglySorted_rev in Hasc.
  assert (Hperm : Permutation (rev (argsort p)) (seq 0 (List.length p)))
    by (rewrite <- Hcov; symmetry; apply Permutation_rev).
  destruct (rev (argsort p)) as [|a rest] eqn:E.
  - apply Permutation_length in Hperm. rewrite length_seq in Hperm.
    destruct p; [congruence | discriminate].
  - exists a, rest. split; [reflexivity|].
    assert (Ha : (a < List.length p)%nat).
    { assert (In a (seq 0 (List.length p)))
        by (apply (Permutation_in _ Hperm); left; reflexivity).
      apply in_seq in H. lia. }
    split; [exact Ha|]. intros i Hi.
    assert (Hin : In i (a :: rest))
      by (apply (Permutation_in _ (Permutation_sym Hperm)); apply in_seq; lia).
    apply StronglySorted_inv in Hasc as [_ Hall].
    destruct Hin as [<-|Hin].
    + apply leb_refl. rewrite Forall_forall in Hp. apply Hp.
      apply list_elem_of_In. apply nth_In. exact Ha.
    + rewrite Forall_forall in Hall. apply Hall. apply list_elem_of_In. exact Hin.
Qed.

(** X7. When [predict_proba] returns a distribution without NaN whose
    greatest probability is positive, the first of the ranked alternatives
    carries exactly the confidence that the response reports. *)
Theorem top_alternative_carries_the_confidence (self : DiseasePredictor)
    (features : ndarray) (used : bool) (proba : ndarray -> result (list float))
    (p : list float) (m : float) (r : Prediction) :
  predict_proba (model self) = Some proba ->
  proba features = Ok p ->
  Forall (fun x => is_nan x = false) p ->
  Np.max p = Ok m -> (0 <? m)%float = true ->
  respond self features used = Ok r ->
  exists idx rest,
    (idx < List.length p)%nat
    /\ top_k r = (label_of self idx, confidence r) :: rest
    /\ confidence r = round m 4.
Proof.
  intros Hproba Hp Hnum Hmax Hpos Hr.
  assert (Hne : p <> []) by (intros ->; discriminate).
  destruct (ranking_head p Hnum Hne) as [a [rest [Hrev [Ha Htop]]]].
  destruct (max_spec p m Hnum Hmax) as [Hin Hall].
  assert (Em : nth a p nan = m).
  { apply eqb_positive_eq; [|exact Hpos]. apply leb_antisym.
    - apply Hall. apply nth_In. exact Ha.
    - apply (In_nth _ _ nan) in Hin as [j [Hj <-]]. apply Htop. exact Hj. }
  assert (Hc : confidence r = round m 4).
  { unfold respond in Hr. rewrite Hproba, Hp in Hr. cbn [try_default bind] in Hr.
    destruct (predict_class (model self) features); cbn [bind] in Hr; [|discriminate].
    rewrite Hmax in Hr. cbn [bind] in Hr. injection Hr as <-. reflexivity. }
  rewrite (respond_top_k self features used proba p r Hproba Hp Hr).
  unfold build_top_k, top_k_from. rewrite Hrev.
  destruct (Nat.min 5 (List.length p)) as [|k] eqn:Ek.
  { destruct p; [congruence | simpl in Ek; discriminate]. }
  exists a, (map (top_entry (class_labels self (List.length p)) p) (firstn k rest)).
  split; [exact Ha|]. split; [|exact Hc].
  cbn [firstn map]. f_equal.
  rewrite (top_entry_label self p a Ha), Em, Hc. reflexivity.
Qed.

End TopAlternative.

Section TopAlternativeWitness.
Import Py Np Predictor Samples.

Lemma top_alternative_carries_the_confidence_witness :
  exists r idx rest,
    respond bundle (vitals_vector vitals_request) false = Ok r
    /\ top_k r = (label_of bundle idx, confidence r) :: rest.
Proof.
  assert (Hr : respond bundle (vitals_vector vitals_request) false
               = Ok {| predicted_disease := "0"; disease_code := 0;
                       confidence := 0.7; confidence_percent := 70;
                       risk_level := "Medium"; used_symptoms_path := false;
                       matched_symptoms := 0; model_type := "RandomForestClassifier";
                       top_k := [("0", 0.7%float); ("1", 0.2%float); ("2", 0.1%float)] |})
    by (vm_compute; reflexivity).
  destruct (top_alternative_carries_the_confidence bundle
              (vitals_vector vitals_request) false
              (fun a => if (row_length a =? 7)%nat then Ok [0.7; 0.2; 0.1]%float
                        else Raise (ValueError "X has a wrong number of features"))
              [0.7; 0.2; 0.1]%float 0.7%float _
              eq_refl eq_refl
              ltac:(repeat constructor) eq_refl eq_refl Hr)
    as [idx [rest [_ [H _]]]].
  eexists. exists idx, rest. split; [exact Hr | exact H].
Defined.

End TopAlternativeWitness.

Section LabelsAndPaths.
Import Py Np Predictor Samples.

Context {numpy : Numpy}.

(** X8. The class id of a response is the one the classifier returned.
    With a populated label encoder and a class id within its classes, the
    disease reported is the class at that position, which is one of the
    [disease_classes] of [get_model_info]; otherwise (no encoder, or a class
    id outside the encoder's classes) it is the class id in decimal. *)
Theorem predicted_disease_is_a_model_class (self : DiseasePredictor)
    (features : ndarray) (used : bool) (importances : option (list float))
    (r : Prediction) :
  respond self features used = Ok r ->
  predict_class (model self) features = Ok (disease_code r)
  /\ match encoder self with
     | Some e =>
         if (0 <=? disease_code r) && (disease_code r <? Z.of_nat (List.length (classes_ e)))
         then predicted_disease r = nth (Z.to_nat (disease_code r)) (classes_ e) ""
              /\ In (predicted_disease r)
                    (disease_classes (get_model_info self importances))
         else predicted_disease r = str_of_Z (disease_code r)
     | None =>
         predicted_disease r = str_of_Z (disease_code r)
         /\ disease_classes (get_model_info self importances) = []
     end.
Proof.
  unfold respond. destruct (predict_class (model self) features) as [c|e0];
    cbn [bind]; [|discriminate].
  destruct (match match predict_proba (model self) with
                  | Some proba => try_default (do p <- proba features; Ok (Some p)) None
                  | None => None
                  end with
            | Some p => Np.max p
            | None => Ok 0.85%float
            end) as [conf|e1]; cbn [bind]; [|discriminate].
  intros [= <-]. cbn [disease_code predicted_disease]. split; [reflexivity|].
  unfold predicted_label, get_model_info. cbn [disease_classes].
  destruct (encoder self) as [e|]; [|split; reflexivity].
  unfold inverse_transform.
  destruct ((0 <=? c) && (c <? Z.of_nat (List.length (classes_ e)))) eqn:E;
    cbn [bind try_default]; [|reflexivity].
  split; [reflexivity|]. apply nth_In.
  apply andb_prop in E as [E1 E2]. apply Z.leb_le in E1. apply Z.ltb_lt in E2. lia.
Qed.

(** X9. Without a symptom vocabulary, and when [symptoms] is not a list, the
    symptoms of a request have no influence on the prediction: it is
    computed from the other fields alone. *)
Theorem symptoms_ignored_outside_symptom_path (self : DiseasePredictor)
    (data : request) (other : option value) :
  (symptom_vocabulary self = []
   \/ (not_a_list (symptoms_field data) = true /\ not_a_list other = true)) ->
  predict self data
  = predict self {| symptoms_field := other; fields := fields data |}.
Proof.
  intros H. rewrite !predict_respond. unfold features_of, select_features.
  cbn [symptoms_field].
  destruct (symptoms_field data) as [[?|?]|], other as [[?|?]|];
    destruct H as [->|[H1 H2]]; try discriminate;
    try reflexivity; destruct (symptom_vocabulary self); reflexivity.
Qed.

Lemma select_features_symptom_path self data l :
  symptoms_field data = Some (VList l) ->
  has_nonzero (feature_vec (match_symptoms (symptom_vocabulary self) l)) ->
  select_features self data
  = (NdFloat (feature_vec (match_symptoms (symptom_vocabulary self) l)), true).
Proof.
  intros Hd Hnz. unfold select_features. rewrite Hd.
  destruct (symptom_vocabulary self) as [|v0 V] eqn:EV.
  - exfalso.
    assert (Hlen : List.length (feature_vec (match_symptoms [] l)) = 0%nat)
      by (unfold match_symptoms; rewrite fold_match_length; reflexivity).
    unfold has_nonzero in Hnz.
    destruct (feature_vec (match_symptoms [] l)); [inversion Hnz | discriminate Hlen].
  - apply one_hot_nonzero in Hnz; [|apply match_symptoms_one_hot].
    apply sum_one_hot in Hnz; [|apply match_symptoms_one_hot].
    rewrite Hnz. reflexivity.
Qed.

(** X10. When a symptom of the request sets a position of the one-hot
    vector, the other fields of the request have no influence on the
    prediction: the vitals are not read and no scaler is applied. *)
Theorem vitals_ignored_on_symptom_path (self : DiseasePredictor)
    (data : request) (l : list scalar) (flds : gmap string scalar) :
  symptoms_field data = Some (VList l) ->
  has_nonzero (feature_vec (match_symptoms (symptom_vocabulary self) l)) ->
  predict self data
  = predict self {| symptoms_field := symptoms_field data; fields := flds |}
  /\ features_of self data
     = NdFloat (feature_vec (match_symptoms (symptom_vocabulary self) l)).
Proof.
  intros Hd Hnz.
  pose proof (select_features_symptom_path self data l Hd Hnz) as E1.
  assert (E2 : select_features self {| symptoms_field := symptoms_field data; fields := flds |}
               = (NdFloat (feature_vec (match_symptoms (symptom_vocabulary self) l)), true))
    by (apply select_features_symptom_path; [exact Hd | exact Hnz]).
  rewrite !predict_respond. unfold features_of. rewrite E1, E2.
  split; [reflexivity|]. unfold scale_features. destruct (scaler self); reflexivity.
Qed.

End LabelsAndPaths.

Section LabelsAndPathsWitness.
Import Py Np Predictor Samples.

Lemma predicted_disease_is_a_model_class_witness :
  exists r, respond labelled_bundle (vitals_vector vitals_request) false = Ok r
            /\ predicted_disease r = "Common Cold"
            /\ In (predicted_disease r) (disease_classes (get_model_info labelled_bundle None)).
Proof.
  assert (Hr : respond labelled_bundle (vitals_vector vitals_request) false
               = Ok {| predicted_disease := "Common Cold"; disease_code := 0;
                       confidence := 0.7; confidence_percent := 70;
                       risk_level := "Medium"; used_symptoms_path := false;
                       matched_symptoms := 0; model_type := "RandomForestClassifier";
                       top_k := [("Common Cold", 0.7%float); ("Flu", 0.2%float);
                                 ("Migraine", 0.1%float)] |})
    by (vm_compute; reflexivity).
  eexists. split; [exact Hr|].
  pose proof (proj2 (predicted_disease_is_a_model_class labelled_bundle
                       (vitals_vector vitals_request) false None _ Hr)) as H.
  split; [reflexivity|]. apply H.
Defined.

Lemma symptoms_ignored_outside_symptom_path_witness :
  predict {| model := constant_model; scaler := None; label_encoders := ∅;
             symptom_vocabulary := [] |} symptom_request
  = predict {| model := constant_model; scaler := None; label_encoders := ∅;
               symptom_vocabulary := [] |}
            {| symptoms_field := None; fields := fields symptom_request |}.
Proof.
  apply (symptoms_ignored_outside_symptom_path
           {| model := constant_model; scaler := None; label_encoders := ∅;
              symptom_vocabulary := [] |} symptom_request None).
  left. reflexivity.
Defined.

Lemma vitals_ignored_on_symptom_path_witness :
  predict scaled_bundle symptom_request
  = predict scaled_bundle
      {| symptoms_field := symptoms_field symptom_request; fields := ∅ |}.
Proof.
  apply (vitals_ignored_on_symptom_path scaled_bundle symptom_request
           [VStr "Chest Pain!"; VStr "coughing"] ∅).
  - reflexivity.
  - unfold has_nonzero. vm_compute. apply Exists_cons_hd. intros E. discriminate E.
Defined.

End LabelsAndPathsWitness.

(** ** Validation, in full *)

Section ValidationInFull.
Import Py Np Predictor Validators Samples.

Context {numpy : Numpy}.

Lemma check_required_forallb data fs :
  (check_required data fs = Ok tt /\ forallb (has_field data) fs = true)
  \/ (exists e, check_required data fs = Raise e /\ forallb (has_field data) fs = false).
Proof.
  induction fs as [|f fs IH]; cbn [check_required forallb].
  - left. split; reflexivity.
  - destruct (has_field data f); cbn [negb andb]; [exact IH|].
    right. eexists. split; reflexivity.
Qed.

(** Validation accepts a request exactly when it is in symptoms-only mode
    or its seven vitals are present and pass their checks, and the symptom
    list passes its own checks. *)
Lemma validate_accepted (data : request) (w : list scalar) :
  validate_prediction_input data = Ok w
  <-> (symptoms_only_of (get_symptoms data) || vitals_ok data) = true
      /\ check_symptoms (get_symptoms data) = Ok w.
Proof.
  unfold validate_prediction_input.
  destruct (symptoms_only_of (get_symptoms data)); cbn [negb orb bind].
  - tauto.
  - unfold vitals_ok. cbn [forallb vitals_ranges].
    destruct (check_required_forallb data required_fields) as [[-> ->]|[e [-> ->]]];
      cbn [bind andb]; [|split; [discriminate | intros [H _]; discriminate]].
    destruct (out_of_range (get data "age") 0 150); cbn [bind negb andb];
      [split; [discriminate | intros [H _]; discriminate]|].
    destruct (eq_int (get data "gender") 0 || eq_int (get data "gender") 1);
      cbn [bind negb andb].
    2:{ rewrite !andb_false_r. split; [discriminate | intros [H _]; discriminate]. }
    destruct (out_of_range (get data "weight") 20 300); cbn [bind negb andb];
      [split; [discriminate | intros [H _]; discriminate]|].
    destruct (out_of_range (get data "blood_pressure_systolic") 50 250);
      cbn [bind negb andb]; [split; [discriminate | intros [H _]; discriminate]|].
    destruct (out_of_range (get data "blood_pressure_diastolic") 30 150);
      cbn [bind negb andb]; [split; [discriminate | intros [H _]; discriminate]|].
    destruct (out_of_range (get data "glucose") 40 400); cbn [bind negb andb];
      [split; [discriminate | intros [H _]; discriminate]|].
    destruct (out_of_range (get data "cholesterol") 50 500); cbn [bind negb andb];
      [split; [discriminate | intros [H _]; discriminate]|].
    tauto.
Qed.

Lemma ltb_nan_l x y : is_nan x = true -> (x <? y)%float = false.
Proof.
  rewrite is_nan_spec, FloatAxioms.ltb_spec. unfold SFltb. intros ->. reflexivity.
Qed.

Lemma ltb_nan_r x y : is_nan y = true -> (x <? y)%float = false.
Proof.
  rewrite is_nan_spec, FloatAxioms.ltb_spec. unfold SFltb. intros ->.
  destruct (Prim2SF x) as [[]|[]| |[] m e]; reflexivity.
Qed.

Lemma leb_ltb_false x y : (x <=? y)%float = true -> (y <? x)%float = false.
Proof.
  intros H. destruct (leb_not_nan x y H) as [Hx Hy].
  destruct (y <? x)%float eqn:E; [|reflexivity].
  apply (leb_false_ltb x y Hx Hy) in E. congruence.
Qed.

Lemma out_of_range_within v lo hi :
  is_nan (float_of_Z lo) = false -> is_nan (float_of_Z hi) = false ->
  out_of_range v lo hi = false <-> within v lo hi.
Proof.
  intros Hlo Hhi. unfold out_of_range, within.
  destruct v as [|b|z|x|s]; cbn [is_number negb orb lt_int gt_int].
  - split; [discriminate | tauto].
  - rewrite orb_false_iff, !Z.ltb_ge. lia.
  - rewrite orb_false_iff, !Z.ltb_ge. lia.
  - rewrite orb_false_iff. split.
    + intros [H1 H2]. destruct (is_nan x) eqn:En; [left; reflexivity|]. right.
      split; apply ltb_false_leb; assumption.
    + intros [Hn|[H1 H2]].
      * split; [apply ltb_nan_l | apply ltb_nan_r]; exact Hn.
      * split; apply leb_ltb_false; assumption.
  - split; [discriminate | tauto].
Qed.

Lemma vitals_ranges_checks (P : string -> Z -> Z -> Prop) :
  (forall f lo hi, In (f, lo, hi) vitals_ranges -> P f lo hi)
  <-> P "age" 0 150 /\ P "weight" 20 300
      /\ P "blood_pressure_systolic" 50 250 /\ P "blood_pressure_diastolic" 30 150
      /\ P "glucose" 40 400 /\ P "cholesterol" 50 500.
Proof.
  split.
  - intros H. repeat split; apply H; cbn; auto 10.
  - intros (H1 & H2 & H3 & H4 & H5 & H6) f lo hi Hin. cbn in Hin.
    repeat (destruct Hin as [[= <- <- <-]|Hin]; [assumption|]). destruct Hin.
Qed.

(** X11. Outside the symptoms-only mode a request is accepted exactly when
    the seven vitals are present, gender equals 0 or 1, each of the six
    ranged vitals is a number within its range or a NaN, and the symptom
    list passes its own checks. *)
Theorem vitals_validation_accepts_iff (data : request) (w : list scalar) :
  symptoms_only_of (get_symptoms data) = false ->
  validate_prediction_input data = Ok w
  <-> (forall f, In f required_fields -> has_field data f = true)
      /\ (forall f lo hi, In (f, lo, hi) vitals_ranges -> within (get data f) lo hi)
      /\ (eq_int (get data "gender") 0 || eq_int (get data "gender") 1) = true
      /\ check_symptoms (get_symptoms data) = Ok w.
Proof.
  intros Hs. rewrite validate_accepted, Hs. cbn [orb]. unfold vitals_ok.
  rewrite !andb_true_iff, !forallb_forall.
  assert (Hr : (forall r, In r vitals_ranges ->
                  (let '(f, lo, hi) := r in negb (out_of_range (get data f) lo hi)) = true)
               <-> (forall f lo hi, In (f, lo, hi) vitals_ranges ->
                      within (get data f) lo hi)).
  { split.
    - intros H.
      apply (proj2 (vitals_ranges_checks (fun f lo hi => within (get data f) lo hi))).
      repeat split;
        (apply out_of_range_within; [reflexivity | reflexivity |]);
        apply negb_true_iff;
        match goal with
        | |- negb (out_of_range (get data ?f) ?lo ?hi) = true =>
            apply (H (f, lo, hi)); cbn; auto 10
        end.
    - intros H [[f lo] hi] Hin. apply negb_true_iff.
      pose proof (H f lo hi Hin) as Hw. revert Hw. revert f lo hi Hin.
      apply (proj2 (vitals_ranges_checks (fun f lo hi =>
               within (get data f) lo hi -> out_of_range (get data f) lo hi = false))).
      repeat split; intros Hw;
        (apply out_of_range_within; [reflexivity | reflexivity | exact Hw]). }
  rewrite Hr. tauto.
Qed.

End ValidationInFull.

Section ValidationInFullWitness.
Import Py Np Predictor Validators Samples.

Lemma vitals_validation_accepts_iff_witness :
  validate_prediction_input nan_vitals_request = Ok [].
Proof.
  apply (proj2 (vitals_validation_accepts_iff nan_vitals_request [] eq_refl)).
  split; [|split; [|split]].
  - intros f Hin. cbn in Hin.
    repeat (destruct Hin as [<-|Hin]; [vm_compute; reflexivity|]). destruct Hin.
  - intros f lo hi Hin. cbn in Hin.
    repeat (destruct Hin as [[= <- <- <-]|Hin]; [left; vm_compute; reflexivity|]).
    destruct Hin.
  - vm_compute. reflexivity.
  - vm_compute. reflexivity.
Defined.

End ValidationInFullWitness.

(** ** Errors of validation and of the batch route *)

Section ValidationErrors.
Import Py Np Predictor Validators App Samples.

Context {numpy : Numpy}.

Lemma check_required_first_missing data pre f post :
  forallb (has_field data) pre = true -> has_field data f = false ->
  check_required data (pre ++ f :: post)
  = Raise (ValueError ("Missing required field: " ++ f)).
Proof.
  intros Hpre Hf. induction pre as [|x pre IH]; cbn [app check_required].
  - rewrite Hf. reflexivity.
  - cbn [forallb] in Hpre. apply andb_prop in Hpre as [-> Hpre]. cbn [negb].
    exact (IH Hpre).
Qed.

(** X12. Outside the symptoms-only mode, the error for an incomplete
    request names the first absent field in the fixed order age, gender,
    weight, systolic, diastolic, glucose, cholesterol, whatever the other
    fields hold. *)
Theorem first_missing_field_is_reported (data : request)
    (pre post : list string) (f : string) :
  symptoms_only_of (get_symptoms data) = false ->
  required_fields = (pre ++ f :: post)%list ->
  forallb (has_field data) pre = true ->
  has_field data f = false ->
  validate_prediction_input data
  = Raise (ValueError ("Missing required field: " ++ f)).
Proof.
  intros Hs Hr Hpre Hf. unfold validate_prediction_input.
  rewrite Hs, Hr. cbn [negb].
  rewrite (check_required_first_missing data pre f post Hpre Hf). reflexivity.
Qed.

Lemma check_required_value_error data fs e :
  check_required data fs = Raise e -> exists m, e = ValueError m.
Proof.
  induction fs as [|f fs IH]; cbn [check_required]; [discriminate|].
  destruct (has_field data f); cbn [negb]; [exact IH|].
  intros [= <-]. eauto.
Qed.

Lemma check_symptoms_value_error v e :
  check_symptoms v = Raise e -> exists m, e = ValueError m.
Proof.
  unfold check_symptoms. destruct (truthy_value v); [|discriminate].
  destruct v as [x|l]; [intros [= <-]; eauto|].
  destruct (50 <? List.length l)%nat; [intros [= <-]; eauto|].
  destruct (forallb is_number_or_str l); cbn [negb]; [discriminate|].
  intros [= <-]; eauto.
Qed.

(** [validate_prediction_input] raises nothing but [ValueError]. *)
Lemma validate_value_error data e :
  validate_prediction_input data = Raise e -> exists m, e = ValueError m.
Proof.
  unfold validate_prediction_input.
  destruct (symptoms_only_of (get_symptoms data)); cbn [negb bind].
  - apply check_symptoms_value_error.
  - destruct (check_required data required_fields) as [[]|e0] eqn:Ec; cbn [bind].
    2:{ intros [= <-]. exact (check_required_value_error _ _ _ Ec). }
    repeat match goal with
           | |- context [if ?c then Raise ?e' else _] =>
               destruct c; cbn [bind]; [intros [= <-]; eauto|]
           end.
    apply check_symptoms_value_error.
Qed.

(** X13. For a body read as a JSON object, or as nothing, [POST /validate]
    answers 200 or 400, never 500: it answers 200 exactly when the body is
    a non-empty object that [validate_prediction_input] accepts, which
    raises nothing but [ValueError]. *)
Theorem validate_route_answers_200_or_400 (data : option request) :
  (validate_input data = Http200 tt
   /\ exists d w, data = Some d /\ is_empty d = false
                  /\ validate_prediction_input d = Ok w)
  \/ (exists m, validate_input data = Http400 m
      /\ forall d w, data = Some d -> is_empty d = false ->
                     validate_prediction_input d <> Ok w).
Proof.
  unfold validate_input. destruct data as [d|]; cbn [handle_errors].
  2:{ right. eexists. split; [reflexivity|]. intros d w [=]. }
  destruct (is_empty d) eqn:Ee; cbn [handle_errors].
  { right. eexists. split; [reflexivity|]. intros d' w [= <-]. congruence. }
  destruct (validate_prediction_input d) as [w|e] eqn:Ev; cbn [bind handle_errors].
  - left. split; [reflexivity|]. exists d, w. auto.
  - right. destruct (validate_value_error d e Ev) as [m ->].
    exists m. split; [reflexivity|]. intros d' w [= <-] _. congruence.
Qed.

Lemma validate_each_first_error l k i d m :
  l !! i = Some d ->
  (forall j d', (j < i)%nat -> l !! j = Some d' ->
                exists w, validate_prediction_input d' = Ok w) ->
  validate_prediction_input d = Raise (ValueError m) ->
  validate_each k l
  = Raise (ValueError ("Prediction " ++ str_of_nat (k + i) ++ ": " ++ m)).
Proof.
  revert k i. induction l as [|x l IH]; intros k i Hi Hbefore He; [discriminate|].
  destruct i as [|i]; simpl in Hi.
  - injection Hi as ->. cbn [validate_each]. rewrite He, Nat.add_0_r. reflexivity.
  - cbn [validate_each].
    destruct (Hbefore 0%nat x ltac:(lia) eq_refl) as [w ->].
    replace (k + S i)%nat with (S k + i)%nat by lia.
    apply (IH (S k) i Hi); [|exact He].
    intros j d' Hj Hl. apply (Hbefore (S j) d'); [lia | exact Hl].
Qed.

(** X14. [validate_batch_input] on a list of at most 100 entries reports
    the first invalid entry: the message is that entry's own validation
    message prefixed by its zero-based position. *)
Theorem batch_validator_names_first_invalid_entry
    (l : list request) (i : nat) (d : request) (m : string) :
  (List.length l <= 100)%nat ->
  l !! i = Some d ->
  (forall j d', (j < i)%nat -> l !! j = Some d' ->
                exists w, validate_prediction_input d' = Ok w) ->
  validate_prediction_input d = Raise (ValueError m) ->
  validate_batch_input (Some l)
  = Raise (ValueError ("Prediction " ++ str_of_nat i ++ ": " ++ m)).
Proof.
  intros Hlen Hi Hbefore He. unfold validate_batch_input.
  destruct l as [|x l]; [discriminate|].
  cbn [List.length Nat.eqb]. apply Nat.ltb_ge in Hlen. cbn [List.length] in Hlen.
  rewrite Hlen.
  exact (validate_each_first_error (x :: l) 0 i d m Hi Hbefore He).
Qed.

Lemma validate_each_all l k :
  validate_each k l = Ok tt <-> validate_all l = Ok tt.
Proof.
  revert k. induction l as [|x l IH]; intros k; cbn [validate_each validate_all].
  - tauto.
  - destruct (validate_prediction_input x) as [w|e] eqn:Ev; cbn [bind].
    + apply IH.
    + destruct (validate_value_error x e Ev) as [m ->].
      split; discriminate.
Qed.

(** X15. The loop of [POST /predict-batch] and [validate_batch_input]
    accept the same lists of at most 100 entries, but for the empty list,
    which only the route accepts. *)
Theorem route_and_batch_validator_agree (l : list request) :
  (List.length l <= 100)%nat ->
  (validate_all l = Ok tt <-> l = [] \/ validate_batch_input (Some l) = Ok tt)
  /\ (l = [] -> validate_batch_input (Some l)
                = Raise (ValueError "Predictions list cannot be empty")).
Proof.
  intros Hlen. split; [|intros ->; reflexivity].
  unfold validate_batch_input. destruct l as [|x l].
  - cbn. split; auto.
  - apply Nat.ltb_ge in Hlen. rewrite Hlen. cbn [List.length Nat.eqb].
    rewrite validate_each_all. split; [auto|]. intros [[=]|H]; exact H.
Qed.

Lemma predict_all_first_error predictor l i d e acc :
  l !! i = Some d ->
  (forall j d', (j < i)%nat -> l !! j = Some d' ->
                exists r, Predictor.predict predictor d' = Ok r) ->
  Predictor.predict predictor d = Raise e ->
  predict_all predictor l acc = Raise e.
Proof.
  revert i acc. induction l as [|x l IH]; intros i acc Hi Hbefore He; [discriminate|].
  destruct i as [|i]; simpl in Hi.
  - injection Hi as ->. cbn [predict_all]. rewrite He. reflexivity.
  - cbn [predict_all]. destruct (Hbefore 0%nat x ltac:(lia) eq_refl) as [r ->].
    cbn [bind]. apply (IH i _ Hi); [|exact He].
    intros j d' Hj Hl. apply (Hbefore (S j) d'); [lia | exact Hl].
Qed.

(** X16. A batch is answered all or nothing: when every entry is valid and
    the classifier fails on one of them, the route answers with that
    failure alone (400 with its message for a [ValueError], 500 for any
    other exception) and none of the predictions already made. *)
Theorem batch_is_all_or_nothing (predictor : DiseasePredictor)
    (l : list request) (i : nat) (d : request) (e : exn) :
  (List.length l <= 100)%nat ->
  Forall (fun d => exists w, validate_prediction_input d = Ok w) l ->
  l !! i = Some d ->
  (forall j d', (j < i)%nat -> l !! j = Some d' ->
                exists r, Predictor.predict predictor d' = Ok r) ->
  Predictor.predict predictor d = Raise e ->
  predict_batch (Some predictor) (Some (Array l))
  = match e with
    | ValueError m => Http400 m
    | _ => Http500
    end.
Proof.
  intros Hlen Hv Hi Hbefore He. unfold predict_batch.
  apply Nat.ltb_ge in Hlen. rewrite Hlen.
  rewrite (validate_all_ok l Hv). cbn [bind].
  rewrite (predict_all_first_error predictor l i d e [] Hi Hbefore He).
  cbn [bind handle_errors]. destruct e; reflexivity.
Qed.

End ValidationErrors.

Section ValidationErrorsWitness.
Import Py Np Predictor Validators App Samples.

Lemma first_missing_field_is_reported_witness :
  validate_prediction_input age_gender_request
  = Raise (ValueError "Missing required field: weight").
Proof.
  apply (first_missing_field_is_reported age_gender_request ["age"; "gender"]
           ["blood_pressure_systolic"; "blood_pressure_diastolic";
            "glucose"; "cholesterol"] "weight");
    vm_compute; reflexivity.
Defined.

Lemma batch_validator_names_first_invalid_entry_witness :
  validate_batch_input (Some [vitals_request; missing_vitals_request])
  = Raise (ValueError "Prediction 1: Missing required field: age").
Proof.
  apply (batch_validator_names_first_invalid_entry
           [vitals_request; missing_vitals_request] 1 missing_vitals_request
           "Missing required field: age").
  - cbn. lia.
  - reflexivity.
  - intros [|j] d' Hj Hl; [|lia]. injection Hl as <-. exists []. vm_compute. reflexivity.
  - vm_compute. reflexivity.
Defined.

Lemma route_and_batch_validator_agree_witness :
  validate_all [vitals_request] = Ok tt
  <-> [vitals_request] = [] \/ validate_batch_input (Some [vitals_request]) = Ok tt.
Proof.
  apply (proj1 (route_and_batch_validator_agree [vitals_request]
                  ltac:(cbn; lia))).
Defined.

Lemma batch_is_all_or_nothing_witness :
  predict_batch (Some short_vocabulary_bundle)
    (Some (Array [vitals_request; two_symptoms_request]))
  = Http400 "X has a wrong number of features".
Proof.
  apply (batch_is_all_or_nothing short_vocabulary_bundle
           [vitals_request; two_symptoms_request] 1 two_symptoms_request
           (ValueError "X has a wrong number of features")).
  - cbn. lia.
  - constructor; [exists []; vm_compute; reflexivity|].
    constructor; [exists []; vm_compute; reflexivity|]. constructor.
  - reflexivity.
  - intros [|j] d' Hj Hl; [|lia]. injection Hl as <-. eexists. vm_compute. reflexivity.
  - vm_compute. reflexivity.
Defined.

End ValidationErrorsWitness.

(** ** explain_prediction *)

Section Explain.
Import Py Np Predictor Validators Samples.

Context {numpy : Numpy}.

Lemma explain_index_from_spec V idx m key :
  match explain_index_from idx V m !! key with
  | Some r =>
      (m !! key = Some r
       /\ forall j t, V !! j = Some t -> _norm (VStr t) <> key)
      \/ (exists j t, r = (idx + j)%nat /\ V !! j = Some t /\ _norm (VStr t) = key
                      /\ forall j' t', (j < j')%nat -> V !! j' = Some t' ->
                                       _norm (VStr t') <> key)
  | None =>
      m !! key = None /\ forall j t, V !! j = Some t -> _norm (VStr t) <> key
  end.
Proof.
  revert idx m. induction V as [|x V IH]; intros idx m; cbn [explain_index_from].
  - destruct (m !! key) eqn:E.
    + left. split; [reflexivity|]. intros j t Hj. discriminate.
    + split; [reflexivity|]. intros j t Hj. discriminate.
  - specialize (IH (S idx) (<[_norm (VStr x) := idx]> m)).
    destruct (explain_index_from (S idx) V (<[_norm (VStr x) := idx]> m) !! key)
      as [r|].
    + destruct IH as [[Hm Hnone]|(j & t & -> & Hj & Ht & Hlast)].
      * destruct (String.eqb_spec (_norm (VStr x)) key) as [He|Hne].
        -- rewrite He, lookup_insert_eq in Hm. injection Hm as <-.
           right. exists 0%nat, x. split; [lia|]. split; [reflexivity|].
           split; [exact He|]. intros [|j'] t' Hlt Hl; [lia|].
           simpl in Hl. exact (Hnone j' t' Hl).
        -- rewrite lookup_insert_ne in Hm by exact Hne.
           left. split; [exact Hm|]. intros [|j] t Hl; simpl in Hl.
           ++ injection Hl as <-. exact Hne.
           ++ exact (Hnone j t Hl).
      * right. exists (S j), t. split; [lia|]. split; [exact Hj|].
        split; [exact Ht|]. intros [|j'] t' Hlt Hl; [lia|].
        simpl in Hl. apply (Hlast j' t'); [lia | exact Hl].
    + destruct IH as [Hm Hnone].
      destruct (String.eqb_spec (_norm (VStr x)) key) as [He|Hne].
      * rewrite He, lookup_insert_eq in Hm. discriminate.
      * rewrite lookup_insert_ne in Hm by exact Hne.
        split; [exact Hm|]. intros [|j] t Hl; simpl in Hl.
        -- injection Hl as <-. exact Hne.
        -- exact (Hnone j t Hl).
Qed.

(** X17. The index that [explain_prediction] builds maps a key to the last
    vocabulary position whose entry has the key as its normal form (the
    index of [predict] keeps the first, and holds the variants too), and
    holds no other key. *)
Theorem explain_index_holds_last_entry (V : list string) (key : string) :
  match explain_index V !! key with
  | Some j =>
      (exists t, V !! j = Some t /\ _norm (VStr t) = key)
      /\ (forall j' t', (j < j')%nat -> V !! j' = Some t' ->
                        _norm (VStr t') <> key)
  | None => forall j t, V !! j = Some t -> _norm (VStr t) <> key
  end.
Proof.
  unfold explain_index. pose proof (explain_index_from_spec V 0 ∅ key) as H.
  destruct (explain_index_from 0 V ∅ !! key) as [r|].
  - destruct H as [[Hm _]|(j & t & -> & Hj & Ht & Hlast)].
    + rewrite lookup_empty in Hm. discriminate.
    + split; [exists t; auto | exact Hlast].
  - exact (proj2 H).
Qed.

Lemma fold_explain_vector ix l xs i :
  fold_left (explain_step ix) l xs !! i
  = match xs !! i with
    | Some x =>
        Some (if existsb (fun s => match ix !! _norm s with
                                   | Some j => (j =? i)%nat
                                   | None => false
                                   end) l
              then 1%float else x)
    | None => None
    end.
Proof.
  revert xs. induction l as [|s l IH]; intros xs.
  - cbn [fold_left existsb]. destruct (xs !! i); reflexivity.
  - cbn [fold_left existsb]. rewrite IH. unfold explain_step.
    destruct (ix !! _norm s) as [j|]; cbn [orb]; [|reflexivity].
    destruct (Nat.eqb_spec j i) as [->|Hne]; cbn [orb].
    + destruct (xs !! i) as [x|] eqn:E.
      * rewrite list_lookup_insert_eq by (apply (lookup_lt_Some _ _ _ E)).
        destruct (existsb _ l); reflexivity.
      * rewrite list_insert_ge by (apply lookup_ge_None; exact E).
        rewrite E. reflexivity.
    + rewrite list_lookup_insert_ne by exact Hne. reflexivity.
Qed.

Lemma fold_explain_length ix l xs :
  List.length (fold_left (explain_step ix) l xs) = List.length xs.
Proof.
  revert xs. induction l as [|s l IH]; intros xs; [reflexivity|].
  cbn [fold_left]. rewrite IH. unfold explain_step.
  destruct (ix !! _norm s); [apply length_insert | reflexivity].
Qed.

(** X18. For a bundle with a vocabulary and a request whose symptoms are a
    list, the vector that [explain_prediction] prepares for the explainers
    has one entry per vocabulary position: 1.0 where the normal form of
    some entry of the list, falsy or not, is a key of the index, 0.0
    elsewhere; no variant is tried. *)
Theorem explain_vector_marks (self : DiseasePredictor) (data : request)
    (symptoms : list scalar) :
  symptom_vocabulary self <> [] ->
  symptoms_field data = Some (VList symptoms) ->
  exists xs,
    explain_vector self data = NdFloat xs
    /\ List.length xs = List.length (symptom_vocabulary self)
    /\ forall i, (i < List.length (symptom_vocabulary self))%nat ->
         xs !! i = Some (if explain_marks (symptom_vocabulary self) symptoms i
                         then 1%float else 0%float).
Proof.
  intros HV Hs. unfold explain_vector. rewrite Hs.
  destruct (symptom_vocabulary self) as [|v0 V] eqn:EV; [congruence|].
  eexists. split; [reflexivity|]. split.
  - rewrite fold_explain_length. apply zeros_length.
  - intros i Hi. rewrite fold_explain_vector, (zeros_lookup _ _ Hi). reflexivity.
Qed.

(** X19. When the symptoms are a list of which none is matched, [predict]
    classifies the vector of the seven vitals, but the vector that
    [explain_prediction] prepares for the explainers is still the symptom
    vector, of the length of the vocabulary. *)
Theorem explainers_get_symptom_vector_after_fallback (self : DiseasePredictor)
    (data : request) (symptoms : list scalar) :
  symptom_vocabulary self <> [] ->
  symptoms_field data = Some (VList symptoms) ->
  Forall (fun s => is_hit (build_vocab_index (symptom_vocabulary self)) s = false)
         symptoms ->
  features_of self data = scaled_vitals self data
  /\ exists xs, explain_vector self data = NdFloat xs
                /\ List.length xs = List.length (symptom_vocabulary self).
Proof.
  intros HV Hs Hno. split.
  - unfold features_of. rewrite (select_features_no_hit self data symptoms Hs).
    + apply scale_vitals.
    + eapply Forall_impl; [exact Hno|]. cbn beta. intros s. unfold is_hit.
      destruct (truthy s); [|left; reflexivity].
      destruct (lookup_symptom _ s); [discriminate | right; reflexivity].
  - unfold explain_vector. rewrite Hs.
    destruct (symptom_vocabulary self) as [|v0 V] eqn:EV; [congruence|].
    eexists. split; [reflexivity|]. rewrite fold_explain_length. apply zeros_length.
Qed.

Lemma gt_checked_number v k :
  is_number v = true -> gt_checked v k = Ok (gt_int v k).
Proof. destruct v; cbn; congruence. Qed.

Lemma gt_checked_not_number v k :
  is_number v = false -> exists m, gt_checked v k = Raise (TypeError m).
Proof. destruct v; cbn; try discriminate; eauto. Qed.

Lemma get_or_number data f lo hi :
  has_field data f = true -> within (get data f) lo hi ->
  is_number (get_or data f (VInt 0)) = true.
Proof.
  unfold has_field, get, get_or, within.
  destruct (fields data !! f) as [[|b|z|x|s]|]; try reflexivity; try tauto; discriminate.
Qed.

Lemma append_assoc (a b c : string) : ((a ++ b) ++ c = a ++ (b ++ c))%string.
Proof.
  induction a as [|x a IH]; [reflexivity|].
  change (String x ((a ++ b) ++ c) = String x (a ++ (b ++ c)))%string.
  rewrite IH. reflexivity.
Qed.

Lemma append_empty_r (a : string) : (a ++ EmptyString = a)%string.
Proof.
  induction a as [|x a IH]; [reflexivity|].
  change (String x (a ++ EmptyString) = String x a)%string.
  rewrite IH. reflexivity.
Qed.

Lemma generate_explanation_numbers data r :
  is_number (get_or data "glucose" (VInt 0)) = true ->
  is_number (get_or data "cholesterol" (VInt 0)) = true ->
  is_number (get_or data "blood_pressure_systolic" (VInt 0)) = true ->
  _generate_explanation data r = Ok (headline r ++ insights data).
Proof.
  intros Hg Hc Hs. unfold _generate_explanation, headline, insights.
  rewrite (gt_checked_number _ 125 Hg), (gt_checked_number _ 200 Hc),
    (gt_checked_number _ 140 Hs). cbn [bind]. f_equal.
  destruct (gt_int (get_or data "glucose" (VInt 0)) 125),
    (gt_int (get_or data "cholesterol" (VInt 0)) 200),
    (gt_int (get_or data "blood_pressure_systolic" (VInt 0)) 140);
    rewrite ?append_assoc, ?append_empty_r; reflexivity.
Qed.

Lemma has_field_not_empty data f : has_field data f = true -> is_empty data = false.
Proof.
  unfold has_field, is_empty. intros H.
  destruct (symptoms_field data); [reflexivity|].
  destruct (map_to_list (fields data)) eqn:E; [|reflexivity].
  apply map_to_list_empty_iff in E. rewrite E, lookup_empty in H. discriminate.
Qed.

Lemma out_of_range_number v lo hi : out_of_range v lo hi = false -> is_number v = true.
Proof. unfold out_of_range. destruct (is_number v); [reflexivity | discriminate]. Qed.

Lemma get_or_get data f dflt : has_field data f = true -> get_or data f dflt = get data f.
Proof. unfold has_field, get_or, get. destruct (fields data !! f); [reflexivity | discriminate]. Qed.

(** The three vitals read by [_generate_explanation] are numbers in a
    request whose vitals pass the checks. *)
Lemma vitals_ok_numbers data :
  vitals_ok data = true ->
  is_number (get_or data "glucose" (VInt 0)) = true
  /\ is_number (get_or data "cholesterol" (VInt 0)) = true
  /\ is_number (get_or data "blood_pressure_systolic" (VInt 0)) = true
  /\ is_empty data = false.
Proof.
  unfold vitals_ok. rewrite !andb_true_iff. intros [[Hf Hr] _].
  cbn [forallb required_fields vitals_ranges] in Hf, Hr.
  rewrite !andb_true_iff in Hf. rewrite !andb_true_iff, !negb_true_iff in Hr.
  destruct Hf as (Ha & _ & _ & Hs & _ & Hg & Hc & _).
  destruct Hr as (_ & _ & Hs' & _ & Hg' & Hc' & _).
  rewrite (get_or_get _ _ _ Hg), (get_or_get _ _ _ Hc), (get_or_get _ _ _ Hs).
  repeat split; try (eapply out_of_range_number; eassumption).
  exact (has_field_not_empty data "age" Ha).
Qed.

Lemma validate_ok_cases data w :
  validate_prediction_input data = Ok w ->
  is_empty data = false
  /\ (symptoms_only_of (get_symptoms data) = true \/ vitals_ok data = true).
Proof.
  intros H. apply validate_accepted in H as [H _].
  destruct (symptoms_only_of (get_symptoms data)) eqn:Es; cbn [orb] in H.
  - split; [|left; reflexivity]. unfold is_empty.
    unfold get_symptoms in Es. destruct (symptoms_field data); [reflexivity|].
    discriminate.
  - split; [|right; exact H]. apply (vitals_ok_numbers data H).
Qed.

(** X20. For a request validated outside the symptoms-only mode,
    [POST /explain] answers as [POST /predict] does: the same error, or
    the same prediction with the feature importances and a text made of
    the headline and of the sentences on glucose above 125, cholesterol
    above 200 and systolic pressure above 140. *)
Theorem explain_follows_predict_on_vitals_requests
    (predictor : DiseasePredictor) (importances : option (list float))
    (data : request) (w : list scalar) :
  symptoms_only_of (get_symptoms data) = false ->
  validate_prediction_input data = Ok w ->
  App.explain_prediction (Some predictor) importances (Some data)
  = match App.predict (Some predictor) (Some data) with
    | App.Http200 r =>
        App.Http200 {| explained_prediction := r;
                       explanation_text := headline r ++ insights data;
                       feature_importance := get_feature_importance importances |}
    | App.Http400 m => App.Http400 m
    | App.Http500 => App.Http500
    | App.Http503 => App.Http503
    end.
Proof.
  intros Hs Hv. destruct (validate_ok_cases data w Hv) as [He [Hso|Hok]];
    [congruence|].
  destruct (vitals_ok_numbers data Hok) as (Hg & Hc & Hp & _).
  unfold App.explain_prediction, App.predict, explain_prediction.
  rewrite He, Hv. cbn [bind].
  destruct (predict predictor data) as [r|[m|m]]; cbn [bind App.handle_errors];
    try reflexivity.
  rewrite (generate_explanation_numbers data r Hg Hc Hp). reflexivity.
Qed.

(** X21. A validated request in which glucose, cholesterol or systolic
    pressure holds something that is no number (which validation lets
    through in the symptoms-only mode alone) is answered 200 by
    [POST /validate] and by [POST /predict] when the classifier succeeds,
    and 500 by [POST /explain]: the explanation text compares the value
    with a number. *)
Theorem explain_breaks_on_unchecked_vitals
    (predictor : DiseasePredictor) (importances : option (list float))
    (data : request) (w : list scalar) (r : Prediction) :
  validate_prediction_input data = Ok w ->
  predict predictor data = Ok r ->
  is_number (get_or data "glucose" (VInt 0)) = false
  \/ is_number (get_or data "cholesterol" (VInt 0)) = false
  \/ is_number (get_or data "blood_pressure_systolic" (VInt 0)) = false ->
  symptoms_only_of (get_symptoms data) = true
  /\ App.validate_input (Some data) = App.Http200 tt
  /\ App.predict (Some predictor) (Some data) = App.Http200 r
  /\ App.explain_prediction (Some predictor) importances (Some data) = App.Http500.
Proof.
  intros Hv Hp Hn. destruct (validate_ok_cases data w Hv) as [He Hmode].
  assert (Hso : symptoms_only_of (get_symptoms data) = true).
  { destruct Hmode as [Hso|Hok]; [exact Hso|].
    destruct (vitals_ok_numbers data Hok) as (Hg & Hc & Hs & _).
    destruct Hn as [Hn|[Hn|Hn]]; congruence. }
  split; [exact Hso|].
  unfold App.validate_input, App.predict, App.explain_prediction, explain_prediction.
  rewrite He, Hv, Hp. cbn [bind App.handle_errors].
  split; [reflexivity|]. split; [reflexivity|].
  assert (Ht : exists m, _generate_explanation data r = Raise (TypeError m)).
  { unfold _generate_explanation.
    destruct (is_number (get_or data "glucose" (VInt 0))) eqn:Eg.
    - rewrite (gt_checked_number _ 125 Eg). cbn [bind].
      destruct (is_number (get_or data "cholesterol" (VInt 0))) eqn:Ec.
      + rewrite (gt_checked_number _ 200 Ec). cbn [bind].
        destruct Hn as [Hn|[Hn|Hn]]; try discriminate.
        destruct (gt_checked_not_number _ 140 Hn) as [m ->]. cbn [bind]. eauto.
      + destruct (gt_checked_not_number _ 200 Ec) as [m ->]. cbn [bind]. eauto.
    - destruct (gt_checked_not_number _ 125 Eg) as [m ->]. cbn [bind]. eauto. }
  destruct Ht as [m ->]. reflexivity.
Qed.

End Explain.

Section ExplainWitness.
Import Py Np Predictor Validators Samples.

Lemma explain_vector_marks_witness :
  exists xs,
    explain_vector bundle symptom_request = NdFloat xs
    /\ List.length xs = List.length (symptom_vocabulary bundle)
    /\ forall i, (i < List.length (symptom_vocabulary bundle))%nat ->
         xs !! i = Some (if explain_marks (symptom_vocabulary bundle)
                              [VStr "Chest Pain!"; VStr "coughing"] i
                         then 1%float else 0%float).
Proof.
  apply (explain_vector_marks bundle symptom_request
           [VStr "Chest Pain!"; VStr "coughing"]).
  - discriminate.
  - reflexivity.
Defined.

Lemma explainers_get_symptom_vector_after_fallback_witness :
  features_of bundle unknown_symptom_request
  = scaled_vitals bundle unknown_symptom_request
  /\ exists xs, explain_vector bundle unknown_symptom_request = NdFloat xs
                /\ List.length xs = List.length (symptom_vocabulary bundle).
Proof.
  apply (explainers_get_symptom_vector_after_fallback bundle
           unknown_symptom_request [VStr "qwerty_nonexistent"]).
  - discriminate.
  - reflexivity.
  - constructor; [vm_compute; reflexivity | constructor].
Defined.

Lemma explain_follows_predict_on_vitals_requests_witness :
  exists r,
    App.predict (Some bundle) (Some high_vitals_request) = App.Http200 r
    /\ App.explain_prediction (Some bundle) None (Some high_vitals_request)
       = App.Http200
           {| explained_prediction := r;
              explanation_text :=
                "Based on the provided health metrics, the model predicts 0 with 70.0% confidence. Risk level: Medium. High glucose levels detected. High blood pressure detected. ";
              feature_importance := get_feature_importance None |}.
Proof.
  assert (E : App.predict (Some bundle) (Some high_vitals_request)
              = App.Http200
                  {| predicted_disease := "0"; disease_code := 0;
                     confidence := 0.7; confidence_percent := 70;
                     risk_level := "Medium"; used_symptoms_path := false;
                     matched_symptoms := 0; model_type := "RandomForestClassifier";
                     top_k := [("0", 0.7%float); ("1", 0.2%float); ("2", 0.1%float)] |})
    by (vm_compute; reflexivity).
  eexists. split; [exact E|].
  rewrite (explain_follows_predict_on_vitals_requests bundle None
             high_vitals_request [] eq_refl eq_refl), E.
  vm_compute. reflexivity.
Defined.

Lemma explain_breaks_on_unchecked_vitals_witness :
  App.validate_input (Some text_glucose_request) = App.Http200 tt
  /\ App.explain_prediction (Some bundle) None (Some text_glucose_request)
     = App.Http500.
Proof.
  pose (r := {| predicted_disease := "0"; disease_code := 0;
                confidence := 0.7; confidence_percent := 70;
                risk_level := "Medium"; used_symptoms_path := true;
                matched_symptoms := 1; model_type := "RandomForestClassifier";
                top_k := [("0", 0.7%float); ("1", 0.2%float); ("2", 0.1%float)] |}).
  assert (Hv : validate_prediction_input text_glucose_request = Ok [])
    by (vm_compute; reflexivity).
  assert (Hp : predict bundle text_glucose_request = Ok r)
    by (vm_compute; reflexivity).
  assert (Hn : is_number (get_or text_glucose_request "glucose" (VInt 0)) = false
               \/ is_number (get_or text_glucose_request "cholesterol" (VInt 0)) = false
               \/ is_number (get_or text_glucose_request "blood_pressure_systolic" (VInt 0))
                  = false)
    by (left; vm_compute; reflexivity).
  pose proof (explain_breaks_on_unchecked_vitals bundle None text_glucose_request
                [] r Hv Hp Hn) as H.
  exact (conj (proj1 (proj2 H)) (proj2 (proj2 (proj2 H)))).
Defined.

End ExplainWitness.

(** ** Canonical text and the normalisers *)

Section CanonicalText.
Import Py Np Predictor Validators Samples.

Context {numpy : Numpy}.

Lemma kept_char c :
  is_kept c = true ->
  lower_char c = c /\ isspace c = is_space c /\ is_sep c = is_space c.
Proof.
  destruct c as [[] [] [] [] [] [] [] []]; vm_compute; intros H;
    try discriminate H; repeat split.
Qed.

Lemma space_char c : is_space c = true -> c = " "%char.
Proof.
  destruct c as [[] [] [] [] [] [] [] []]; vm_compute; intros H;
    try discriminate H; reflexivity.
Qed.

Lemma lower_kept s : all_chars is_kept s = true -> lower s = s.
Proof.
  induction s as [|c s IH]; [reflexivity|]. cbn [all_chars lower]. intros H.
  apply andb_prop in H as [Hc H]. rewrite (IH H).
  rewrite (proj1 (kept_char c Hc)). reflexivity.
Qed.

Lemma lstrip_kept s :
  all_chars is_kept s = true -> starts_with_space s = false -> lstrip s = s.
Proof.
  destruct s as [|c s]; [reflexivity|]. cbn [all_chars lstrip starts_with_space].
  intros H Hs. apply andb_prop in H as [Hc _].
  rewrite (proj1 (proj2 (kept_char c Hc))), Hs. reflexivity.
Qed.

Lemma rstrip_kept s :
  all_chars is_kept s = true -> ends_with_space s = false -> rstrip s = s.
Proof.
  induction s as [|c s IH]; [reflexivity|]. cbn [all_chars]. intros H He.
  apply andb_prop in H as [Hc H]. cbn [rstrip].
  destruct s as [|d s'].
  - cbn [rstrip]. cbn [ends_with_space] in He.
    rewrite (proj1 (proj2 (kept_char c Hc))), He. reflexivity.
  - change (ends_with_space (String d s') = false) in He.
    rewrite (IH H He). reflexivity.
Qed.

Lemma sub_seps_kept in_run s :
  all_chars is_kept s = true -> no_double_space s = true ->
  (in_run = true -> starts_with_space s = false) ->
  sub_seps_from in_run s = s.
Proof.
  revert in_run. induction s as [|c s IH]; intros in_run H Hd Hr; [reflexivity|].
  cbn [all_chars] in H. apply andb_prop in H as [Hc H].
  cbn [no_double_space] in Hd. apply andb_prop in Hd as [Hcd Hd].
  cbn [sub_seps_from starts_with_space] in *.
  rewrite (proj2 (proj2 (kept_char c Hc))).
  destruct (is_space c) eqn:Es.
  - destruct in_run; [specialize (Hr eq_refl); discriminate|].
    rewrite (space_char c Es). f_equal. apply IH; [exact H | exact Hd|].
    intros _. cbn [andb negb] in Hcd. apply negb_true_iff in Hcd. exact Hcd.
  - f_equal. apply IH; [exact H | exact Hd | discriminate].
Qed.

Lemma sub_nonalnum_kept s : all_chars is_kept s = true -> sub_nonalnum s = s.
Proof.
  induction s as [|c s IH]; [reflexivity|]. cbn [all_chars sub_nonalnum]. intros H.
  apply andb_prop in H as [Hc H]. rewrite Hc, (IH H). reflexivity.
Qed.

(** X22. Canonical text, made of lowercase letters, digits and single
    spaces with no space at either end, is left as it is by both
    normalisers; on such text they agree and normalising again changes
    nothing. *)
Theorem canonical_text_is_fixed_point (s : string) :
  canonical s = true ->
  _norm (VStr s) = s /\ normalize_symptom (VStr s) = s.
Proof.
  unfold canonical. rewrite !andb_true_iff, !negb_true_iff.
  intros [[[Hk Hs] He] Hd].
  unfold _norm, normalize_symptom, strip, sub_seps. cbn [str].
  rewrite (lower_kept s Hk), (lstrip_kept s Hk Hs), (rstrip_kept s Hk He).
  rewrite (lower_kept s Hk).
  rewrite (sub_seps_kept false s Hk Hd) by discriminate.
  rewrite (sub_nonalnum_kept s Hk).
  rewrite (lstrip_kept s Hk Hs), (rstrip_kept s Hk He). split; reflexivity.
Qed.

End CanonicalText.

Section CanonicalTextWitness.
Import Py Np Predictor Validators Samples.

Lemma canonical_text_is_fixed_point_witness :
  _norm (VStr "shortness of breath") = "shortness of breath"
  /\ normalize_symptom (VStr "shortness of breath") = "shortness of breath".
Proof.
  apply (canonical_text_is_fixed_point "shortness of breath").
  vm_compute. reflexivity.
Defined.

End CanonicalTextWitness.

(** ** The status codes of [POST /predict] *)

Section PredictRoute.
Import Py Np Predictor Validators Samples.

Context {numpy : Numpy}.

Lemma predict_type_error self data m :
  predict self data = Raise (TypeError m)
  <-> predict_class (model self) (features_of self data) = Raise (TypeError m).
Proof.
  rewrite predict_respond. unfold respond.
  destruct (predict_class (model self) (features_of self data)) as [c|e0];
    cbn [bind]; [|split; intros [= ->]; reflexivity].
  split; [|discriminate].
  destruct (match predict_proba (model self) with
            | Some proba =>
                try_default (do p <- proba (features_of self data); Ok (Some p)) None
            | None => None
            end) as [[|x xs]|]; cbn [Np.max bind]; discriminate.
Qed.

(** X23. For a body read as a JSON object, or as nothing, [POST /predict]
    with a loaded model answers 500 in one case only: the request passed
    validation and the classifier's [predict] raised an exception that is
    no [ValueError].  No request that fails validation, and no empty
    distribution returned by [predict_proba], is answered 500. *)
Theorem predict_route_500_only_from_classifier (predictor : DiseasePredictor)
    (data : option request) :
  App.predict (Some predictor) data = App.Http500
  <-> exists d w m,
        data = Some d
        /\ validate_prediction_input d = Ok w
        /\ predict_class (model predictor) (features_of predictor d)
           = Raise (TypeError m).
Proof.
  unfold App.predict. destruct data as [d|]; cbn [App.handle_errors].
  2:{ split; [discriminate | intros (d & w & m & [=] & _)]. }
  destruct (is_empty d) eqn:Ee; cbn [App.handle_errors].
  { split; [discriminate|]. intros (d' & w & m & [= <-] & Hv & _).
    destruct (validate_ok_cases d w Hv) as [He _]. congruence. }
  destruct (validate_prediction_input d) as [w|e] eqn:Ev; cbn [bind].
  - destruct (predict predictor d) as [r|[m|m]] eqn:Ep; cbn [bind App.handle_errors].
    + split; [discriminate|]. intros (d' & w' & m & [= <-] & _ & Hc).
      apply predict_type_error in Hc. congruence.
    + split; [discriminate|]. intros (d' & w' & m' & [= <-] & _ & Hc).
      apply predict_type_error in Hc. congruence.
    + split; [|reflexivity]. intros _. exists d, w, m.
      split; [reflexivity|]. split; [exact Ev|].
      apply predict_type_error. exact Ep.
  - destruct (validate_value_error d e Ev) as [m ->]. cbn [App.handle_errors].
    split; [discriminate|]. intros (d' & w & m' & [= <-] & Hv & _). congruence.
Qed.

End PredictRoute.

(** ** The flags of a response *)

Section ResponseFlags.
Import Py Np Predictor Validators Samples.

Context {numpy : Numpy}.

Lemma respond_used self features used r :
  respond self features used = Ok r ->
  used_symptoms_path r = used /\ (used = false -> matched_symptoms r = 0).
Proof.
  unfold respond.
  destruct (predict_class (model self) features) as [c|e]; cbn [bind]; [|discriminate].
  destruct (match predict_proba (model self) with
            | Some proba => try_default (do p <- proba features; Ok (Some p)) None
            | None => None
            end) as [p|]; cbn [bind].
  - destruct (Np.max p) as [conf|e]; cbn [bind]; [|discriminate].
    intros [= <-]. cbn. split; [reflexivity|]. intros ->.
    destruct features; reflexivity.
  - intros [= <-]. cbn. split; [reflexivity|]. intros ->.
    destruct features; reflexivity.
Qed.

Lemma lookup_symptom_valid V s j :
  lookup_symptom (build_vocab_index V) s = Some j -> (j < List.length V)%nat.
Proof.
  unfold lookup_symptom.
  destruct (find_hit (build_vocab_index V) (_variants (_norm s))) as [hit|];
    [|discriminate].
  rewrite build_vocab_index_lookup. intros H.
  destruct (first_owner_spec _ _ _ H) as [[t [Ht _]] _].
  exact (lookup_lt_Some _ _ _ Ht).
Qed.

Lemma some_hit_marks V l :
  Exists (fun x => x = 1%float) (feature_vec (match_symptoms V l))
  <-> Exists (fun s => is_hit (build_vocab_index V) s = true) l.
Proof.
  assert (Hlen : List.length (feature_vec (match_symptoms V l)) = List.length V)
    by (unfold match_symptoms; rewrite fold_match_length; apply zeros_length).
  assert (Hvec : forall i, (i < List.length V)%nat ->
            feature_vec (match_symptoms V l) !! i
            = Some (if hits_position (build_vocab_index V) l i
                    then 1%float else 0%float)).
  { intros i Hi. unfold match_symptoms. rewrite fold_match_vector. cbn [feature_vec].
    rewrite (zeros_lookup _ _ Hi). reflexivity. }
  rewrite !List.Exists_exists. split.
  - intros [x [Hin ->]]. apply list_elem_of_In, list_elem_of_lookup in Hin as [i Hi].
    pose proof (lookup_lt_Some _ _ _ Hi) as Hlt. rewrite Hlen in Hlt.
    rewrite (Hvec i Hlt) in Hi.
    destruct (hits_position (build_vocab_index V) l i) eqn:Eh; [|discriminate Hi].
    unfold hits_position in Eh. apply existsb_exists in Eh as [s [Hs Hf]].
    exists s. split; [exact Hs|]. unfold is_hit.
    destruct (truthy s); [|discriminate].
    destruct (lookup_symptom (build_vocab_index V) s); [reflexivity | discriminate].
  - intros [s [Hs Hh]]. exists 1%float. split; [|reflexivity].
    unfold is_hit in Hh. apply andb_prop in Hh as [Ht Hl].
    destruct (lookup_symptom (build_vocab_index V) s) as [j|] eqn:Ej; [|discriminate].
    pose proof (lookup_symptom_valid V s j Ej) as Hj.
    apply list_elem_of_In, list_elem_of_lookup. exists j. rewrite (Hvec j Hj).
    replace (hits_position (build_vocab_index V) l j) with true; [reflexivity|].
    symmetry. unfold hits_position. apply existsb_exists. exists s.
    split; [exact Hs|]. rewrite Ht, Ej, Nat.eqb_refl. reflexivity.
Qed.

Lemma select_features_flag self data :
  snd (select_features self data) = true
  <-> exists symptoms,
        symptoms_field data = Some (VList symptoms)
        /\ Exists (fun s => is_hit (build_vocab_index (symptom_vocabulary self)) s = true)
                  symptoms.
Proof.
  unfold select_features.
  destruct (symptoms_field data) as [[x|l]|] eqn:Ef.
  - destruct (symptom_vocabulary self); cbn [snd];
      (split; [discriminate | intros [l0 [[=] _]]]).
  - destruct (symptom_vocabulary self) as [|v0 V] eqn:EV.
    + cbn [snd]. split; [discriminate|]. intros [l' [[= <-] H]].
      apply some_hit_marks in H.
      assert (Hlen : List.length (feature_vec (match_symptoms [] l)) = 0%nat)
        by (unfold match_symptoms; rewrite fold_match_length; reflexivity).
      destruct (feature_vec (match_symptoms [] l)); [inversion H | discriminate Hlen].
    + pose proof (some_hit_marks (v0 :: V) l) as Hm.
      pose proof (sum_one_hot _ (match_symptoms_one_hot (v0 :: V) l)) as Hs.
      destruct (0 <? sum (feature_vec (match_symptoms (v0 :: V) l)))%float eqn:E;
        cbn [snd].
      * split; [|reflexivity]. intros _. exists l. split; [reflexivity|].
        apply Hm, Hs. reflexivity.
      * split; [discriminate|]. intros [l' [[= <-] H]].
        apply Hm, Hs in H. discriminate H.
  - destruct (symptom_vocabulary self); cbn [snd];
      (split; [discriminate | intros [l0 [[=] _]]]).
Qed.

(** X24. In a prediction, [used_symptoms_path] is true exactly when the
    symptoms of the request are a list of which some truthy entry is found
    in the vocabulary index; when it is false, [matched_symptoms] is 0. *)
Theorem symptom_path_flag_iff_some_symptom_found (self : DiseasePredictor)
    (data : request) (r : Prediction) :
  predict self data = Ok r ->
  (used_symptoms_path r = true
   <-> exists symptoms,
         symptoms_field data = Some (VList symptoms)
         /\ Exists (fun s => is_hit (build_vocab_index (symptom_vocabulary self)) s = true)
                   symptoms)
  /\ (used_symptoms_path r = false -> matched_symptoms r = 0).
Proof.
  rewrite predict_respond. intros H.
  destruct (respond_used _ _ _ _ H) as [Hu Hm]. rewrite Hu. split.
  - apply select_features_flag.
  - exact Hm.
Qed.

End ResponseFlags.

Section ResponseFlagsWitness.
Import Py Np Predictor Validators Samples.

Lemma symptom_path_flag_iff_some_symptom_found_witness :
  exists r, predict bundle symptom_request = Ok r /\ used_symptoms_path r = true.
Proof.
  pose (r := {| predicted_disease := "0"; disease_code := 0;
                confidence := 0.7; confidence_percent := 70;
                risk_level := "Medium"; used_symptoms_path := true;
                matched_symptoms := 2; model_type := "RandomForestClassifier";
                top_k := [("0", 0.7%float); ("1", 0.2%float); ("2", 0.1%float)] |}).
  assert (E : predict bundle symptom_request = Ok r) by (vm_compute; reflexivity).
  exists r. split; [exact E|].
  apply (proj2 (proj1 (symptom_path_flag_iff_some_symptom_found bundle
                         symptom_request r E))).
  exists [VStr "Chest Pain!"; VStr "coughing"]. split; [reflexivity|].
  apply Exists_cons_hd. vm_compute. reflexivity.
Defined.

End ResponseFlagsWitness.
